(** * api-predict: DePIN compatibility scoring, aggregation and catalog loading

    A shallow embedding of
      - [internal/models]   (records, [GetPerformanceRating], [GetSystemRating]),
      - [internal/service]  ([analyzeProjectCompatibility], [PredictCompatibility], ...),
      - [internal/data]     ([LoadDePINSpecs], [parseProjectRecord], [validateProject], ...)
    followed by the properties of the specification.

    Conventions.
      - A Go [int] is a [Z]; the one operation of the code that can leave the
        64-bit range is [x*2], written [int_mul] with its wrap-around.  A
        length or a counter is a [nat].
      - A Go [float64] is Rocq's primitive binary64 [float]; literals are the
        nearest binary64 value, as in Go; [+ - * /] round to nearest-even.
      - A Go [string] is a byte string, which the functions of package
        [strings] read as UTF-8; a [rune] is a [Z].  The case tables of
        package [unicode] are a parameter ([CaseTables]).
      - An [error] is its message.
      - [time.Now()] is an explicit clock argument. *)

Set Warnings "-inexact-float".
From Stdlib Require Import ZArith List String Ascii Bool Lia.
From Stdlib Require Import PrimFloat Uint63 Permutation DecimalString.
From stdpp Require Import base gmap strings list.

Local Open Scope Z_scope.

(* ===================================================================== *)
(** ** Go built-ins and standard-library functions used by the code *)
(* ===================================================================== *)

Module Go.

(** [int] arithmetic: two's complement, 64 bits. *)
Definition int_wrap (z : Z) : Z := (z + 2 ^ 63) mod 2 ^ 64 - 2 ^ 63.
Definition int_mul (a b : Z) : Z := int_wrap (a * b).
Definition int_min : Z := - 2 ^ 63.
Definition int_max : Z := 2 ^ 63 - 1.

(** [%d] of [fmt.Sprintf]. *)
Definition fmt_d (z : Z) : string := NilZero.string_of_int (Z.to_int z).

(** [float64(n)] for a non-negative [int] such as [len(xs)]. *)
Definition float64_of_len (n : nat) : float :=
  PrimFloat.of_uint63 (Uint63.of_Z (Z.of_nat n)).

(** [math.Max] and [math.Min], with their special cases. *)
Definition math_Max (x y : float) : float :=
  if (x =? infinity)%float || (y =? infinity)%float then infinity
  else if is_nan x || is_nan y then nan
  else if (x =? 0)%float && (x =? y)%float then (if get_sign x then y else x)
  else if (y <? x)%float then x else y.

Definition math_Min (x y : float) : float :=
  if (x =? neg_infinity)%float || (y =? neg_infinity)%float then neg_infinity
  else if is_nan x || is_nan y then nan
  else if (x =? 0)%float && (x =? y)%float then (if get_sign x then x else y)
  else if (x <? y)%float then x else y.

(** *** package strings *)

(** [strings.HasPrefix s p], with the arguments in the order that makes the
    recursion structural on the prefix. *)
Fixpoint has_prefix (p s : string) : bool :=
  match p, s with
  | EmptyString, _ => true
  | String _ _, EmptyString => false
  | String a p', String b s' => Ascii.eqb a b && has_prefix p' s'
  end.

(** [strings.Contains s substr]. *)
Fixpoint Contains (s substr : string) : bool :=
  has_prefix substr s ||
  match s with
  | EmptyString => false
  | String _ s' => Contains s' substr
  end.

(** [strings.Split s (string sep)] for a one-byte separator: the pieces
    between separators, [n+1] pieces for [n] separators. *)
Fixpoint Split (s : string) (sep : ascii) : list string :=
  match s with
  | EmptyString => [EmptyString]
  | String c s' =>
      if Ascii.eqb c sep then EmptyString :: Split s' sep
      else match Split s' sep with
           | piece :: rest => String c piece :: rest
           | [] => [String c EmptyString]
           end
  end.

(** [strings.Join elems sep]. *)
Fixpoint Join (elems : list string) (sep : string) : string :=
  match elems with
  | [] => EmptyString
  | [e] => e
  | e :: rest => e +:+ sep +:+ Join rest sep
  end.

Fixpoint map_bytes (f : ascii -> ascii) (s : string) : string :=
  match s with
  | EmptyString => EmptyString
  | String c s' => String (f c) (map_bytes f s')
  end.

(** [strings.ReplaceAll s (string old) (string new)] for one-byte [old]
    and [new]. *)
Definition ReplaceAll (s : string) (old new : ascii) : string :=
  map_bytes (fun c => if Ascii.eqb c old then new else c) s.

(** *** package unicode/utf8

    A [rune] is a [Z], a byte of a string an [ascii]. *)

Definition byte_of (c : ascii) : Z := Z.of_N (N_of_ascii c).
Definition of_byte (b : Z) : ascii := ascii_of_N (Z.to_N b).

Definition RuneError : Z := 0xFFFD.
Definition RuneSelf : Z := 0x80.
Definition MaxRune : Z := 0x10FFFF.

(** [s[i]], for an index in range. *)
Definition byte_at (s : string) (i : nat) : Z :=
  match String.get i s with
  | Some c => byte_of c
  | None => 0
  end.

(** [utf8.DecodeRuneInString]: the first rune of [s] and its width; a byte
    that starts no well-formed encoding is [RuneError] of width 1.  The
    [first] and [acceptRanges] tables are written as comparisons. *)
Definition DecodeRuneInString (s : string) : Z * nat :=
  match s with
  | EmptyString => (RuneError, 0%nat)
  | String c0 t0 =>
      let s0 := byte_of c0 in
      if s0 <? RuneSelf then (s0, 1%nat)
      else if (s0 <? 0xC2) || (0xF4 <? s0) then (RuneError, 1%nat)
      else
        let sz := if s0 <? 0xE0 then 2%nat else if s0 <? 0xF0 then 3%nat else 4%nat in
        let lo := if s0 =? 0xE0 then 0xA0 else if s0 =? 0xF0 then 0x90 else 0x80 in
        let hi := if s0 =? 0xED then 0x9F else if s0 =? 0xF4 then 0x8F else 0xBF in
        if (String.length s <? sz)%nat then (RuneError, 1%nat)
        else
          match t0 with
          | EmptyString => (RuneError, 1%nat)
          | String c1 t1 =>
              let s1 := byte_of c1 in
              if (s1 <? lo) || (hi <? s1) then (RuneError, 1%nat)
              else if (sz <=? 2)%nat then
                (Z.lor (Z.shiftl (Z.land s0 0x1F) 6) (Z.land s1 0x3F), 2%nat)
              else
                match t1 with
                | EmptyString => (RuneError, 1%nat)
                | String c2 t2 =>
                    let s2 := byte_of c2 in
                    if (s2 <? 0x80) || (0xBF <? s2) then (RuneError, 1%nat)
                    else if (sz <=? 3)%nat then
                      (Z.lor (Z.shiftl (Z.land s0 0x0F) 12)
                         (Z.lor (Z.shiftl (Z.land s1 0x3F) 6) (Z.land s2 0x3F)),
                       3%nat)
                    else
                      match t2 with
                      | EmptyString => (RuneError, 1%nat)
                      | String c3 _ =>
                          let s3 := byte_of c3 in
                          if (s3 <? 0x80) || (0xBF <? s3) then (RuneError, 1%nat)
                          else
                            (Z.lor (Z.shiftl (Z.land s0 0x07) 18)
                               (Z.lor (Z.shiftl (Z.land s1 0x3F) 12)
                                  (Z.lor (Z.shiftl (Z.land s2 0x3F) 6)
                                     (Z.land s3 0x3F))),
                             4%nat)
                      end
                end
          end
  end.

(** [utf8.RuneStart]. *)
Definition RuneStart (b : Z) : bool := negb (Z.land b 0xC0 =? 0x80).

(** The loop [for start--; start >= lim; start-- { if RuneStart(s[start])
    { break } }] of [DecodeLastRuneInString]; [next] is [start + 1], so
    that [start = -1] is [next = 0]. *)
Fixpoint rune_start_before (s : string) (lim next : nat) : Z :=
  match next with
  | O => -1
  | S start =>
      if (start <? lim)%nat then Z.of_nat start
      else if RuneStart (byte_at s start) then Z.of_nat start
      else rune_start_before s lim start
  end.

(** [utf8.DecodeLastRuneInString]. *)
Definition DecodeLastRuneInString (s : string) : Z * nat :=
  let end_ := String.length s in
  match end_ with
  | O => (RuneError, 0%nat)
  | S last =>
      let r := byte_at s last in
      if r <? RuneSelf then (r, 1%nat)
      else
        let lim := (end_ - 4)%nat in
        let start := rune_start_before s lim last in
        let start := if start <? 0 then 0%nat else Z.to_nat start in
        let '(r, size) :=
          DecodeRuneInString (substring start (end_ - start) s) in
        if (start + size =? end_)%nat then (r, size) else (RuneError, 1%nat)
  end.

(** [utf8.AppendRune] to the empty slice, as [strings.Builder.WriteRune]
    uses it: the UTF-8 encoding of [r], that of [RuneError] for a value
    that is no rune. *)
Definition AppendRune (r : Z) : string :=
  let b (z : Z) := of_byte z in
  let tx (z : Z) := b (Z.lor 0x80 (Z.land z 0x3F)) in
  let three (r : Z) :=
    String (b (Z.lor 0xE0 (Z.shiftr r 12)))
      (String (tx (Z.shiftr r 6)) (String (tx r) EmptyString)) in
  if (0 <=? r) && (r <? RuneSelf) then String (b r) EmptyString
  else if (0 <=? r) && (r <=? 0x7FF) then
    String (b (Z.lor 0xC0 (Z.shiftr r 6))) (String (tx r) EmptyString)
  else if (r <? 0) || (MaxRune <? r) || (0xD800 <=? r) && (r <=? 0xDFFF) then
    three RuneError
  else if r <=? 0xFFFF then three r
  else
    String (b (Z.lor 0xF0 (Z.shiftr r 18)))
      (String (tx (Z.shiftr r 12))
         (String (tx (Z.shiftr r 6)) (String (tx r) EmptyString))).

(** [for _, c := range s]: the runes of [s] in order; [skip] counts the
    bytes of the rune last decoded that are still to pass. *)
Fixpoint range_runes (skip : nat) (s : string) : list Z :=
  match s with
  | EmptyString => []
  | String _ t =>
      match skip with
      | S k => range_runes k t
      | O =>
          let '(r, width) := DecodeRuneInString s in
          r :: range_runes (width - 1) t
      end
  end.

(** *** package unicode *)

(** [unicode.IsSpace]: the Latin-1 cases and the [White_Space] table. *)
Definition IsSpace (r : Z) : bool :=
  (0x09 <=? r) && (r <=? 0x0D) || (r =? 0x20) || (r =? 0x85) || (r =? 0xA0)
  || (r =? 0x1680) || (0x2000 <=? r) && (r <=? 0x200A)
  || (r =? 0x2028) || (r =? 0x2029) || (r =? 0x202F) || (r =? 0x205F)
  || (r =? 0x3000).

(** The case tables of package [unicode] ([CaseRanges], read by
    [unicode.To]) come with the Go distribution, not with the repository:
    [To_LowerCase r] and [To_UpperCase r] stand for [To(LowerCase, r)] and
    [To(UpperCase, r)], and the code is verified for whatever they hold. *)
Class CaseTables : Type := {
  To_LowerCase : Z -> Z;
  To_UpperCase : Z -> Z
}.

(** Tables without an entry: no rune has another case.  ASCII text never
    reaches the tables. *)
Definition caseless : CaseTables :=
  {| To_LowerCase := fun r => r; To_UpperCase := fun r => r |}.

(** *** package strings: trimming and case *)

(** The six bytes of the [asciiSpace] table. *)
Definition is_space (c : ascii) : bool :=
  let n := nat_of_ascii c in
  ((9 <=? n) && (n <=? 13) || (n =? 32))%nat.

(** [strings.TrimLeftFunc s f]: [s] from the first rune on that [f]
    rejects ([indexFunc s f false]). *)
Fixpoint trim_left_func (f : Z -> bool) (skip : nat) (s : string) : string :=
  match s with
  | EmptyString => EmptyString
  | String _ t =>
      match skip with
      | S k => trim_left_func f k t
      | O =>
          let '(r, width) := DecodeRuneInString s in
          if f r then trim_left_func f (width - 1) t else s
      end
  end.

Definition TrimLeftFunc (s : string) (f : Z -> bool) : string :=
  trim_left_func f 0 s.

(** [lastIndexFunc s f false]: the loop [for i := len(s); i > 0; ],
    which ends within [len(s)] rounds. *)
Fixpoint lastIndexFunc (s : string) (f : Z -> bool) (rounds i : nat) : Z :=
  match rounds with
  | O => -1
  | S rounds' =>
      if (0 <? i)%nat then
        let '(r, size) := DecodeLastRuneInString (substring 0 i s) in
        let i := (i - size)%nat in
        if f r then lastIndexFunc s f rounds' i else Z.of_nat i
      else -1
  end.

(** [strings.TrimRightFunc]. *)
Definition TrimRightFunc (s : string) (f : Z -> bool) : string :=
  let i := lastIndexFunc s f (S (String.length s)) (String.length s) in
  let i :=
    if (0 <=? i) && (RuneSelf <=? byte_at s (Z.to_nat i)) then
      let '(_, wid) :=
        DecodeRuneInString
          (substring (Z.to_nat i) (String.length s - Z.to_nat i) s) in
      i + Z.of_nat wid
    else i + 1 in
  substring 0 (Z.to_nat i) s.

(** [strings.TrimFunc]. *)
Definition TrimFunc (s : string) (f : Z -> bool) : string :=
  TrimRightFunc (TrimLeftFunc s f) f.

(** The second loop of [strings.TrimSpace], on [s[start:]]: [stop] runs
    down from the end. *)
Fixpoint trim_space_end (s : string) (stop : nat) : string :=
  match stop with
  | O => EmptyString
  | S k =>
      match String.get k s with
      | Some c =>
          if RuneSelf <=? byte_of c then TrimRightFunc (substring 0 stop s) IsSpace
          else if is_space c then trim_space_end s k
          else substring 0 stop s
      | None => EmptyString
      end
  end.

(** [strings.TrimSpace]: the byte loops over ASCII, the rune functions from
    the first byte on that is not ASCII. *)
Fixpoint TrimSpace (s : string) : string :=
  match s with
  | EmptyString => EmptyString
  | String c t =>
      if RuneSelf <=? byte_of c then TrimFunc s IsSpace
      else if is_space c then TrimSpace t
      else trim_space_end s (String.length s)
  end.

Definition to_lower (c : ascii) : ascii :=
  let n := nat_of_ascii c in
  if ((65 <=? n) && (n <=? 90))%nat then ascii_of_nat (n + 32) else c.

Definition to_upper (c : ascii) : ascii :=
  let n := nat_of_ascii c in
  if ((97 <=? n) && (n <=? 122))%nat then ascii_of_nat (n - 32) else c.

(** [isASCII] of [strings.ToLower] and [strings.ToUpper]. *)
Fixpoint is_ascii (s : string) : bool :=
  match s with
  | EmptyString => true
  | String c t => (byte_of c <? RuneSelf) && is_ascii t
  end.

(** [strings.Map]: every rune of [s] is replaced by its image, a negative
    image is dropped, and a byte that is no rune counts as [RuneError]. *)
Definition Map (mapping : Z -> Z) (s : string) : string :=
  fold_right
    (fun c out =>
       let r := mapping c in
       if 0 <=? r then AppendRune r +:+ out else out)
    EmptyString (range_runes 0 s).

Section Case.
Context {tables : CaseTables}.

(** [unicode.ToLower] and [unicode.ToUpper]. *)
Definition unicode_ToLower (r : Z) : Z :=
  if r <=? 0x7F then
    (if (0x41 <=? r) && (r <=? 0x5A) then r + 0x20 else r)
  else To_LowerCase r.

Definition unicode_ToUpper (r : Z) : Z :=
  if r <=? 0x7F then
    (if (0x61 <=? r) && (r <=? 0x7A) then r - 0x20 else r)
  else To_UpperCase r.

(** [strings.ToLower] and [strings.ToUpper]: bytewise on an ASCII string,
    [Map] on any other. *)
Definition ToLower (s : string) : string :=
  if is_ascii s then map_bytes to_lower s else Map unicode_ToLower s.

Definition ToUpper (s : string) : string :=
  if is_ascii s then map_bytes to_upper s else Map unicode_ToUpper s.

End Case.

(** *** package strconv *)

Definition digit_val (c : ascii) : option Z :=
  let n := nat_of_ascii c in
  if ((48 <=? n) && (n <=? 57))%nat then Some (Z.of_nat (n - 48)) else None.

Fixpoint parse_digits (acc : Z) (s : string) : option Z :=
  match s with
  | EmptyString => Some acc
  | String c s' =>
      match digit_val c with
      | Some d => parse_digits (10 * acc + d) s'
      | None => None
      end
  end.

(** [strconv.Atoi]: an optional sign, then one or more decimal digits;
    [None] stands for the syntax and the range error. *)
Definition Atoi (s : string) : option Z :=
  let '(neg, body) :=
    match s with
    | String "-" r => (true, r)
    | String "+" r => (false, r)
    | _ => (false, s)
    end in
  match body with
  | EmptyString => None
  | _ =>
      match parse_digits 0 body with
      | Some n =>
          let v := if neg then - n else n in
          if (int_min <=? v) && (v <=? int_max) then Some v else None
      | None => None
      end
  end.

End Go.

(* ===================================================================== *)
(** ** internal/models *)
(* ===================================================================== *)

Definition error := string.
Definition Time := Z.

Module SystemSpec.
Record t : Type := mk {
  CPUCores : Z;
  RAMGB : Z;
  StorageGB : Z;
  HasSSD : bool;
  HasGPU : bool;
  GPUVRAMGB : Z;
  NetworkMbps : Z;
  OS : string
}.
End SystemSpec.

Module DePINProject.
Record t : Type := mk {
  Name : string;
  Type_ : string;
  NodeType : string;
  CPUCoresMin : Z;
  RAMGBMin : Z;
  RAMGBRecommended : Z;
  StorageGBMin : Z;
  StorageType : string;
  GPURequired : bool;
  GPUVRAMGBMin : Z;
  NetworkMbpsMin : Z;
  SupportedOS : string;
  EstimatedCostMin : Z;
  EstimatedCostMax : Z;
  CostCategory : string;
  HomeFriendly : bool;
  Description : string
}.
End DePINProject.

Module CompatibilityResult.
Record t : Type := mk {
  Name : string;
  Compatible : bool;
  CompatibilityScore : float;
  PerformanceRating : string;
  EstimatedCost : string;
  MissingRequirements : list string;
  RecommendedUpgrades : list string;
  Warnings : list string
}.
End CompatibilityResult.

Module PredictionSummary.
Record t : Type := mk {
  TotalProjects : nat;
  CompatibleCount : nat;
  IncompatibleCount : nat;
  CompatibilityRate : float;
  AverageScore : float;
  SystemRating : string
}.
End PredictionSummary.

Module PredictionResponse.
Record t : Type := mk {
  CompatibleProjects : list CompatibilityResult.t;
  IncompatibleProjects : list CompatibilityResult.t;
  Summary : PredictionSummary.t;
  Recommendations : list string;
  GeneratedAt : Time
}.
End PredictionResponse.

Module ProjectSummary.
Record t : Type := mk {
  ByType : gmap string nat;
  ByCostCategory : gmap string nat;
  HomeFriendly : nat;
  GPURequired : nat
}.
End ProjectSummary.

Module models.
Import SystemSpec.

Definition RatingExcellent : string := "Excellent".
Definition RatingGood : string := "Good".
Definition RatingFair : string := "Fair".
Definition RatingPoor : string := "Poor".

Definition SystemEntry : string := "Entry Level".
Definition SystemMidRange : string := "Mid-Range".
Definition SystemHighEnd : string := "High-End".
Definition SystemExtreme : string := "Extreme".

Definition ScoreExcellent : float := 0.9.
Definition ScoreGood : float := 0.7.
Definition ScoreFair : float := 0.5.
Definition ScorePoor : float := 0.0.

Definition GetPerformanceRating (score : float) : string :=
  if (ScoreExcellent <=? score)%float then RatingExcellent
  else if (ScoreGood <=? score)%float then RatingGood
  else if (ScoreFair <=? score)%float then RatingFair
  else RatingPoor.

Definition GetSystemRating (spec : SystemSpec.t) : string :=
  let score := 0 in
  let score :=
    if CPUCores spec >=? 12 then score + 3
    else if CPUCores spec >=? 8 then score + 2
    else if CPUCores spec >=? 4 then score + 1
    else score in
  let score :=
    if RAMGB spec >=? 32 then score + 3
    else if RAMGB spec >=? 16 then score + 2
    else if RAMGB spec >=? 8 then score + 1
    else score in
  let score :=
    if HasGPU spec && (GPUVRAMGB spec >=? 12) then score + 3
    else if HasGPU spec && (GPUVRAMGB spec >=? 6) then score + 2
    else if HasGPU spec then score + 1
    else score in
  let score :=
    if HasSSD spec && (StorageGB spec >=? 1000) then score + 2
    else if HasSSD spec || (StorageGB spec >=? 500) then score + 1
    else score in
  let score :=
    if NetworkMbps spec >=? 500 then score + 2
    else if NetworkMbps spec >=? 100 then score + 1
    else score in
  if score >=? 12 then SystemExtreme
  else if score >=? 8 then SystemHighEnd
  else if score >=? 5 then SystemMidRange
  else SystemEntry.

End models.

(* ===================================================================== *)
(** ** internal/service *)
(* ===================================================================== *)

Module service.
Import SystemSpec DePINProject.
Import Go models.

(** [CompatibilityService]; the methods below that never read their
    receiver are given without it. *)
Record CompatibilityService : Type := mkService {
  projects : list DePINProject.t;
  startTime : Time
}.

Definition NewCompatibilityService (projects : list DePINProject.t) (now : Time)
  : CompatibilityService :=
  {| projects := projects; startTime := now |}.

(** [isOSCompatible] *)
Definition isOSCompatible (systemOS supportedOS : string) : bool :=
  if (supportedOS =? "")%string then true
  else
    let supportedList := Split supportedOS "," in
    existsb (fun os => (TrimSpace os =? systemOS)%string) supportedList.

(** [calculatePerformanceBonus] *)
Definition calculatePerformanceBonus (system : SystemSpec.t) (project : DePINProject.t)
  : float :=
  let bonus := 0.0%float in
  let bonus :=
    if CPUCores system >? int_mul (CPUCoresMin project) 2 then (bonus + 0.05)%float
    else if CPUCores system >? CPUCoresMin project then (bonus + 0.02)%float
    else bonus in
  let bonus :=
    if RAMGB system >? int_mul (RAMGBRecommended project) 2 then (bonus + 0.05)%float
    else if RAMGB system >? RAMGBRecommended project then (bonus + 0.02)%float
    else bonus in
  let bonus :=
    if NetworkMbps system >? int_mul (NetworkMbpsMin project) 2 then (bonus + 0.03)%float
    else bonus in
  let bonus :=
    if HasGPU system && (GPUVRAMGB system >? 8) then (bonus + 0.02)%float
    else bonus in
  math_Min bonus 0.15.

(** The local state of one call of [analyzeProjectCompatibility]: the
    result under construction and the variable [score]. *)
Record scoring : Type := mkScoring {
  result : CompatibilityResult.t;
  score : float
}.

(** The three statements of every failing branch:
    [result.Compatible = false], an append to
    [result.MissingRequirements], and [score -= penalty]. *)
Definition missing (msg : string) (penalty : float) (st : scoring) : scoring :=
  let r := result st in
  {| result :=
       CompatibilityResult.mk
         (CompatibilityResult.Name r) false
         (CompatibilityResult.CompatibilityScore r)
         (CompatibilityResult.PerformanceRating r)
         (CompatibilityResult.EstimatedCost r)
         (CompatibilityResult.MissingRequirements r ++ [msg])
         (CompatibilityResult.RecommendedUpgrades r)
         (CompatibilityResult.Warnings r);
     score := (score st - penalty)%float |}.

(** An append to [result.RecommendedUpgrades] and [score -= penalty]. *)
Definition upgrade (msg : string) (penalty : float) (st : scoring) : scoring :=
  let r := result st in
  {| result :=
       CompatibilityResult.mk
         (CompatibilityResult.Name r)
         (CompatibilityResult.Compatible r)
         (CompatibilityResult.CompatibilityScore r)
         (CompatibilityResult.PerformanceRating r)
         (CompatibilityResult.EstimatedCost r)
         (CompatibilityResult.MissingRequirements r)
         (CompatibilityResult.RecommendedUpgrades r ++ [msg])
         (CompatibilityResult.Warnings r);
     score := (score st - penalty)%float |}.

(** An append to [result.Warnings]. *)
Definition warn (msg : string) (st : scoring) : scoring :=
  let r := result st in
  {| result :=
       CompatibilityResult.mk
         (CompatibilityResult.Name r)
         (CompatibilityResult.Compatible r)
         (CompatibilityResult.CompatibilityScore r)
         (CompatibilityResult.PerformanceRating r)
         (CompatibilityResult.EstimatedCost r)
         (CompatibilityResult.MissingRequirements r)
         (CompatibilityResult.RecommendedUpgrades r)
         (CompatibilityResult.Warnings r ++ [msg]);
     score := score st |}.

(** [score += delta] *)
Definition bump (delta : float) (st : scoring) : scoring :=
  {| result := result st; score := (score st + delta)%float |}.

(** The last three statements: the clamp, and the two assignments of the
    clamped score and of its rating. *)
Definition finish (st : scoring) : CompatibilityResult.t :=
  let r := result st in
  let score := math_Max 0.0 (math_Min 1.0 (score st)) in
  CompatibilityResult.mk
    (CompatibilityResult.Name r)
    (CompatibilityResult.Compatible r)
    score
    (GetPerformanceRating score)
    (CompatibilityResult.EstimatedCost r)
    (CompatibilityResult.MissingRequirements r)
    (CompatibilityResult.RecommendedUpgrades r)
    (CompatibilityResult.Warnings r).

(** [analyzeProjectCompatibility] *)
Definition analyzeProjectCompatibility
    (system : SystemSpec.t) (project : DePINProject.t) : CompatibilityResult.t :=
  let st :=
    {| result :=
         CompatibilityResult.mk
           (Name project) true 1.0 RatingExcellent
           ("$" +:+ fmt_d (EstimatedCostMin project) +:+ "-$"
                +:+ fmt_d (EstimatedCostMax project) +:+ "/month")
           [] [] [];
       score := 1.0 |} in
  (* Check CPU requirements *)
  let st :=
    if CPUCores system <? CPUCoresMin project then
      missing ("CPU cores: need " +:+ fmt_d (CPUCoresMin project)
               +:+ ", have " +:+ fmt_d (CPUCores system)) 0.3 st
    else st in
  (* Check RAM requirements *)
  let st :=
    if RAMGB system <? RAMGBMin project then
      missing ("RAM: need " +:+ fmt_d (RAMGBMin project)
               +:+ "GB, have " +:+ fmt_d (RAMGB system) +:+ "GB") 0.3 st
    else if RAMGB system <? RAMGBRecommended project then
      upgrade ("RAM upgrade to " +:+ fmt_d (RAMGBRecommended project)
               +:+ "GB recommended for optimal performance") 0.1 st
    else st in
  (* Check storage requirements *)
  let st :=
    if StorageGB system <? StorageGBMin project then
      missing ("Storage: need " +:+ fmt_d (StorageGBMin project)
               +:+ "GB, have " +:+ fmt_d (StorageGB system) +:+ "GB") 0.2 st
    else st in
  (* Check SSD requirement *)
  let st :=
    if (StorageType project =? "SSD")%string && negb (HasSSD system) then
      missing "SSD storage required" 0.25 st
    else if (StorageType project =? "SSD")%string && HasSSD system then
      bump 0.05 st
    else st in
  (* Check GPU requirements *)
  let st :=
    if GPURequired project && negb (HasGPU system) then
      missing "Dedicated GPU required" 0.4 st
    else if (GPUVRAMGBMin project >? 0) && (GPUVRAMGB system <? GPUVRAMGBMin project) then
      missing ("GPU VRAM: need " +:+ fmt_d (GPUVRAMGBMin project)
               +:+ "GB, have " +:+ fmt_d (GPUVRAMGB system) +:+ "GB") 0.3 st
    else st in
  (* Check network speed *)
  let st :=
    if NetworkMbps system <? NetworkMbpsMin project then
      missing ("Network speed: need " +:+ fmt_d (NetworkMbpsMin project)
               +:+ "Mbps, have " +:+ fmt_d (NetworkMbps system) +:+ "Mbps") 0.2 st
    else st in
  (* Check OS compatibility *)
  let st :=
    if negb (isOSCompatible (OS system) (SupportedOS project)) then
      missing ("OS not supported: need one of [" +:+ SupportedOS project
               +:+ "], have " +:+ OS system) 0.3 st
    else st in
  (* Performance bonuses for exceeding requirements *)
  let st := bump (calculatePerformanceBonus system project) st in
  (* Home-friendly check *)
  let st :=
    if negb (HomeFriendly project) then
      warn "This project may not be suitable for home use" st
    else st in
  (* Ensure score is within bounds *)
  finish st.

(** The five counters of [analyzeUpgradeNeeds]. *)
Record issues : Type := mkIssues {
  ramIssues : nat;
  cpuIssues : nat;
  gpuIssues : nat;
  storageIssues : nat;
  networkIssues : nat
}.

(** The body of the inner loop: the [switch] over one requirement. *)
Definition countIssue (c : issues) (req : string) : issues :=
  if Contains req "RAM" then
    mkIssues (S (ramIssues c)) (cpuIssues c) (gpuIssues c) (storageIssues c) (networkIssues c)
  else if Contains req "CPU" then
    mkIssues (ramIssues c) (S (cpuIssues c)) (gpuIssues c) (storageIssues c) (networkIssues c)
  else if Contains req "GPU" then
    mkIssues (ramIssues c) (cpuIssues c) (S (gpuIssues c)) (storageIssues c) (networkIssues c)
  else if Contains req "Storage" || Contains req "SSD" then
    mkIssues (ramIssues c) (cpuIssues c) (gpuIssues c) (S (storageIssues c)) (networkIssues c)
  else if Contains req "Network" then
    mkIssues (ramIssues c) (cpuIssues c) (gpuIssues c) (storageIssues c) (S (networkIssues c))
  else c.

(** The two nested loops. *)
Definition countIssues (incompatible : list CompatibilityResult.t) : issues :=
  fold_left
    (fun c result =>
       fold_left countIssue (CompatibilityResult.MissingRequirements result) c)
    incompatible (mkIssues 0 0 0 0 0).

Definition msgRAM : string := "üíæ Consider upgrading RAM for better project compatibility".
Definition msgCPU : string := "üñ•Ô∏è A CPU upgrade would significantly improve project support".
Definition msgGPU : string := "üéÆ Adding a dedicated GPU would unlock AI and compute-intensive projects".
Definition msgStorage : string := "üíø Consider upgrading to SSD storage or increasing capacity".
Definition msgNetwork : string := "üåê Faster internet connection would improve project compatibility".

(** [analyzeUpgradeNeeds]; [system] is not read. *)
Definition analyzeUpgradeNeeds
    (system : SystemSpec.t) (incompatible : list CompatibilityResult.t) : list string :=
  let recommendations := [] in
  let c := countIssues incompatible in
  let threshold := (length incompatible / 3)%nat in
  let recommendations :=
    if (threshold <? ramIssues c)%nat then recommendations ++ [msgRAM]
    else recommendations in
  let recommendations :=
    if (threshold <? cpuIssues c)%nat then recommendations ++ [msgCPU]
    else recommendations in
  let recommendations :=
    if (threshold <? gpuIssues c)%nat then recommendations ++ [msgGPU]
    else recommendations in
  let recommendations :=
    if (threshold <? storageIssues c)%nat then recommendations ++ [msgStorage]
    else recommendations in
  let recommendations :=
    if (threshold <? networkIssues c)%nat then recommendations ++ [msgNetwork]
    else recommendations in
  recommendations.

(** [getBestProjects] *)
Definition getBestProjects (compatible : list CompatibilityResult.t) (n : nat)
  : list CompatibilityResult.t :=
  if (length compatible <=? n)%nat then compatible else take n compatible.

Definition msgExcellent : string := "üéâ Excellent! Your system is compatible with most DePIN projects.".
Definition msgGood : string := "üëç Good compatibility! Your system works well with many DePIN projects.".
Definition msgFair : string := "‚ö†Ô∏è Fair compatibility. Consider upgrading for better project support.".
Definition msgLimited : string := "üìà Limited compatibility. Upgrades recommended for better DePIN support.".
Definition msgBest : string := "üöÄ Recommended projects for your system: ".

(** [generateRecommendations] *)
Definition generateRecommendations (s : CompatibilityService) (system : SystemSpec.t)
    (compatible incompatible : list CompatibilityResult.t) : list string :=
  let recommendations := [] in
  let compatibilityRate :=
    (float64_of_len (length compatible) / float64_of_len (length (projects s)))%float in
  let recommendations :=
    if (0.8 <=? compatibilityRate)%float then recommendations ++ [msgExcellent]
    else if (0.6 <=? compatibilityRate)%float then recommendations ++ [msgGood]
    else if (0.4 <=? compatibilityRate)%float then recommendations ++ [msgFair]
    else recommendations ++ [msgLimited] in
  let upgradeRecommendations := analyzeUpgradeNeeds system incompatible in
  let recommendations := recommendations ++ upgradeRecommendations in
  let recommendations :=
    if (0 <? length compatible)%nat then
      let bestProjects := getBestProjects compatible 3 in
      let projectNames := map CompatibilityResult.Name bestProjects in
      recommendations ++ [msgBest +:+ Join projectNames ", "]
    else recommendations in
  recommendations.

(** [sort.Slice] is the Go library's; the code relies on it as a function
    from the comparison and the slice to the reordered slice. *)
Section Aggregator.
Variable sort_Slice :
  (CompatibilityResult.t -> CompatibilityResult.t -> bool) ->
  list CompatibilityResult.t -> list CompatibilityResult.t.

(** The state of the loop over [s.projects]. *)
Record scan : Type := mkScan {
  compatible : list CompatibilityResult.t;
  incompatible : list CompatibilityResult.t;
  totalScore : float
}.

Definition scanProject (system : SystemSpec.t) (st : scan) (project : DePINProject.t)
  : scan :=
  let result := analyzeProjectCompatibility system project in
  let st :=
    if CompatibilityResult.Compatible result then
      mkScan (compatible st ++ [result]) (incompatible st) (totalScore st)
    else
      mkScan (compatible st) (incompatible st ++ [result]) (totalScore st) in
  mkScan (compatible st) (incompatible st)
         (totalScore st + CompatibilityResult.CompatibilityScore result)%float.

(** The comparison handed to [sort.Slice]: descending score. *)
Definition byScoreDesc (a b : CompatibilityResult.t) : bool :=
  (CompatibilityResult.CompatibilityScore b <? CompatibilityResult.CompatibilityScore a)%float.

(** [PredictCompatibility]; the returned error is always [nil]. *)
Definition PredictCompatibility (s : CompatibilityService) (system : SystemSpec.t)
    (now : Time) : PredictionResponse.t * option error :=
  let st := fold_left (scanProject system) (projects s) (mkScan [] [] 0.0) in
  let compatible := sort_Slice byScoreDesc (compatible st) in
  let incompatible := sort_Slice byScoreDesc (incompatible st) in
  let summary :=
    PredictionSummary.mk
      (length (projects s))
      (length compatible)
      (length incompatible)
      (float64_of_len (length compatible) / float64_of_len (length (projects s)) * 100)%float
      (totalScore st / float64_of_len (length (projects s)))%float
      (GetSystemRating system) in
  let recommendations := generateRecommendations s system compatible incompatible in
  (PredictionResponse.mk compatible incompatible summary recommendations now, None).

End Aggregator.

(** The insertion sort Go's [sort.Slice] runs on short slices: each element
    moves left past its predecessors while [less] says so.  The prefix is
    kept in reverse. *)
Fixpoint insertLess {A} (less : A -> A -> bool) (x : A) (rev_prefix : list A) : list A :=
  match rev_prefix with
  | [] => [x]
  | y :: r => if less x y then y :: insertLess less x r else x :: y :: r
  end.

Definition insertionSortLessFunc {A} (less : A -> A -> bool) (data : list A) : list A :=
  rev (fold_left (fun rev_prefix x => insertLess less x rev_prefix) data []).

(** [GetProjects] *)
Definition GetProjects (s : CompatibilityService) : list DePINProject.t := projects s.

(** [m[key]++] on a [map[string]int]: a missing key reads as [0]. *)
Definition increment (key : string) (m : gmap string nat) : gmap string nat :=
  <[key := S (default 0%nat (m !! key))]> m.

(** The body of the loop of [GetProjectSummary]. *)
Definition summarizeProject (summary : ProjectSummary.t) (project : DePINProject.t)
  : ProjectSummary.t :=
  let byType := increment (Type_ project) (ProjectSummary.ByType summary) in
  let byCostCategory :=
    increment (CostCategory project) (ProjectSummary.ByCostCategory summary) in
  let homeFriendly :=
    if HomeFriendly project then S (ProjectSummary.HomeFriendly summary)
    else ProjectSummary.HomeFriendly summary in
  let gpuRequired :=
    if GPURequired project then S (ProjectSummary.GPURequired summary)
    else ProjectSummary.GPURequired summary in
  ProjectSummary.mk byType byCostCategory homeFriendly gpuRequired.

(** [GetProjectSummary] *)
Definition GetProjectSummary (s : CompatibilityService) : ProjectSummary.t :=
  fold_left summarizeProject (projects s) (ProjectSummary.mk ∅ ∅ 0 0).

End service.

(* ===================================================================== *)
(** ** internal/data *)
(* ===================================================================== *)

Module data.
Import DePINProject.
Import Go.

Record Loader : Type := mkLoader { filePath : string }.

Definition NewLoader (filePath : string) : Loader := {| filePath := filePath |}.

(** One call of [reader.Read()] before [io.EOF]: a record, or an error of
    the CSV reader (with [FieldsPerRecord = -1]: a quoting error or a
    failed read of the file). *)
Inductive read : Type :=
| Row (record : list string)
| ReadFailure (err : error).

(** [os.Open path]: the error, or the file as the successive outcomes of
    [reader.Read()]; after the last one the reader returns [io.EOF]. *)
Definition filesystem : Type := string -> error + list read.

Definition EOF : error := "EOF".
Definition newline : string := String (ascii_of_nat 10) EmptyString.

Section Tables.
Context {tables : CaseTables}.

(** [createFieldMap] *)
Definition createFieldMap (header : list string) : gmap string nat :=
  snd (fold_left
         (fun '(i, fieldMap) field =>
            let normalizedField :=
              ToLower (ReplaceAll (TrimSpace field) " " "_") in
            (S i, <[normalizedField := i]> fieldMap))
         header (0%nat, ∅)).

(** [getStringField] *)
Fixpoint getStringField (record : list string) (fieldMap : gmap string nat)
    (fieldNames : list string) : string :=
  match fieldNames with
  | [] => ""
  | fieldName :: fieldNames' =>
      match fieldMap !! fieldName with
      | Some idx =>
          match record !! idx with
          | Some field =>
              let value := TrimSpace field in
              if (value =? "")%string
              then getStringField record fieldMap fieldNames'
              else value
          | None => getStringField record fieldMap fieldNames'
          end
      | None => getStringField record fieldMap fieldNames'
      end
  end.

(** [getIntField] *)
Fixpoint getIntField (record : list string) (fieldMap : gmap string nat)
    (fieldNames : list string) : Z :=
  match fieldNames with
  | [] => 0
  | fieldName :: fieldNames' =>
      match fieldMap !! fieldName with
      | Some idx =>
          match record !! idx with
          | Some field =>
              let value := TrimSpace field in
              if (value =? "")%string
              then getIntField record fieldMap fieldNames'
              else match Atoi value with
                   | Some intVal => intVal
                   | None => getIntField record fieldMap fieldNames'
                   end
          | None => getIntField record fieldMap fieldNames'
          end
      | None => getIntField record fieldMap fieldNames'
      end
  end.

(** [getBoolField] *)
Fixpoint getBoolField (record : list string) (fieldMap : gmap string nat)
    (fieldNames : list string) : bool :=
  match fieldNames with
  | [] => false
  | fieldName :: fieldNames' =>
      match fieldMap !! fieldName with
      | Some idx =>
          match record !! idx with
          | Some field =>
              let value := ToUpper (TrimSpace field) in
              (value =? "TRUE")%string || (value =? "1")%string
              || (value =? "YES")%string || (value =? "Y")%string
          | None => getBoolField record fieldMap fieldNames'
          end
      | None => getBoolField record fieldMap fieldNames'
      end
  end.

Definition set_Type (v : string) (p : DePINProject.t) : DePINProject.t :=
  mk (Name p) v (NodeType p) (CPUCoresMin p) (RAMGBMin p) (RAMGBRecommended p)
     (StorageGBMin p) (StorageType p) (GPURequired p) (GPUVRAMGBMin p)
     (NetworkMbpsMin p) (SupportedOS p) (EstimatedCostMin p) (EstimatedCostMax p)
     (CostCategory p) (HomeFriendly p) (Description p).

Definition set_NodeType (v : string) (p : DePINProject.t) : DePINProject.t :=
  mk (Name p) (Type_ p) v (CPUCoresMin p) (RAMGBMin p) (RAMGBRecommended p)
     (StorageGBMin p) (StorageType p) (GPURequired p) (GPUVRAMGBMin p)
     (NetworkMbpsMin p) (SupportedOS p) (EstimatedCostMin p) (EstimatedCostMax p)
     (CostCategory p) (HomeFriendly p) (Description p).

Definition set_StorageType (v : string) (p : DePINProject.t) : DePINProject.t :=
  mk (Name p) (Type_ p) (NodeType p) (CPUCoresMin p) (RAMGBMin p) (RAMGBRecommended p)
     (StorageGBMin p) v (GPURequired p) (GPUVRAMGBMin p)
     (NetworkMbpsMin p) (SupportedOS p) (EstimatedCostMin p) (EstimatedCostMax p)
     (CostCategory p) (HomeFriendly p) (Description p).

Definition set_CostCategory (v : string) (p : DePINProject.t) : DePINProject.t :=
  mk (Name p) (Type_ p) (NodeType p) (CPUCoresMin p) (RAMGBMin p) (RAMGBRecommended p)
     (StorageGBMin p) (StorageType p) (GPURequired p) (GPUVRAMGBMin p)
     (NetworkMbpsMin p) (SupportedOS p) (EstimatedCostMin p) (EstimatedCostMax p)
     v (HomeFriendly p) (Description p).

Definition set_SupportedOS (v : string) (p : DePINProject.t) : DePINProject.t :=
  mk (Name p) (Type_ p) (NodeType p) (CPUCoresMin p) (RAMGBMin p) (RAMGBRecommended p)
     (StorageGBMin p) (StorageType p) (GPURequired p) (GPUVRAMGBMin p)
     (NetworkMbpsMin p) v (EstimatedCostMin p) (EstimatedCostMax p)
     (CostCategory p) (HomeFriendly p) (Description p).

(** The body of [validateProject], run on its parameter: the value of the
    local variable [project] when the function returns, and the returned
    error. *)
Definition validateProject_body (project : DePINProject.t)
  : DePINProject.t * option error :=
  if (Name project =? "")%string then
    (project, Some "project name is required")
  else if (CPUCoresMin project <? 0) || (CPUCoresMin project >? 64) then
    (project, Some ("invalid CPU cores minimum: " +:+ fmt_d (CPUCoresMin project)))
  else if (RAMGBMin project <? 0) || (RAMGBMin project >? 1024) then
    (project, Some ("invalid RAM minimum: " +:+ fmt_d (RAMGBMin project)))
  else if (StorageGBMin project <? 0) || (StorageGBMin project >? 100000) then
    (project, Some ("invalid storage minimum: " +:+ fmt_d (StorageGBMin project)))
  else if (NetworkMbpsMin project <? 0) || (NetworkMbpsMin project >? 100000) then
    (project, Some ("invalid network speed minimum: " +:+ fmt_d (NetworkMbpsMin project)))
  else
    (* Set defaults for missing optional fields *)
    let project :=
      if (Type_ project =? "")%string then set_Type "Unknown" project else project in
    let project :=
      if (NodeType project =? "")%string then set_NodeType "Standard" project else project in
    let project :=
      if (StorageType project =? "")%string then set_StorageType "Any" project else project in
    let project :=
      if (CostCategory project =? "")%string then
        if EstimatedCostMax project <=? 20 then set_CostCategory "Low" project
        else if EstimatedCostMax project <=? 100 then set_CostCategory "Medium" project
        else set_CostCategory "High" project
      else project in
    let project :=
      if (SupportedOS project =? "")%string
      then set_SupportedOS "Linux,Windows,macOS" project
      else project in
    (project, None).

(** [validateProject]: the parameter is a [models.DePINProject] passed by
    value, so the caller receives the error and nothing else. *)
Definition validateProject (project : DePINProject.t) : option error :=
  snd (validateProject_body project).

(** [parseProjectRecord]; [lineNumber] is not read. *)
Definition parseProjectRecord (record : list string) (fieldMap : gmap string nat)
    (lineNumber : Z) : DePINProject.t * option error :=
  let name := getStringField record fieldMap ["project_name"; "name"] in
  if (name =? "")%string then
    (mk name "" "" 0 0 0 0 "" false 0 0 "" 0 0 "" false "",
     Some "project name is required")
  else
    let project :=
      mk name
         (getStringField record fieldMap ["project_type"; "type"])
         (getStringField record fieldMap ["node_type"])
         (getIntField record fieldMap ["cpu_cores_min"])
         (getIntField record fieldMap ["ram_gb_min"; "ram_min_gb"])
         (getIntField record fieldMap ["ram_gb_recommended"; "ram_recommended_gb"])
         (getIntField record fieldMap ["storage_gb_min"; "storage_min_gb"])
         (getStringField record fieldMap ["storage_type"])
         (getBoolField record fieldMap ["gpu_required"])
         (getIntField record fieldMap ["gpu_vram_gb_min"; "gpu_vram_min_gb"])
         (getIntField record fieldMap ["network_speed_mbps_min"; "network_mbps_min"])
         (getStringField record fieldMap ["supported_os"; "os_support"])
         (getIntField record fieldMap ["estimated_monthly_cost_usd_min"; "cost_min"])
         (getIntField record fieldMap ["estimated_monthly_cost_usd_max"; "cost_max"])
         (getStringField record fieldMap ["cost_category"])
         (getBoolField record fieldMap ["home_friendly"])
         (getStringField record fieldMap ["description"; "additional_requirements"]) in
    match validateProject project with
    | Some err => (project, Some ("validation failed: " +:+ err))
    | None => (project, None)
    end.

(** What [LoadDePINSpecs] returns, and what it printed on standard
    output. *)
Record loaded : Type := mkLoaded {
  projects : list DePINProject.t;
  err : option error;
  stdout : list string
}.

(** The [for] loop of [LoadDePINSpecs] over the remaining reads, and the
    statements after it. *)
Fixpoint readRows (fieldMap : gmap string nat) (reads : list read)
    (projects : list DePINProject.t) (lineNumber : Z) (stdout : list string) : loaded :=
  match reads with
  | [] =>
      (* io.EOF: break *)
      if (length projects =? 0)%nat
      then mkLoaded [] (Some "no valid projects found in CSV file") stdout
      else mkLoaded projects None stdout
  | ReadFailure err :: _ =>
      mkLoaded []
        (Some ("failed to read CSV line " +:+ fmt_d lineNumber +:+ ": " +:+ err))
        stdout
  | Row record :: reads' =>
      match parseProjectRecord record fieldMap lineNumber with
      | (_, Some err) =>
          readRows fieldMap reads' projects (lineNumber + 1)
            (stdout ++ ["Warning: Failed to parse line " +:+ fmt_d lineNumber
                        +:+ ": " +:+ err +:+ newline])
      | (project, None) =>
          readRows fieldMap reads' (projects ++ [project]) (lineNumber + 1) stdout
      end
  end.

(** [LoadDePINSpecs] *)
Definition LoadDePINSpecs (l : Loader) (fs : filesystem) : loaded :=
  match fs (filePath l) with
  | inl err =>
      mkLoaded []
        (Some ("failed to open CSV file '" +:+ filePath l +:+ "': " +:+ err)) []
  | inr reads =>
      match reads with
      | [] => mkLoaded [] (Some ("failed to read CSV header: " +:+ EOF)) []
      | ReadFailure err :: _ =>
          mkLoaded [] (Some ("failed to read CSV header: " +:+ err)) []
      | Row header :: reads' =>
          let fieldMap := createFieldMap header in
          readRows fieldMap reads' [] 2 []
      end
  end.

End Tables.

End data.

(* ===================================================================== *)
(** ** The Scorer as a function of its branch conditions *)
(* ===================================================================== *)

Module Conditions.
Import SystemSpec DePINProject.
Import Go models service.

(** The value of [bonus] in [calculatePerformanceBonus], given which of
    its six conditions hold. *)
Definition flagBonus (cpu2 cpu1 ram2 ram1 net2 gpu8 : bool) : float :=
  let bonus := 0.0%float in
  let bonus :=
    if cpu2 then (bonus + 0.05)%float
    else if cpu1 then (bonus + 0.02)%float else bonus in
  let bonus :=
    if ram2 then (bonus + 0.05)%float
    else if ram1 then (bonus + 0.02)%float else bonus in
  let bonus := if net2 then (bonus + 0.03)%float else bonus in
  let bonus := if gpu8 then (bonus + 0.02)%float else bonus in
  math_Min bonus 0.15.

(** The successive updates of [score] in [analyzeProjectCompatibility],
    given which branch each check takes. *)
Definition stepCPU (cpu : bool) (score : float) : float :=
  if cpu then (score - 0.3)%float else score.
Definition stepRAM (ram rec : bool) (score : float) : float :=
  if ram then (score - 0.3)%float else if rec then (score - 0.1)%float else score.
Definition stepStorage (sto : bool) (score : float) : float :=
  if sto then (score - 0.2)%float else score.
Definition stepSSD (ssd_no ssd_yes : bool) (score : float) : float :=
  if ssd_no then (score - 0.25)%float
  else if ssd_yes then (score + 0.05)%float else score.
Definition stepGPU (gpu vram : bool) (score : float) : float :=
  if gpu then (score - 0.4)%float else if vram then (score - 0.3)%float else score.
Definition stepNetwork (net : bool) (score : float) : float :=
  if net then (score - 0.2)%float else score.
Definition stepOS (os_no : bool) (score : float) : float :=
  if os_no then (score - 0.3)%float else score.

(** The value of [score] before the clamp, given which branches of
    [analyzeProjectCompatibility] are taken and the bonus. *)
Definition flagScore
    (cpu ram rec sto ssd_no ssd_yes gpu vram net os_no : bool) (bonus : float) : float :=
  let score := 1.0%float in
  let score := stepCPU cpu score in
  let score := stepRAM ram rec score in
  let score := stepStorage sto score in
  let score := stepSSD ssd_no ssd_yes score in
  let score := stepGPU gpu vram score in
  let score := stepNetwork net score in
  let score := stepOS os_no score in
  (score + bonus)%float.

Definition clamp01 (score : float) : float := math_Max 0.0 (math_Min 1.0 score).

(** [0.0 <= x && x <= 1.0] in float64 comparison (false on NaN). *)
Definition in_unit_interval (x : float) : bool := (0 <=? x)%float && (x <=? 1)%float.

(** The branch conditions, as the code writes them. *)
Definition c_cpu (s : SystemSpec.t) (p : DePINProject.t) : bool :=
  CPUCores s <? CPUCoresMin p.
Definition c_ram (s : SystemSpec.t) (p : DePINProject.t) : bool :=
  RAMGB s <? RAMGBMin p.
Definition c_rec (s : SystemSpec.t) (p : DePINProject.t) : bool :=
  RAMGB s <? RAMGBRecommended p.
Definition c_sto (s : SystemSpec.t) (p : DePINProject.t) : bool :=
  StorageGB s <? StorageGBMin p.
Definition c_ssd_no (s : SystemSpec.t) (p : DePINProject.t) : bool :=
  (StorageType p =? "SSD")%string && negb (HasSSD s).
Definition c_ssd_yes (s : SystemSpec.t) (p : DePINProject.t) : bool :=
  (StorageType p =? "SSD")%string && HasSSD s.
Definition c_gpu (s : SystemSpec.t) (p : DePINProject.t) : bool :=
  GPURequired p && negb (HasGPU s).
Definition c_vram (s : SystemSpec.t) (p : DePINProject.t) : bool :=
  (GPUVRAMGBMin p >? 0) && (GPUVRAMGB s <? GPUVRAMGBMin p).
Definition c_net (s : SystemSpec.t) (p : DePINProject.t) : bool :=
  NetworkMbps s <? NetworkMbpsMin p.
Definition c_os_no (s : SystemSpec.t) (p : DePINProject.t) : bool :=
  negb (isOSCompatible (OS s) (SupportedOS p)).

Definition b_cpu2 (s : SystemSpec.t) (p : DePINProject.t) : bool :=
  CPUCores s >? int_mul (CPUCoresMin p) 2.
Definition b_cpu1 (s : SystemSpec.t) (p : DePINProject.t) : bool :=
  CPUCores s >? CPUCoresMin p.
Definition b_ram2 (s : SystemSpec.t) (p : DePINProject.t) : bool :=
  RAMGB s >? int_mul (RAMGBRecommended p) 2.
Definition b_ram1 (s : SystemSpec.t) (p : DePINProject.t) : bool :=
  RAMGB s >? RAMGBRecommended p.
Definition b_net2 (s : SystemSpec.t) (p : DePINProject.t) : bool :=
  NetworkMbps s >? int_mul (NetworkMbpsMin p) 2.
Definition b_gpu8 (s : SystemSpec.t) : bool :=
  HasGPU s && (GPUVRAMGB s >? 8).

Definition rawScore (s : SystemSpec.t) (p : DePINProject.t) : float :=
  flagScore (c_cpu s p) (c_ram s p) (c_rec s p) (c_sto s p) (c_ssd_no s p)
    (c_ssd_yes s p) (c_gpu s p) (c_vram s p) (c_net s p) (c_os_no s p)
    (flagBonus (b_cpu2 s p) (b_cpu1 s p) (b_ram2 s p) (b_ram1 s p) (b_net2 s p)
       (b_gpu8 s)).

(** The GPU-VRAM diagnostic of [analyzeProjectCompatibility]. *)
Definition vramMessage (need have : Z) : string :=
  "GPU VRAM: need " +:+ fmt_d need +:+ "GB, have " +:+ fmt_d have +:+ "GB".

(** The entries of [MissingRequirements], in the order of the checks. *)
Definition missingList (s : SystemSpec.t) (p : DePINProject.t) : list string :=
  (if c_cpu s p then
     ["CPU cores: need " +:+ fmt_d (CPUCoresMin p)
      +:+ ", have " +:+ fmt_d (CPUCores s)] else [])
  ++ (if c_ram s p then
        ["RAM: need " +:+ fmt_d (RAMGBMin p)
         +:+ "GB, have " +:+ fmt_d (RAMGB s) +:+ "GB"] else [])
  ++ (if c_sto s p then
        ["Storage: need " +:+ fmt_d (StorageGBMin p)
         +:+ "GB, have " +:+ fmt_d (StorageGB s) +:+ "GB"] else [])
  ++ (if c_ssd_no s p then ["SSD storage required"] else [])
  ++ (if c_gpu s p then ["Dedicated GPU required"]
      else if c_vram s p then [vramMessage (GPUVRAMGBMin p) (GPUVRAMGB s)]
      else [])
  ++ (if c_net s p then
        ["Network speed: need " +:+ fmt_d (NetworkMbpsMin p)
         +:+ "Mbps, have " +:+ fmt_d (NetworkMbps s) +:+ "Mbps"] else [])
  ++ (if c_os_no s p then
        ["OS not supported: need one of [" +:+ SupportedOS p
         +:+ "], have " +:+ OS s] else []).

(** Some check of [analyzeProjectCompatibility] sets
    [result.Compatible = false]. *)
Definition anyFailure (s : SystemSpec.t) (p : DePINProject.t) : bool :=
  c_cpu s p || c_ram s p || c_sto s p || c_ssd_no s p || c_gpu s p
  || (negb (c_gpu s p) && c_vram s p) || c_net s p || c_os_no s p.

(** The entries of [RecommendedUpgrades] and of [Warnings]. *)
Definition upgradeList (s : SystemSpec.t) (p : DePINProject.t) : list string :=
  if c_ram s p then []
  else if c_rec s p then
    ["RAM upgrade to " +:+ fmt_d (RAMGBRecommended p)
     +:+ "GB recommended for optimal performance"]
  else [].

Definition warningList (p : DePINProject.t) : list string :=
  if negb (HomeFriendly p) then ["This project may not be suitable for home use"]
  else [].

Definition costString (p : DePINProject.t) : string :=
  "$" +:+ fmt_d (EstimatedCostMin p) +:+ "-$" +:+ fmt_d (EstimatedCostMax p)
  +:+ "/month".

(** The blocks of [analyzeProjectCompatibility], one function of the local
    state per block, in the order of the code. *)
Definition start (p : DePINProject.t) : scoring :=
  {| result :=
       CompatibilityResult.mk (Name p) true 1.0 RatingExcellent (costString p) [] [] [];
     score := 1.0 |}.

Definition checkCPU (s : SystemSpec.t) (p : DePINProject.t) (st : scoring) : scoring :=
  if c_cpu s p then
    missing ("CPU cores: need " +:+ fmt_d (CPUCoresMin p)
             +:+ ", have " +:+ fmt_d (CPUCores s)) 0.3 st
  else st.

Definition checkRAM (s : SystemSpec.t) (p : DePINProject.t) (st : scoring) : scoring :=
  if c_ram s p then
    missing ("RAM: need " +:+ fmt_d (RAMGBMin p)
             +:+ "GB, have " +:+ fmt_d (RAMGB s) +:+ "GB") 0.3 st
  else if c_rec s p then
    upgrade ("RAM upgrade to " +:+ fmt_d (RAMGBRecommended p)
             +:+ "GB recommended for optimal performance") 0.1 st
  else st.

Definition checkStorage (s : SystemSpec.t) (p : DePINProject.t) (st : scoring) : scoring :=
  if c_sto s p then
    missing ("Storage: need " +:+ fmt_d (StorageGBMin p)
             +:+ "GB, have " +:+ fmt_d (StorageGB s) +:+ "GB") 0.2 st
  else st.

Definition checkSSD (s : SystemSpec.t) (p : DePINProject.t) (st : scoring) : scoring :=
  if c_ssd_no s p then missing "SSD storage required" 0.25 st
  else if c_ssd_yes s p then bump 0.05 st
  else st.

Definition checkGPU (s : SystemSpec.t) (p : DePINProject.t) (st : scoring) : scoring :=
  if c_gpu s p then missing "Dedicated GPU required" 0.4 st
  else if c_vram s p then
    missing (vramMessage (GPUVRAMGBMin p) (GPUVRAMGB s)) 0.3 st
  else st.

Definition checkNetwork (s : SystemSpec.t) (p : DePINProject.t) (st : scoring) : scoring :=
  if c_net s p then
    missing ("Network speed: need " +:+ fmt_d (NetworkMbpsMin p)
             +:+ "Mbps, have " +:+ fmt_d (NetworkMbps s) +:+ "Mbps") 0.2 st
  else st.

Definition checkOS (s : SystemSpec.t) (p : DePINProject.t) (st : scoring) : scoring :=
  if c_os_no s p then
    missing ("OS not supported: need one of [" +:+ SupportedOS p
             +:+ "], have " +:+ OS s) 0.3 st
  else st.

Definition addBonus (s : SystemSpec.t) (p : DePINProject.t) (st : scoring) : scoring :=
  bump (calculatePerformanceBonus s p) st.

Definition checkHome (p : DePINProject.t) (st : scoring) : scoring :=
  if negb (HomeFriendly p) then warn "This project may not be suitable for home use" st
  else st.

(** What a block does to [score], to [result.Compatible] and to
    [result.MissingRequirements]. *)
Definition block_effect (f : scoring -> scoring)
    (on_score : float -> float) (fails : bool) (entries : list string) : Prop :=
  forall st,
    score (f st) = on_score (score st) /\
    CompatibilityResult.Compatible (result (f st))
    = CompatibilityResult.Compatible (result st) && negb fails /\
    CompatibilityResult.MissingRequirements (result (f st))
    = CompatibilityResult.MissingRequirements (result st) ++ entries.

(** Quantification over a branch condition, by evaluation. *)
Definition allb (f : bool -> bool) : bool := f true && f false.

(** [x <= y] in float64 comparison. *)
Definition fle (x y : float) : bool := (x <=? y)%float.

End Conditions.

(* ===================================================================== *)
(** ** The specification's vocabulary *)
(* ===================================================================== *)

Module Spec.
Import SystemSpec DePINProject.
Import Go models service Conditions.

(** No byte of the string is a comma. *)
Fixpoint comma_free (s : string) : bool :=
  match s with
  | EmptyString => true
  | String c s' => negb (Ascii.eqb c ",") && comma_free s'
  end.

(** The OS-support row of the table: an empty [supported_os] restricts
    nothing; otherwise it is a comma-delimited list, and the system's OS is
    supported when it is, exactly, one of the entries once trimmed. *)
Definition os_supported (os supported_os : string) : Prop :=
  supported_os = ""
  \/ exists entries entry,
       supported_os = Join entries ","
       /\ forallb comma_free entries = true
       /\ In entry entries
       /\ TrimSpace entry = os.

(** U+00A0 NO-BREAK SPACE, in UTF-8. *)
Definition nbsp : string :=
  String (ascii_of_nat 194) (String (ascii_of_nat 160) EmptyString).

(** The failure conditions of the Scorer's table of dimensions: CPU cores,
    RAM (min), storage capacity, storage type, GPU presence, GPU VRAM
    (looked at only when the GPU presence check passes), network speed and
    OS support.  The recommended-RAM row is not among them. *)
Definition dimension_fails (s : SystemSpec.t) (p : DePINProject.t) : Prop :=
  CPUCores s < CPUCoresMin p
  \/ RAMGB s < RAMGBMin p
  \/ StorageGB s < StorageGBMin p
  \/ (StorageType p = "SSD" /\ HasSSD s = false)
  \/ (GPURequired p = true /\ HasGPU s = false)
  \/ (~ (GPURequired p = true /\ HasGPU s = false)
      /\ GPUVRAMGBMin p > 0 /\ GPUVRAMGB s < GPUVRAMGBMin p)
  \/ NetworkMbps s < NetworkMbpsMin p
  \/ ~ os_supported (OS s) (SupportedOS p).

(** The system of Scenario B and its project; the fields the scenario
    leaves open are parameters. *)
Definition scenarioB_system : SystemSpec.t :=
  SystemSpec.mk 2 4 100 false false 0 10 "Windows".

Definition scenarioB_project (name type node : string) (cost_min cost_max : Z)
    (category : string) (home : bool) (description : string) : DePINProject.t :=
  DePINProject.mk name type node 8 16 0 1000 "SSD" true 0 200 "Linux"
    cost_min cost_max category home description.

(** What Scenario B says of the result, with [n] entries in
    [missing_requirements]. *)
Definition scenarioB_outcome (r : CompatibilityResult.t) (n : nat) : Prop :=
  CompatibilityResult.Compatible r = false
  /\ length (CompatibilityResult.MissingRequirements r) = n
  /\ CompatibilityResult.CompatibilityScore r = 0.0%float
  /\ CompatibilityResult.PerformanceRating r = "Poor".

(** A system with one resource replaced. *)
Definition with_CPUCores (v : Z) (s : SystemSpec.t) : SystemSpec.t :=
  SystemSpec.mk v (RAMGB s) (StorageGB s) (HasSSD s) (HasGPU s) (GPUVRAMGB s)
    (NetworkMbps s) (OS s).
Definition with_RAMGB (v : Z) (s : SystemSpec.t) : SystemSpec.t :=
  SystemSpec.mk (CPUCores s) v (StorageGB s) (HasSSD s) (HasGPU s) (GPUVRAMGB s)
    (NetworkMbps s) (OS s).
Definition with_StorageGB (v : Z) (s : SystemSpec.t) : SystemSpec.t :=
  SystemSpec.mk (CPUCores s) (RAMGB s) v (HasSSD s) (HasGPU s) (GPUVRAMGB s)
    (NetworkMbps s) (OS s).
Definition with_NetworkMbps (v : Z) (s : SystemSpec.t) : SystemSpec.t :=
  SystemSpec.mk (CPUCores s) (RAMGB s) (StorageGB s) (HasSSD s) (HasGPU s)
    (GPUVRAMGB s) v (OS s).

(** [s'] is [s] with exactly one of [cpu_cores], [ram_gb], [storage_gb],
    [network_mbps] increased (or left as it is), everything else fixed. *)
Inductive raised (s : SystemSpec.t) : SystemSpec.t -> Prop :=
| raised_cpu v : CPUCores s <= v -> raised s (with_CPUCores v s)
| raised_ram v : RAMGB s <= v -> raised s (with_RAMGB v s)
| raised_storage v : StorageGB s <= v -> raised s (with_StorageGB v s)
| raised_network v : NetworkMbps s <= v -> raised s (with_NetworkMbps v s).


(** The five categories of upgrade needs. *)
Inductive category : Type := RAM | CPU | GPU | Storage | Network.

Definition categories : list category := [RAM; CPU; GPU; Storage; Network].

(** The category of a requirement: the first of RAM, CPU, GPU,
    Storage-or-SSD, Network whose name occurs in it, if any. *)
Definition classify (req : string) : option category :=
  if Contains req "RAM" then Some RAM
  else if Contains req "CPU" then Some CPU
  else if Contains req "GPU" then Some GPU
  else if Contains req "Storage" || Contains req "SSD" then Some Storage
  else if Contains req "Network" then Some Network
  else None.

Definition is_category (c : category) (o : option category) : bool :=
  match o, c with
  | Some RAM, RAM | Some CPU, CPU | Some GPU, GPU
  | Some Storage, Storage | Some Network, Network => true
  | _, _ => false
  end.

(** The number of requirements of category [c] in a list. *)
Definition count_category (c : category) (reqs : list string) : nat :=
  length (List.filter (fun req => is_category c (classify req)) reqs).

(** Every [missing_requirements] entry across the incompatible results. *)
Definition all_missing (incompatible : list CompatibilityResult.t) : list string :=
  flat_map CompatibilityResult.MissingRequirements incompatible.

Definition issue_count (c : category) (incompatible : list CompatibilityResult.t) : nat :=
  count_category c (all_missing incompatible).

Definition suggestion (c : category) : string :=
  match c with
  | RAM => msgRAM
  | CPU => msgCPU
  | GPU => msgGPU
  | Storage => msgStorage
  | Network => msgNetwork
  end.

(** The categories whose count exceeds [incompatible_count / 3]. *)
Definition exceeding (incompatible : list CompatibilityResult.t) : list category :=
  List.filter (fun c => (length incompatible / 3 <? issue_count c incompatible)%nat)
    categories.

(** The counters after the inner loop over [reqs], started from [c]. *)
Definition counted (c : issues) (reqs : list string) : issues :=
  mkIssues (ramIssues c + count_category RAM reqs)
           (cpuIssues c + count_category CPU reqs)
           (gpuIssues c + count_category GPU reqs)
           (storageIssues c + count_category Storage reqs)
           (networkIssues c + count_category Network reqs).

(** A missing-requirement entry of the GPU VRAM check: it begins as
    [vramMessage] does. *)
Definition is_vram_entry (req : string) : bool :=
  has_prefix "GPU VRAM: need " req.

(** The number of GPU VRAM entries across the incompatible results. *)
Definition vram_count (incompatible : list CompatibilityResult.t) : nat :=
  length (List.filter is_vram_entry (all_missing incompatible)).

(** A result without its GPU VRAM entries. *)
Definition drop_vram (r : CompatibilityResult.t) : CompatibilityResult.t :=
  CompatibilityResult.mk
    (CompatibilityResult.Name r)
    (CompatibilityResult.Compatible r)
    (CompatibilityResult.CompatibilityScore r)
    (CompatibilityResult.PerformanceRating r)
    (CompatibilityResult.EstimatedCost r)
    (List.filter (fun req => negb (is_vram_entry req))
       (CompatibilityResult.MissingRequirements r))
    (CompatibilityResult.RecommendedUpgrades r)
    (CompatibilityResult.Warnings r).

(** The GPU VRAM check is the one check that the system fails. *)
Definition only_vram_fails (s : SystemSpec.t) (p : DePINProject.t) : Prop :=
  CPUCoresMin p <= CPUCores s
  /\ RAMGBMin p <= RAMGB s
  /\ StorageGBMin p <= StorageGB s
  /\ (StorageType p = "SSD" -> HasSSD s = true)
  /\ (GPURequired p = true -> HasGPU s = true)
  /\ GPUVRAMGBMin p > 0 /\ GPUVRAMGB s < GPUVRAMGBMin p
  /\ NetworkMbpsMin p <= NetworkMbps s
  /\ os_supported (OS s) (SupportedOS p).

End Spec.

(* ===================================================================== *)
(** ** The specification's vocabulary for catalog loading *)
(* ===================================================================== *)

Module LoadSpec.
Import DePINProject.
Import Go data.

Section Tables.
Context {tables : CaseTables}.

(** The project of a read, when the read is a record that
    [parseProjectRecord] accepts. *)
Definition accepted (fieldMap : gmap string nat) (r : read) : option DePINProject.t :=
  match r with
  | Row record =>
      match parseProjectRecord record fieldMap 0 with
      | (project, None) => Some project
      | (_, Some _) => None
      end
  | ReadFailure _ => None
  end.

(** The valid records of a file, in file order. *)
Fixpoint validProjects (fieldMap : gmap string nat) (reads : list read)
  : list DePINProject.t :=
  match reads with
  | [] => []
  | r :: reads' =>
      match accepted fieldMap r with
      | Some project => project :: validProjects fieldMap reads'
      | None => validProjects fieldMap reads'
      end
  end.

Definition is_failure (r : read) : bool :=
  match r with ReadFailure _ => true | Row _ => false end.

(** The CSV reader reports an error on some data row. *)
Definition has_failure (reads : list read) : bool := existsb is_failure reads.



End Tables.

(** A file whose second data row the CSV reader cannot read. *)
Definition broken_row_fs : filesystem :=
  fun path =>
    if (path =? "data/depin.csv")%string then
      inr [Row ["project_name"; "cpu_cores_min"];
           Row ["Helium"; "2"];
           ReadFailure "parse error on line 3, column 7: bare quote in non-quoted-field";
           Row ["Akash"; "4"]]
    else inl "open: no such file or directory".

(** A file with one record that leaves [cost_category] and [supported_os]
    empty. *)
Definition no_defaults_fs : filesystem :=
  fun path =>
    if (path =? "data/depin.csv")%string then
      inr [Row ["project_name"; "cpu_cores_min"; "cost_max"];
           Row ["Helium"; "2"; "10"]]
    else inl "open: no such file or directory".

Definition Helium : DePINProject.t :=
  DePINProject.mk "Helium" "" "" 2 0 0 0 "" false 0 0 "" 0 10 "" false "".

End LoadSpec.

(* ===================================================================== *)
(** ** Vocabulary for the further properties *)
(* ===================================================================== *)

Module Extra.
Import SystemSpec DePINProject.
Import Go models service data Conditions.

(** What a block of [analyzeProjectCompatibility] does to the whole local
    state. *)
Definition block_state_effect (f : scoring -> scoring)
    (on_score : float -> float) (fails : bool)
    (entries upgrades warnings : list string) : Prop :=
  forall st,
    f st =
    mkScoring
      (CompatibilityResult.mk
         (CompatibilityResult.Name (result st))
         (CompatibilityResult.Compatible (result st) && negb fails)
         (CompatibilityResult.CompatibilityScore (result st))
         (CompatibilityResult.PerformanceRating (result st))
         (CompatibilityResult.EstimatedCost (result st))
         (CompatibilityResult.MissingRequirements (result st) ++ entries)
         (CompatibilityResult.RecommendedUpgrades (result st) ++ upgrades)
         (CompatibilityResult.Warnings (result st) ++ warnings))
      (on_score (score st)).

(** The system meets every requirement of the project, the recommended RAM
    included. *)
Definition meets_all (s : SystemSpec.t) (p : DePINProject.t) : Prop :=
  CPUCoresMin p <= CPUCores s
  /\ RAMGBMin p <= RAMGB s
  /\ RAMGBRecommended p <= RAMGB s
  /\ StorageGBMin p <= StorageGB s
  /\ (StorageType p = "SSD" -> HasSSD s = true)
  /\ (GPURequired p = true -> HasGPU s = true)
  /\ (GPUVRAMGBMin p > 0 -> GPUVRAMGBMin p <= GPUVRAMGB s)
  /\ NetworkMbpsMin p <= NetworkMbps s
  /\ isOSCompatible (OS s) (SupportedOS p) = true.

(** The points of [GetSystemRating], per resource. *)
Definition cpuPoints (cores : Z) : Z :=
  if cores >=? 12 then 3 else if cores >=? 8 then 2 else if cores >=? 4 then 1 else 0.
Definition ramPoints (gb : Z) : Z :=
  if gb >=? 32 then 3 else if gb >=? 16 then 2 else if gb >=? 8 then 1 else 0.
Definition gpuPoints (has_gpu : bool) (vram : Z) : Z :=
  if has_gpu && (vram >=? 12) then 3
  else if has_gpu && (vram >=? 6) then 2
  else if has_gpu then 1 else 0.
Definition storagePoints (has_ssd : bool) (gb : Z) : Z :=
  if has_ssd && (gb >=? 1000) then 2
  else if has_ssd || (gb >=? 500) then 1 else 0.
Definition networkPoints (mbps : Z) : Z :=
  if mbps >=? 500 then 2 else if mbps >=? 100 then 1 else 0.

Definition systemPoints (spec : SystemSpec.t) : Z :=
  cpuPoints (CPUCores spec) + ramPoints (RAMGB spec)
  + gpuPoints (HasGPU spec) (GPUVRAMGB spec)
  + storagePoints (HasSSD spec) (StorageGB spec)
  + networkPoints (NetworkMbps spec).

Definition ratingOfPoints (points : Z) : string :=
  if points >=? 12 then SystemExtreme
  else if points >=? 8 then SystemHighEnd
  else if points >=? 5 then SystemMidRange
  else SystemEntry.

(** The place of a system rating in the order Entry Level, Mid-Range,
    High-End, Extreme. *)
Definition systemRank (rating : string) : nat :=
  if (rating =? SystemExtreme)%string then 3
  else if (rating =? SystemHighEnd)%string then 2
  else if (rating =? SystemMidRange)%string then 1
  else 0.

(** [s'] is at least [s] in every capability. *)
Definition no_weaker (s s' : SystemSpec.t) : Prop :=
  CPUCores s <= CPUCores s'
  /\ RAMGB s <= RAMGB s'
  /\ StorageGB s <= StorageGB s'
  /\ (HasSSD s = true -> HasSSD s' = true)
  /\ (HasGPU s = true -> HasGPU s' = true)
  /\ GPUVRAMGB s <= GPUVRAMGB s'
  /\ NetworkMbps s <= NetworkMbps s'.

(** The number of projects whose [key] is [k]. *)
Definition count_key (key : DePINProject.t -> string) (k : string)
    (catalog : list DePINProject.t) : nat :=
  length (List.filter (fun p => (key p =? k)%string) catalog).

Definition count_flag (flag : DePINProject.t -> bool) (catalog : list DePINProject.t)
  : nat :=
  length (List.filter flag catalog).

(** The assessment line of [generateRecommendations], from the number of
    compatible results and the size of the catalog. *)
Definition assessment (compatible total : nat) : string :=
  let compatibilityRate :=
    (float64_of_len compatible / float64_of_len total)%float in
  if (0.8 <=? compatibilityRate)%float then msgExcellent
  else if (0.6 <=? compatibilityRate)%float then msgGood
  else if (0.4 <=? compatibilityRate)%float then msgFair
  else msgLimited.

(** The line of [generateRecommendations] that names the best projects. *)
Definition bestLine (compatible : list CompatibilityResult.t) : list string :=
  match compatible with
  | [] => []
  | _ :: _ =>
      [msgBest +:+ Join (map CompatibilityResult.Name (firstn 3 compatible)) ", "]
  end.

(** The sum of the scores, added in list order from [0.0]. *)
Definition sumScores (results : list CompatibilityResult.t) (from : float) : float :=
  fold_left (fun total r => (total + CompatibilityResult.CompatibilityScore r)%float)
    results from.

(** Insertion sort of the slice read from its end: results of equal score
    come out in the opposite order. *)
Definition sortFromEnd {A} (less : A -> A -> bool) (data : list A) : list A :=
  insertionSortLessFunc less (rev data).

(** Two projects that every system with one core satisfies. *)
Definition twins : list DePINProject.t :=
  [DePINProject.mk "a" "" "" 1 0 0 0 "" false 0 0 "" 0 0 "" true "";
   DePINProject.mk "b" "" "" 1 0 0 0 "" false 0 0 "" 0 0 "" true ""].

Section Tables.
Context {tables : CaseTables}.

(** The key under which [createFieldMap] files a header cell. *)
Definition normalizeField (field : string) : string :=
  ToLower (ReplaceAll (TrimSpace field) " " "_").

(** The state of the loop of [createFieldMap]: the next index and the map. *)
Definition fieldMapStep (st : nat * gmap string nat) (field : string)
  : nat * gmap string nat :=
  let '(i, fieldMap) := st in (S i, <[normalizeField field := i]> fieldMap).

End Tables.

(** The checks of [validateProject]. *)
Definition in_ranges (p : DePINProject.t) : Prop :=
  Name p <> ""
  /\ 0 <= CPUCoresMin p <= 64
  /\ 0 <= RAMGBMin p <= 1024
  /\ 0 <= StorageGBMin p <= 100000
  /\ 0 <= NetworkMbpsMin p <= 100000.

(** The data rows that [parseProjectRecord] rejects. *)
Definition rejectedRows {tables : CaseTables} (fieldMap : gmap string nat)
    (reads : list read) : nat :=
  length (List.filter
            (fun r => match LoadSpec.accepted fieldMap r with
                      | Some _ => false
                      | None => true
                      end) reads).

End Extra.

(* ===================================================================== *)
(** ** The embedding on the scenarios of the specification *)
(* ===================================================================== *)

Module Scenarios.
Import Go models service Conditions Spec.

Example fmt_d_samples : (fmt_d 0, fmt_d 1000, fmt_d (-7)) = ("0", "1000", "-7").
Proof. reflexivity. Qed.

Example Atoi_samples :
  (Atoi "12", Atoi "-3", Atoi "+4", Atoi "", Atoi "4x", Atoi "9223372036854775808")
  = (Some 12, Some (-3), Some 4, None, None, None).
Proof. reflexivity. Qed.

Example TrimSpace_samples :
  (TrimSpace "  Linux ", TrimSpace (nbsp +:+ "Windows" +:+ nbsp), TrimSpace nbsp)
  = ("Linux", "Windows", "").
Proof. reflexivity. Qed.

Example isOSCompatible_no_break_space :
  isOSCompatible "Windows" ("Linux," +:+ nbsp +:+ "Windows") = true.
Proof. reflexivity. Qed.

(** With the entries of the case tables for U+00C9 and U+017F, a header
    cell and a boolean cell outside ASCII. *)
Example ToLower_ToUpper_samples :
  let tables :=
    {| To_LowerCase := fun r => if r =? 0xC9 then 0xE9 else r;
       To_UpperCase := fun r => if r =? 0x17F then 0x53 else r |} in
  (ToLower "Project Name", ToLower "CAFÉ", ToUpper "yes", ToUpper "yeſ")
  = ("project name", "café", "YES", "YES").
Proof. reflexivity. Qed.

Example Split_sample :
  Split "Linux, Windows,macOS" "," = ["Linux"; " Windows"; "macOS"].
Proof. reflexivity. Qed.

Example isOSCompatible_samples :
  (isOSCompatible "Windows" "Linux, Windows,macOS", isOSCompatible "Windows" "Linux",
   isOSCompatible "windows" "Windows", isOSCompatible "Windows" "")
  = (true, false, false, true).
Proof. reflexivity. Qed.

Example classify_samples :
  (classify "RAM: need 16GB, have 4GB", classify "ram is short",
   classify "SSD storage required", classify "GPU VRAM: need 8GB, have 4GB",
   classify "OS not supported: need one of [Linux], have Windows")
  = (Some RAM, None, Some Storage, Some RAM, None).
Proof. reflexivity. Qed.

(** Scenario A: every minimum met, SSD bonus, no recommended-RAM
    shortfall. *)
Example scenarioA :
  analyzeProjectCompatibility
    (SystemSpec.mk 8 16 512 true true 8 100 "Windows")
    (DePINProject.mk "A" "" "" 4 8 16 500 "SSD" false 0 20 "Linux,Windows,macOS"
       5 20 "" true "")
  = CompatibilityResult.mk "A" true 1.0 "Excellent" "$5-$20/month" [] [] [].
Proof. vm_compute. reflexivity. Qed.

(** Scenario D: every system value equal to its minimum. *)
Example scenarioD :
  analyzeProjectCompatibility
    (SystemSpec.mk 4 8 500 false false 0 20 "Linux")
    (DePINProject.mk "D" "" "" 4 8 8 500 "Any" false 0 20 "Linux" 0 0 "" true "")
  = CompatibilityResult.mk "D" true 1.0 "Excellent" "$0-$0/month" [] [] [].
Proof. vm_compute. reflexivity. Qed.

Example GetSystemRating_sample :
  GetSystemRating (SystemSpec.mk 8 16 512 true true 8 100 "Windows") = "High-End".
Proof. reflexivity. Qed.

End Scenarios.

(* ===================================================================== *)
(** ** Facts about the Scorer *)
(* ===================================================================== *)

Module ScorerFacts.
Import SystemSpec DePINProject.
Import Go models service Conditions.

Lemma allb_elim (f : bool -> bool) : allb f = true -> forall b, f b = true.
Proof.
  unfold allb. intros H b. apply andb_prop in H. destruct H, b; assumption.
Qed.

(** Settles a goal [f b1 .. bn = true] over boolean variables by running
    [f] on the [2^n] assignments. *)
Ltac by_evaluation :=
  repeat match goal with
         | b : bool |- _ => revert b; apply allb_elim
         end;
  vm_compute; reflexivity.

Lemma calculatePerformanceBonus_flags s p :
  calculatePerformanceBonus s p =
  flagBonus (b_cpu2 s p) (b_cpu1 s p) (b_ram2 s p) (b_ram1 s p) (b_net2 s p) (b_gpu8 s).
Proof. reflexivity. Qed.

(** The code is the composition of its blocks. *)
Lemma analyze_blocks s p :
  analyzeProjectCompatibility s p =
  finish (checkHome p (addBonus s p (checkOS s p (checkNetwork s p (checkGPU s p
    (checkSSD s p (checkStorage s p (checkRAM s p (checkCPU s p (start p)))))))))).
Proof. reflexivity. Qed.

Ltac block_cases :=
  intros [[n c sc r cost ms us ws] x]; simpl;
  repeat match goal with
         | |- context [if ?b then _ else _] => destruct b; simpl
         end;
  rewrite ?andb_true_r, ?andb_false_r, ?app_nil_r; auto.

Lemma checkCPU_effect s p :
  block_effect (checkCPU s p) (stepCPU (c_cpu s p)) (c_cpu s p)
    (if c_cpu s p then
       ["CPU cores: need " +:+ fmt_d (CPUCoresMin p)
        +:+ ", have " +:+ fmt_d (CPUCores s)] else []).
Proof. unfold checkCPU, stepCPU. block_cases. Qed.

Lemma checkRAM_effect s p :
  block_effect (checkRAM s p) (stepRAM (c_ram s p) (c_rec s p)) (c_ram s p)
    (if c_ram s p then
       ["RAM: need " +:+ fmt_d (RAMGBMin p)
        +:+ "GB, have " +:+ fmt_d (RAMGB s) +:+ "GB"] else []).
Proof. unfold checkRAM, stepRAM. block_cases. Qed.

Lemma checkStorage_effect s p :
  block_effect (checkStorage s p) (stepStorage (c_sto s p)) (c_sto s p)
    (if c_sto s p then
       ["Storage: need " +:+ fmt_d (StorageGBMin p)
        +:+ "GB, have " +:+ fmt_d (StorageGB s) +:+ "GB"] else []).
Proof. unfold checkStorage, stepStorage. block_cases. Qed.

Lemma checkSSD_effect s p :
  block_effect (checkSSD s p) (stepSSD (c_ssd_no s p) (c_ssd_yes s p)) (c_ssd_no s p)
    (if c_ssd_no s p then ["SSD storage required"] else []).
Proof. unfold checkSSD, stepSSD. block_cases. Qed.

Lemma checkGPU_effect s p :
  block_effect (checkGPU s p) (stepGPU (c_gpu s p) (c_vram s p))
    (c_gpu s p || c_vram s p)
    (if c_gpu s p then ["Dedicated GPU required"]
     else if c_vram s p then [vramMessage (GPUVRAMGBMin p) (GPUVRAMGB s)]
     else []).
Proof. unfold checkGPU, stepGPU. block_cases. Qed.

Lemma checkNetwork_effect s p :
  block_effect (checkNetwork s p) (stepNetwork (c_net s p)) (c_net s p)
    (if c_net s p then
       ["Network speed: need " +:+ fmt_d (NetworkMbpsMin p)
        +:+ "Mbps, have " +:+ fmt_d (NetworkMbps s) +:+ "Mbps"] else []).
Proof. unfold checkNetwork, stepNetwork. block_cases. Qed.

Lemma checkOS_effect s p :
  block_effect (checkOS s p) (stepOS (c_os_no s p)) (c_os_no s p)
    (if c_os_no s p then
       ["OS not supported: need one of [" +:+ SupportedOS p
        +:+ "], have " +:+ OS s] else []).
Proof. unfold checkOS, stepOS. block_cases. Qed.

Lemma addBonus_effect s p :
  block_effect (addBonus s p)
    (fun x => x + calculatePerformanceBonus s p)%float false [].
Proof. unfold addBonus. block_cases. Qed.

Lemma checkHome_effect p :
  block_effect (checkHome p) (fun x => x) false [].
Proof. unfold checkHome. block_cases. Qed.

Lemma analyze_score s p :
  CompatibilityResult.CompatibilityScore (analyzeProjectCompatibility s p)
  = clamp01 (rawScore s p).
Proof.
  rewrite analyze_blocks. unfold finish, rawScore, flagScore, clamp01. simpl.
  rewrite (proj1 (checkHome_effect p _)), (proj1 (addBonus_effect s p _)),
    (proj1 (checkOS_effect s p _)), (proj1 (checkNetwork_effect s p _)),
    (proj1 (checkGPU_effect s p _)), (proj1 (checkSSD_effect s p _)),
    (proj1 (checkStorage_effect s p _)), (proj1 (checkRAM_effect s p _)),
    (proj1 (checkCPU_effect s p _)).
  reflexivity.
Qed.

Lemma analyze_compatible s p :
  CompatibilityResult.Compatible (analyzeProjectCompatibility s p)
  = negb (anyFailure s p).
Proof.
  rewrite analyze_blocks. unfold finish, anyFailure. simpl.
  rewrite (proj1 (proj2 (checkHome_effect p _))),
    (proj1 (proj2 (addBonus_effect s p _))),
    (proj1 (proj2 (checkOS_effect s p _))),
    (proj1 (proj2 (checkNetwork_effect s p _))),
    (proj1 (proj2 (checkGPU_effect s p _))),
    (proj1 (proj2 (checkSSD_effect s p _))),
    (proj1 (proj2 (checkStorage_effect s p _))),
    (proj1 (proj2 (checkRAM_effect s p _))),
    (proj1 (proj2 (checkCPU_effect s p _))).
  simpl.
  destruct (c_cpu s p), (c_ram s p), (c_sto s p), (c_ssd_no s p), (c_gpu s p),
    (c_vram s p), (c_net s p), (c_os_no s p); reflexivity.
Qed.

Lemma analyze_missing s p :
  CompatibilityResult.MissingRequirements (analyzeProjectCompatibility s p)
  = missingList s p.
Proof.
  rewrite analyze_blocks. unfold finish, missingList. simpl.
  rewrite (proj2 (proj2 (checkHome_effect p _))),
    (proj2 (proj2 (addBonus_effect s p _))),
    (proj2 (proj2 (checkOS_effect s p _))),
    (proj2 (proj2 (checkNetwork_effect s p _))),
    (proj2 (proj2 (checkGPU_effect s p _))),
    (proj2 (proj2 (checkSSD_effect s p _))),
    (proj2 (proj2 (checkStorage_effect s p _))),
    (proj2 (proj2 (checkRAM_effect s p _))),
    (proj2 (proj2 (checkCPU_effect s p _))).
  simpl. rewrite !app_nil_r, <- !app_assoc. reflexivity.
Qed.

Lemma analyze_rating s p :
  CompatibilityResult.PerformanceRating (analyzeProjectCompatibility s p)
  = GetPerformanceRating
      (CompatibilityResult.CompatibilityScore (analyzeProjectCompatibility s p)).
Proof. rewrite analyze_blocks. reflexivity. Qed.

(** The clamped score is in [0,1], whatever branches were taken. *)
Lemma clamp01_flags
    (cpu ram rec sto ssd_no ssd_yes gpu vram net os_no
     cpu2 cpu1 ram2 ram1 net2 gpu8 : bool) :
  in_unit_interval
    (clamp01 (flagScore cpu ram rec sto ssd_no ssd_yes gpu vram net os_no
                (flagBonus cpu2 cpu1 ram2 ram1 net2 gpu8))) = true.
Proof. by_evaluation. Qed.

End ScorerFacts.

(* ===================================================================== *)
(** ** The OS check *)
(* ===================================================================== *)

Module OSFacts.
Import Go service Spec.

Lemma Split_comma_free (s : string) :
  comma_free s = true -> Split s "," = [s].
Proof.
  induction s as [|c s IH]; simpl; [reflexivity|].
  intros H. apply andb_prop in H. destruct H as [Hc Hs].
  apply negb_true_iff in Hc. rewrite Hc, (IH Hs). reflexivity.
Qed.

Lemma Split_entry_then_comma (s t : string) :
  comma_free s = true -> Split (s +:+ String "," t) "," = s :: Split t ",".
Proof.
  induction s as [|c s IH]; simpl; [reflexivity|].
  intros H. apply andb_prop in H. destruct H as [Hc Hs].
  apply negb_true_iff in Hc. rewrite Hc, (IH Hs). reflexivity.
Qed.

(** Splitting at the commas undoes joining with commas. *)
Lemma Split_Join (entries : list string) :
  entries <> [] -> forallb comma_free entries = true ->
  Split (Join entries ",") "," = entries.
Proof.
  induction entries as [|e rest IH]; [congruence|].
  intros _ H. simpl in H. apply andb_prop in H. destruct H as [He Hrest].
  destruct rest as [|e' rest'].
  - simpl. apply Split_comma_free, He.
  - change (Join (e :: e' :: rest') ",") with (e +:+ String "," (Join (e' :: rest') ",")).
    rewrite (Split_entry_then_comma _ _ He), IH; [reflexivity | congruence | exact Hrest].
Qed.

(** The pieces of a split hold no comma, and joining them with commas
    gives the string back. *)
Lemma Join_Split (s : string) :
  Split s "," <> []
  /\ forallb comma_free (Split s ",") = true
  /\ Join (Split s ",") "," = s.
Proof.
  induction s as [|c s (Hne & Hcf & Hj)]; [repeat split; discriminate|].
  cbn [Split]. destruct (Ascii.eqb_spec c ",") as [->|Hc].
  - split; [discriminate|]. split; [exact Hcf|].
    destruct (Split s ",") as [|e rest]; [contradiction|].
    change (Join (EmptyString :: e :: rest) ",") with (String "," (Join (e :: rest) ",")).
    rewrite Hj. reflexivity.
  - destruct (Split s ",") as [|e rest]; [contradiction|].
    split; [discriminate|]. split.
    + cbn [forallb comma_free] in *. apply andb_prop in Hcf. destruct Hcf as [He Hr].
      rewrite He, Hr. apply Ascii.eqb_neq in Hc. rewrite Hc. reflexivity.
    + rewrite <- Hj. destruct rest; reflexivity.
Qed.

(** [isOSCompatible] decides the OS-support row of the table. *)
Lemma isOSCompatible_spec (systemOS supportedOS : string) :
  isOSCompatible systemOS supportedOS = true <-> os_supported systemOS supportedOS.
Proof.
  unfold isOSCompatible, os_supported.
  destruct (String.eqb_spec supportedOS "") as [E|E].
  { split; [left; exact E | reflexivity]. }
  rewrite existsb_exists. split.
  - intros (entry & Hin & H). right.
    destruct (Join_Split supportedOS) as (_ & Hcf & Hj).
    exists (Split supportedOS ","), entry.
    repeat split; [symmetry; exact Hj | exact Hcf | exact Hin |].
    apply String.eqb_eq, H.
  - intros [H | (entries & entry & Hj & Hcf & Hin & H)]; [contradiction|].
    exists entry. split; [|apply String.eqb_eq, H].
    rewrite Hj, Split_Join; [exact Hin | | exact Hcf].
    intros ->. destruct Hin.
Qed.

Lemma isOSCompatible_false (systemOS supportedOS : string) :
  isOSCompatible systemOS supportedOS = false <-> ~ os_supported systemOS supportedOS.
Proof.
  rewrite <- isOSCompatible_spec.
  destruct (isOSCompatible systemOS supportedOS); split; congruence.
Qed.

End OSFacts.

(* ===================================================================== *)
(** ** The Scorer *)
(* ===================================================================== *)

Module ScorerTheorems.
Import SystemSpec DePINProject.
Import Go models service Conditions Spec ScorerFacts OSFacts.

(** C1: for every system and every project, the compatibility score
    returned by [analyzeProjectCompatibility] is a float64 in [0.0, 1.0]:
    the accumulated penalties and bonuses never produce a NaN, and the
    final clamp brings the sum into the interval. *)
Theorem C1_score_in_unit_interval (s : SystemSpec.t) (p : DePINProject.t) :
  in_unit_interval
    (CompatibilityResult.CompatibilityScore (analyzeProjectCompatibility s p)) = true.
Proof.
  rewrite analyze_score. unfold rawScore. apply clamp01_flags.
Qed.

Lemma anyFailure_spec s p : anyFailure s p = true <-> dimension_fails s p.
Proof.
  unfold anyFailure, dimension_fails, c_cpu, c_ram, c_sto, c_ssd_no, c_gpu, c_vram,
    c_net, c_os_no.
  rewrite <- isOSCompatible_false.
  rewrite !orb_true_iff, !andb_true_iff, !negb_true_iff, !Z.ltb_lt, Z.gtb_ltb,
    Z.ltb_lt, String.eqb_eq, Z.gt_lt_iff.
  destruct (GPURequired p), (HasGPU s); simpl; intuition discriminate.
Qed.

(** C2: the result of [analyzeProjectCompatibility] has
    [compatible = false] whenever a dimension of the table fails, whatever
    the clamped score; and when no dimension fails it has
    [compatible = true], so a shortfall against the recommended RAM alone
    does not change the flag. *)
Theorem C2_compatible_iff_no_dimension_fails (s : SystemSpec.t) (p : DePINProject.t) :
  (dimension_fails s p ->
   CompatibilityResult.Compatible (analyzeProjectCompatibility s p) = false)
  /\ (~ dimension_fails s p ->
      CompatibilityResult.Compatible (analyzeProjectCompatibility s p) = true).
Proof.
  rewrite analyze_compatible. split; intros H.
  - apply anyFailure_spec in H. rewrite H. reflexivity.
  - destruct (anyFailure s p) eqn:E; [|reflexivity].
    exfalso. apply H, anyFailure_spec, E.
Qed.

Lemma C2_compatible_iff_no_dimension_fails_witness :
  CompatibilityResult.Compatible
    (analyzeProjectCompatibility scenarioB_system
       (scenarioB_project "B" "" "" 0 0 "" false "")) = false.
Proof.
  apply (proj1 (C2_compatible_iff_no_dimension_fails scenarioB_system
                  (scenarioB_project "B" "" "" 0 0 "" false ""))).
  left. simpl. lia.
Defined.

(** C3 (as stated, refuted): in Scenario B the result does not have six
    entries in [missing_requirements]. *)
Lemma C3_scenarioB_not_six_entries :
  ~ scenarioB_outcome
      (analyzeProjectCompatibility scenarioB_system
         (scenarioB_project "B" "" "" 0 0 "" false "")) 6.
Proof.
  unfold scenarioB_outcome. intros (_ & H & _). vm_compute in H. discriminate H.
Qed.

(** C3 (amended): in Scenario B the result has [compatible = false], exactly
    seven entries in [missing_requirements] (CPU, RAM, storage, SSD, GPU,
    network, OS, in this order), score [0.0] and rating ["Poor"], whatever
    the name, type, cost and description fields of the project. *)
Theorem C3_scenarioB_seven_entries
    (name type node : string) (cost_min cost_max : Z) (category : string)
    (home : bool) (description : string) :
  let r := analyzeProjectCompatibility scenarioB_system
             (scenarioB_project name type node cost_min cost_max category home
                description) in
  scenarioB_outcome r 7
  /\ CompatibilityResult.MissingRequirements r =
     ["CPU cores: need 8, have 2"; "RAM: need 16GB, have 4GB";
      "Storage: need 1000GB, have 100GB"; "SSD storage required";
      "Dedicated GPU required"; "Network speed: need 200Mbps, have 10Mbps";
      "OS not supported: need one of [Linux], have Windows"].
Proof.
  intros r.
  assert (Hm : CompatibilityResult.MissingRequirements r =
     ["CPU cores: need 8, have 2"; "RAM: need 16GB, have 4GB";
      "Storage: need 1000GB, have 100GB"; "SSD storage required";
      "Dedicated GPU required"; "Network speed: need 200Mbps, have 10Mbps";
      "OS not supported: need one of [Linux], have Windows"]).
  { unfold r. rewrite analyze_missing. vm_compute. reflexivity. }
  assert (Hs : CompatibilityResult.CompatibilityScore r = 0.0%float).
  { unfold r. rewrite analyze_score. vm_compute. reflexivity. }
  unfold scenarioB_outcome. repeat split.
  - unfold r. rewrite analyze_compatible. vm_compute. reflexivity.
  - rewrite Hm. reflexivity.
  - exact Hs.
  - unfold r. rewrite analyze_rating. fold r. rewrite Hs. vm_compute. reflexivity.
  - exact Hm.
Qed.

Lemma ltb_antitone (a b m : Z) : a <= b -> implb (b <? m) (a <? m) = true.
Proof.
  intros H. destruct (Z.ltb_spec b m), (Z.ltb_spec a m); simpl; try reflexivity. lia.
Qed.

Lemma gtb_monotone (a b m : Z) : a <= b -> implb (a >? m) (b >? m) = true.
Proof.
  intros H. rewrite !Z.gtb_ltb.
  destruct (Z.ltb_spec m a), (Z.ltb_spec m b); simpl; try reflexivity. lia.
Qed.

(** Turning off a CPU penalty flag and turning on CPU bonus flags never
    lowers the clamped score; likewise for the other three resources. *)
Lemma cpu_flags_monotone
    (cpu cpu' cpu2 cpu2' cpu1 cpu1'
     ram rec sto ssd_no ssd_yes gpu vram net os_no ram2 ram1 net2 gpu8 : bool) :
  (if implb cpu' cpu && implb cpu2 cpu2' && implb cpu1 cpu1' then
     fle (clamp01 (flagScore cpu ram rec sto ssd_no ssd_yes gpu vram net os_no
                     (flagBonus cpu2 cpu1 ram2 ram1 net2 gpu8)))
         (clamp01 (flagScore cpu' ram rec sto ssd_no ssd_yes gpu vram net os_no
                     (flagBonus cpu2' cpu1' ram2 ram1 net2 gpu8)))
   else true) = true.
Proof. by_evaluation. Qed.

Lemma ram_flags_monotone
    (ram ram' rec rec' ram2 ram2' ram1 ram1'
     cpu sto ssd_no ssd_yes gpu vram net os_no cpu2 cpu1 net2 gpu8 : bool) :
  (if implb ram' ram && implb rec' rec && implb ram2 ram2' && implb ram1 ram1' then
     fle (clamp01 (flagScore cpu ram rec sto ssd_no ssd_yes gpu vram net os_no
                     (flagBonus cpu2 cpu1 ram2 ram1 net2 gpu8)))
         (clamp01 (flagScore cpu ram' rec' sto ssd_no ssd_yes gpu vram net os_no
                     (flagBonus cpu2 cpu1 ram2' ram1' net2 gpu8)))
   else true) = true.
Proof. by_evaluation. Qed.

Lemma storage_flags_monotone
    (sto sto'
     cpu ram rec ssd_no ssd_yes gpu vram net os_no cpu2 cpu1 ram2 ram1 net2 gpu8 : bool) :
  (if implb sto' sto then
     fle (clamp01 (flagScore cpu ram rec sto ssd_no ssd_yes gpu vram net os_no
                     (flagBonus cpu2 cpu1 ram2 ram1 net2 gpu8)))
         (clamp01 (flagScore cpu ram rec sto' ssd_no ssd_yes gpu vram net os_no
                     (flagBonus cpu2 cpu1 ram2 ram1 net2 gpu8)))
   else true) = true.
Proof. by_evaluation. Qed.

Lemma network_flags_monotone
    (net net' net2 net2'
     cpu ram rec sto ssd_no ssd_yes gpu vram os_no cpu2 cpu1 ram2 ram1 gpu8 : bool) :
  (if implb net' net && implb net2 net2' then
     fle (clamp01 (flagScore cpu ram rec sto ssd_no ssd_yes gpu vram net os_no
                     (flagBonus cpu2 cpu1 ram2 ram1 net2 gpu8)))
         (clamp01 (flagScore cpu ram rec sto ssd_no ssd_yes gpu vram net' os_no
                     (flagBonus cpu2 cpu1 ram2 ram1 net2' gpu8)))
   else true) = true.
Proof. by_evaluation. Qed.

(** C5: raising one of [cpu_cores], [ram_gb], [storage_gb], [network_mbps]
    of the system, the other fields fixed, never lowers the compatibility
    score of a project: of any project, hence of one whose requirement on
    that resource is the binding constraint. *)
Theorem C5_score_monotone (s s' : SystemSpec.t) (p : DePINProject.t) :
  raised s s' ->
  fle (CompatibilityResult.CompatibilityScore (analyzeProjectCompatibility s p))
      (CompatibilityResult.CompatibilityScore (analyzeProjectCompatibility s' p))
  = true.
Proof.
  intros H. rewrite !analyze_score. unfold rawScore.
  destruct H as [v H | v H | v H | v H].
  - pose proof (cpu_flags_monotone
      (c_cpu s p) (c_cpu (with_CPUCores v s) p)
      (b_cpu2 s p) (b_cpu2 (with_CPUCores v s) p)
      (b_cpu1 s p) (b_cpu1 (with_CPUCores v s) p)
      (c_ram s p) (c_rec s p) (c_sto s p) (c_ssd_no s p) (c_ssd_yes s p) (c_gpu s p)
      (c_vram s p) (c_net s p) (c_os_no s p) (b_ram2 s p) (b_ram1 s p) (b_net2 s p)
      (b_gpu8 s)) as M.
    unfold c_cpu at 1 2, b_cpu2 at 1 2, b_cpu1 at 1 2 in M. simpl in M.
    rewrite (ltb_antitone _ _ _ H), !(gtb_monotone _ _ _ H) in M. exact M.
  - pose proof (ram_flags_monotone
      (c_ram s p) (c_ram (with_RAMGB v s) p)
      (c_rec s p) (c_rec (with_RAMGB v s) p)
      (b_ram2 s p) (b_ram2 (with_RAMGB v s) p)
      (b_ram1 s p) (b_ram1 (with_RAMGB v s) p)
      (c_cpu s p) (c_sto s p) (c_ssd_no s p) (c_ssd_yes s p) (c_gpu s p)
      (c_vram s p) (c_net s p) (c_os_no s p) (b_cpu2 s p) (b_cpu1 s p) (b_net2 s p)
      (b_gpu8 s)) as M.
    unfold c_ram at 1 2, c_rec at 1 2, b_ram2 at 1 2, b_ram1 at 1 2 in M. simpl in M.
    rewrite !(ltb_antitone _ _ _ H), !(gtb_monotone _ _ _ H) in M. exact M.
  - pose proof (storage_flags_monotone
      (c_sto s p) (c_sto (with_StorageGB v s) p)
      (c_cpu s p) (c_ram s p) (c_rec s p) (c_ssd_no s p) (c_ssd_yes s p) (c_gpu s p)
      (c_vram s p) (c_net s p) (c_os_no s p) (b_cpu2 s p) (b_cpu1 s p) (b_ram2 s p)
      (b_ram1 s p) (b_net2 s p) (b_gpu8 s)) as M.
    unfold c_sto at 1 2 in M. simpl in M.
    rewrite (ltb_antitone _ _ _ H) in M. exact M.
  - pose proof (network_flags_monotone
      (c_net s p) (c_net (with_NetworkMbps v s) p)
      (b_net2 s p) (b_net2 (with_NetworkMbps v s) p)
      (c_cpu s p) (c_ram s p) (c_rec s p) (c_sto s p) (c_ssd_no s p) (c_ssd_yes s p)
      (c_gpu s p) (c_vram s p) (c_os_no s p) (b_cpu2 s p) (b_cpu1 s p) (b_ram2 s p)
      (b_ram1 s p) (b_gpu8 s)) as M.
    unfold c_net at 1 2, b_net2 at 1 2 in M. simpl in M.
    rewrite (ltb_antitone _ _ _ H), (gtb_monotone _ _ _ H) in M. exact M.
Qed.

Lemma C5_score_monotone_witness :
  fle (CompatibilityResult.CompatibilityScore
         (analyzeProjectCompatibility scenarioB_system
            (scenarioB_project "B" "" "" 0 0 "" false "")))
      (CompatibilityResult.CompatibilityScore
         (analyzeProjectCompatibility (with_CPUCores 8 scenarioB_system)
            (scenarioB_project "B" "" "" 0 0 "" false "")))
  = true.
Proof.
  apply C5_score_monotone. apply raised_cpu. simpl. lia.
Defined.

End ScorerTheorems.

(* ===================================================================== *)
(** ** Upgrade needs *)
(* ===================================================================== *)

Module UpgradeTheorems.
Import SystemSpec DePINProject.
Import Go models service Conditions Spec.

(** One pass of the [switch]: the counter of the requirement's category
    goes up by one, the others stay. *)
Lemma countIssue_classify c req :
  countIssue c req =
  match classify req with
  | Some RAM =>
      mkIssues (S (ramIssues c)) (cpuIssues c) (gpuIssues c) (storageIssues c)
        (networkIssues c)
  | Some CPU =>
      mkIssues (ramIssues c) (S (cpuIssues c)) (gpuIssues c) (storageIssues c)
        (networkIssues c)
  | Some GPU =>
      mkIssues (ramIssues c) (cpuIssues c) (S (gpuIssues c)) (storageIssues c)
        (networkIssues c)
  | Some Storage =>
      mkIssues (ramIssues c) (cpuIssues c) (gpuIssues c) (S (storageIssues c))
        (networkIssues c)
  | Some Network =>
      mkIssues (ramIssues c) (cpuIssues c) (gpuIssues c) (storageIssues c)
        (S (networkIssues c))
  | None => c
  end.
Proof.
  unfold countIssue, classify.
  destruct (Contains req "RAM"); [reflexivity|].
  destruct (Contains req "CPU"); [reflexivity|].
  destruct (Contains req "GPU"); [reflexivity|].
  destruct (Contains req "Storage" || Contains req "SSD"); [reflexivity|].
  destruct (Contains req "Network"); reflexivity.
Qed.

Lemma counted_nil c : counted c [] = c.
Proof.
  destruct c. unfold counted, count_category. simpl.
  rewrite !Nat.add_0_r. reflexivity.
Qed.

Lemma counted_cons c req reqs :
  counted c (req :: reqs) = counted (countIssue c req) reqs.
Proof.
  rewrite countIssue_classify. unfold counted, count_category. simpl.
  destruct (classify req) as [[]|]; simpl; f_equal; lia.
Qed.

Lemma counted_app c reqs reqs' :
  counted c (reqs ++ reqs') = counted (counted c reqs) reqs'.
Proof.
  unfold counted, count_category. simpl.
  rewrite !List.filter_app, !length_app. f_equal; lia.
Qed.

Lemma inner_loop reqs : forall c, fold_left countIssue reqs c = counted c reqs.
Proof.
  induction reqs as [|req reqs IH]; intros c; simpl.
  - symmetry. apply counted_nil.
  - rewrite IH. symmetry. apply counted_cons.
Qed.

Lemma outer_loop incompatible : forall c,
  fold_left
    (fun c result =>
       fold_left countIssue (CompatibilityResult.MissingRequirements result) c)
    incompatible c
  = counted c (all_missing incompatible).
Proof.
  induction incompatible as [|r rs IH]; intros c; simpl.
  - symmetry. apply counted_nil.
  - rewrite IH, inner_loop. symmetry. apply counted_app.
Qed.

Lemma countIssues_spec incompatible :
  countIssues incompatible =
  mkIssues (issue_count RAM incompatible) (issue_count CPU incompatible)
           (issue_count GPU incompatible) (issue_count Storage incompatible)
           (issue_count Network incompatible).
Proof. unfold countIssues. rewrite outer_loop. reflexivity. Qed.

Lemma analyzeUpgradeNeeds_exceeding system incompatible :
  analyzeUpgradeNeeds system incompatible = map suggestion (exceeding incompatible).
Proof.
  unfold analyzeUpgradeNeeds, exceeding, categories.
  rewrite countIssues_spec.
  generalize (length incompatible / 3)%nat as threshold. intros threshold.
  cbn [ramIssues cpuIssues gpuIssues storageIssues networkIssues List.filter].
  destruct (threshold <? issue_count RAM incompatible)%nat,
    (threshold <? issue_count CPU incompatible)%nat,
    (threshold <? issue_count GPU incompatible)%nat,
    (threshold <? issue_count Storage incompatible)%nat,
    (threshold <? issue_count Network incompatible)%nat; reflexivity.
Qed.

Lemma suggestion_inj c c' : suggestion c = suggestion c' -> c = c'.
Proof.
  destruct c, c'; intros H; try reflexivity; vm_compute in H; discriminate H.
Qed.

Lemma In_categories c : In c categories.
Proof. destruct c; simpl; auto 6. Qed.

(** C7: [analyzeUpgradeNeeds] emits, in the order RAM, CPU, GPU, Storage,
    Network, the suggestion of exactly those categories whose count of
    [missing_requirements] entries (each entry counted for the first
    category whose name it contains, case-sensitively) strictly exceeds
    [len(incompatible) / 3] in floor division; each category is decided by
    its own count alone, all five can fire in one call, and with at most
    two incompatible results a single matching entry is enough. *)
Theorem C7_upgrade_needs (system : SystemSpec.t)
    (incompatible : list CompatibilityResult.t) :
  analyzeUpgradeNeeds system incompatible = map suggestion (exceeding incompatible)
  /\ (forall c,
        In (suggestion c) (analyzeUpgradeNeeds system incompatible) <->
        (length incompatible / 3 < issue_count c incompatible)%nat)
  /\ ((length incompatible <= 2)%nat ->
      forall c,
        In (suggestion c) (analyzeUpgradeNeeds system incompatible) <->
        (1 <= issue_count c incompatible)%nat)
  /\ (exists rs, analyzeUpgradeNeeds system rs = map suggestion categories).
Proof.
  assert (Hin : forall c,
    In (suggestion c) (analyzeUpgradeNeeds system incompatible) <->
    (length incompatible / 3 < issue_count c incompatible)%nat).
  { intros c. rewrite analyzeUpgradeNeeds_exceeding, in_map_iff. unfold exceeding.
    split.
    - intros (c' & E & H). apply suggestion_inj in E. subst c'.
      apply List.filter_In in H. destruct H as [_ H]. apply Nat.ltb_lt, H.
    - intros H. exists c. split; [reflexivity|].
      apply List.filter_In. split; [apply In_categories | apply Nat.ltb_lt, H]. }
  split; [apply analyzeUpgradeNeeds_exceeding|].
  split; [exact Hin|]. split.
  - intros Hlen c. rewrite Hin.
    assert (E : (length incompatible / 3 = 0)%nat).
    { apply Nat.div_small. lia. }
    rewrite E. lia.
  - exists [CompatibilityResult.mk "p" false 0 "Poor" ""
              ["RAM: need 16GB, have 4GB"; "CPU cores: need 8, have 2";
               "Dedicated GPU required"; "SSD storage required";
               "Network speed: need 200Mbps, have 10Mbps"] [] []].
    vm_compute. reflexivity.
Qed.

Lemma C7_upgrade_needs_witness :
  In (suggestion Storage)
     (analyzeUpgradeNeeds Spec.scenarioB_system
        [CompatibilityResult.mk "p" false 0 "Poor" "" ["SSD storage required"] [] []]).
Proof.
  apply (proj1 (proj2 (proj2
           (C7_upgrade_needs Spec.scenarioB_system
              [CompatibilityResult.mk "p" false 0 "Poor" ""
                 ["SSD storage required"] [] []])))).
  - simpl. lia.
  - vm_compute. lia.
Defined.

Lemma vramMessage_contains_RAM need have :
  Contains (vramMessage need have) "RAM" = true.
Proof. reflexivity. Qed.

Lemma vramMessage_contains_GPU need have :
  Contains (vramMessage need have) "GPU" = true.
Proof. reflexivity. Qed.

End UpgradeTheorems.

(* ===================================================================== *)
(** ** GPU VRAM entries among the upgrade needs *)
(* ===================================================================== *)

Module VRAMTheorems.
Import SystemSpec DePINProject.
Import Go models service Conditions Spec ScorerFacts OSFacts UpgradeTheorems.

Lemma has_prefix_app (p s : string) :
  has_prefix p s = true -> exists rest, s = p +:+ rest.
Proof.
  revert s. induction p as [|a p IH]; intros s H.
  - exists s. reflexivity.
  - destruct s as [|b s]; [discriminate H|]. simpl in H.
    apply andb_prop in H. destruct H as [Hab Hp].
    apply Ascii.eqb_eq in Hab. subst b.
    destruct (IH s Hp) as (rest & ->). exists rest. reflexivity.
Qed.

(** An entry that begins as the VRAM diagnostic does is filed under RAM. *)
Lemma vram_entry_is_RAM (req : string) :
  is_vram_entry req = true -> classify req = Some RAM.
Proof.
  intros H. apply has_prefix_app in H. destruct H as (rest & ->). reflexivity.
Qed.

Lemma vramMessage_is_vram_entry need have :
  is_vram_entry (vramMessage need have) = true.
Proof. reflexivity. Qed.

Lemma all_missing_drop_vram (incompatible : list CompatibilityResult.t) :
  all_missing (map drop_vram incompatible)
  = List.filter (fun req => negb (is_vram_entry req)) (all_missing incompatible).
Proof.
  unfold all_missing.
  induction incompatible as [|r rs IH]; [reflexivity|].
  cbn [map flat_map]. rewrite List.filter_app, IH. reflexivity.
Qed.

(** The VRAM entries are part of the RAM count and of no other. *)
Lemma count_category_vram (c : category) (reqs : list string) :
  count_category c reqs
  = (count_category c (List.filter (fun req => negb (is_vram_entry req)) reqs)
     + match c with
       | RAM => length (List.filter is_vram_entry reqs)
       | _ => 0
       end)%nat.
Proof.
  unfold count_category.
  induction reqs as [|req reqs IH]; [destruct c; reflexivity|].
  cbn [List.filter]. destruct (is_vram_entry req) eqn:E; cbn [negb].
  - rewrite (vram_entry_is_RAM req E).
    destruct c; cbn [is_category length] in *; lia.
  - cbn [List.filter].
    destruct (is_category c (classify req)), c; cbn [length] in *; lia.
Qed.

Lemma issue_count_vram (c : category) (incompatible : list CompatibilityResult.t) :
  issue_count c incompatible
  = (issue_count c (map drop_vram incompatible)
     + match c with RAM => vram_count incompatible | _ => 0 end)%nat.
Proof.
  unfold issue_count, vram_count.
  rewrite all_missing_drop_vram. apply count_category_vram.
Qed.

Lemma suggestion_emitted (system : SystemSpec.t)
    (incompatible : list CompatibilityResult.t) (c : category) :
  In (suggestion c) (analyzeUpgradeNeeds system incompatible) <->
  (length incompatible / 3 < issue_count c incompatible)%nat.
Proof.
  rewrite analyzeUpgradeNeeds_exceeding, in_map_iff. unfold exceeding. split.
  - intros (c' & E & H). apply suggestion_inj in E. subst c'.
    apply List.filter_In in H. destruct H as [_ H]. apply Nat.ltb_lt, H.
  - intros H. exists c. split; [reflexivity|].
    apply List.filter_In. split; [apply In_categories | apply Nat.ltb_lt, H].
Qed.

(** When the VRAM check is the one that fails, its diagnostic is the one
    entry of [missing_requirements]. *)
Lemma only_vram_missing (s : SystemSpec.t) (p : DePINProject.t) :
  only_vram_fails s p ->
  CompatibilityResult.MissingRequirements (analyzeProjectCompatibility s p)
  = [vramMessage (GPUVRAMGBMin p) (GPUVRAMGB s)].
Proof.
  intros (Hcpu & Hram & Hsto & Hssd & Hgpu & Hmin & Hlt & Hnet & Hos).
  rewrite analyze_missing. unfold missingList.
  assert (E1 : c_cpu s p = false) by (apply Z.ltb_ge, Hcpu).
  assert (E2 : c_ram s p = false) by (apply Z.ltb_ge, Hram).
  assert (E3 : c_sto s p = false) by (apply Z.ltb_ge, Hsto).
  assert (E4 : c_ssd_no s p = false).
  { unfold c_ssd_no. destruct (String.eqb_spec (StorageType p) "SSD") as [E|E];
      [rewrite (Hssd E)|]; reflexivity. }
  assert (E5 : c_gpu s p = false).
  { unfold c_gpu. destruct (GPURequired p); [rewrite (Hgpu eq_refl)|]; reflexivity. }
  assert (E6 : c_vram s p = true).
  { unfold c_vram. rewrite Z.gtb_ltb.
    apply andb_true_intro. split; apply Z.ltb_lt; lia. }
  assert (E7 : c_net s p = false) by (apply Z.ltb_ge, Hnet).
  assert (E8 : c_os_no s p = false).
  { unfold c_os_no. apply isOSCompatible_spec in Hos. rewrite Hos. reflexivity. }
  rewrite E1, E2, E3, E4, E5, E6, E7, E8. reflexivity.
Qed.

(** C10: a GPU-VRAM diagnostic, which [analyzeProjectCompatibility] appends
    to [missing_requirements] on a VRAM shortfall, begins "GPU VRAM: need "
    and so contains "RAM" (and "GPU"); the [switch] of [analyzeUpgradeNeeds]
    tests "RAM" first, so the entry adds one to the RAM counter and leaves
    the GPU counter, and the other three, as they were.  Hence, for every
    list of incompatible results: the RAM count of [countIssues] is its
    value without the VRAM entries plus their number, the GPU count is its
    value without them; the GPU suggestion of [analyzeUpgradeNeeds] is
    emitted with the VRAM entries exactly when it is emitted without them,
    and VRAM entries alone, when more than [len(incompatible) / 3], bring
    the RAM suggestion.  A single result whose one failure is the VRAM
    check yields the RAM suggestion and nothing else. *)
Theorem C10_vram_entry_counts_as_ram :
  (forall (s : SystemSpec.t) (p : DePINProject.t),
      GPURequired p && negb (HasGPU s) = false ->
      GPUVRAMGBMin p > 0 ->
      GPUVRAMGB s < GPUVRAMGBMin p ->
      In (vramMessage (GPUVRAMGBMin p) (GPUVRAMGB s))
         (CompatibilityResult.MissingRequirements (analyzeProjectCompatibility s p)))
  /\ (forall (need have : Z) (c : issues),
        is_vram_entry (vramMessage need have) = true
        /\ Contains (vramMessage need have) "GPU" = true
        /\ classify (vramMessage need have) = Some RAM
        /\ countIssue c (vramMessage need have)
           = mkIssues (S (ramIssues c)) (cpuIssues c) (gpuIssues c)
               (storageIssues c) (networkIssues c))
  /\ (forall (system : SystemSpec.t) (incompatible : list CompatibilityResult.t),
        ramIssues (countIssues incompatible)
        = (ramIssues (countIssues (map drop_vram incompatible))
           + vram_count incompatible)%nat
        /\ gpuIssues (countIssues incompatible)
           = gpuIssues (countIssues (map drop_vram incompatible))
        /\ (In msgGPU (analyzeUpgradeNeeds system incompatible) <->
            In msgGPU (analyzeUpgradeNeeds system (map drop_vram incompatible)))
        /\ (In msgRAM (analyzeUpgradeNeeds system incompatible) <->
            (length incompatible / 3
             < issue_count RAM (map drop_vram incompatible)
               + vram_count incompatible)%nat)
        /\ ((length incompatible / 3 < vram_count incompatible)%nat ->
            In msgRAM (analyzeUpgradeNeeds system incompatible)))
  /\ (forall (s : SystemSpec.t) (p : DePINProject.t),
        only_vram_fails s p ->
        analyzeUpgradeNeeds s [analyzeProjectCompatibility s p] = [msgRAM]).
Proof.
  split; [|split; [|split]].
  - intros s p Hgpu Hmin Hlt. rewrite analyze_missing. unfold missingList.
    assert (Hv : c_vram s p = true).
    { unfold c_vram. rewrite Z.gtb_ltb.
      apply andb_true_intro. split; apply Z.ltb_lt; lia. }
    unfold c_gpu at 1. rewrite Hgpu, Hv.
    rewrite !in_app_iff. do 4 right. left. left. reflexivity.
  - intros need have c. split; [reflexivity|].
    split; [apply vramMessage_contains_GPU|].
    assert (Hc : classify (vramMessage need have) = Some RAM).
    { unfold classify. rewrite vramMessage_contains_RAM. reflexivity. }
    split; [exact Hc|]. rewrite countIssue_classify, Hc. reflexivity.
  - intros system incompatible.
    pose proof (issue_count_vram RAM incompatible) as Hram.
    pose proof (issue_count_vram GPU incompatible) as Hgpu.
    cbn match in Hram, Hgpu. rewrite Nat.add_0_r in Hgpu.
    assert (Hlen : length (map drop_vram incompatible) = length incompatible)
      by apply length_map.
    rewrite !countIssues_spec. cbn [ramIssues gpuIssues].
    split; [exact Hram|]. split; [exact Hgpu|].
    change msgGPU with (suggestion GPU). change msgRAM with (suggestion RAM).
    rewrite !suggestion_emitted, Hlen, <- Hgpu, Hram.
    split; [reflexivity|]. split; [reflexivity|]. lia.
  - intros s p H. rewrite analyzeUpgradeNeeds_exceeding.
    unfold exceeding, issue_count, all_missing. cbn [flat_map length categories].
    rewrite (only_vram_missing s p H). reflexivity.
Qed.

Lemma C10_vram_entry_counts_as_ram_witness :
  analyzeUpgradeNeeds (SystemSpec.mk 8 16 512 true true 4 100 "Linux")
    [analyzeProjectCompatibility
       (SystemSpec.mk 8 16 512 true true 4 100 "Linux")
       (DePINProject.mk "render" "" "" 4 8 16 100 "SSD" true 8 20 "Linux, Windows"
          0 0 "" true "")]
  = [msgRAM].
Proof.
  apply (proj2 (proj2 (proj2 C10_vram_entry_counts_as_ram))
           (SystemSpec.mk 8 16 512 true true 4 100 "Linux")
           (DePINProject.mk "render" "" "" 4 8 16 100 "SSD" true 8 20 "Linux, Windows"
              0 0 "" true "")).
  unfold only_vram_fails. simpl.
  repeat split; try lia.
  right. exists ["Linux"; " Windows"], "Linux".
  repeat split. left. reflexivity.
Defined.

End VRAMTheorems.

(* ===================================================================== *)
(** ** The Aggregator *)
(* ===================================================================== *)

Module AggregatorTheorems.
Import SystemSpec DePINProject.
Import Go models service Conditions Spec.

Lemma partition_permutation {A} (f : A -> bool) (l : list A) :
  Permutation (List.filter f l ++ List.filter (fun x => negb (f x)) l) l.
Proof.
  induction l as [|x l IH]; simpl; [constructor|].
  destruct (f x); simpl.
  - constructor. exact IH.
  - symmetry. apply Permutation_cons_app. symmetry. exact IH.
Qed.

Lemma scanProject_compatible system st p :
  compatible (scanProject system st p) =
  if CompatibilityResult.Compatible (analyzeProjectCompatibility system p)
  then compatible st ++ [analyzeProjectCompatibility system p]
  else compatible st.
Proof.
  unfold scanProject.
  destruct (CompatibilityResult.Compatible (analyzeProjectCompatibility system p));
    reflexivity.
Qed.

Lemma scanProject_incompatible system st p :
  incompatible (scanProject system st p) =
  if CompatibilityResult.Compatible (analyzeProjectCompatibility system p)
  then incompatible st
  else incompatible st ++ [analyzeProjectCompatibility system p].
Proof.
  unfold scanProject.
  destruct (CompatibilityResult.Compatible (analyzeProjectCompatibility system p));
    reflexivity.
Qed.

(** The loop over [s.projects]: the two lists are the results with
    [Compatible] set and unset, in catalog order. *)
Lemma scan_lists system projects : forall st,
  compatible (fold_left (scanProject system) projects st)
  = compatible st
    ++ List.filter CompatibilityResult.Compatible
         (map (analyzeProjectCompatibility system) projects)
  /\ incompatible (fold_left (scanProject system) projects st)
     = incompatible st
       ++ List.filter (fun r => negb (CompatibilityResult.Compatible r))
            (map (analyzeProjectCompatibility system) projects).
Proof.
  induction projects as [|p ps IH]; intros st; cbn [fold_left map List.filter].
  - rewrite !app_nil_r. split; reflexivity.
  - destruct (IH (scanProject system st p)) as [Hc Hi]. rewrite Hc, Hi.
    rewrite scanProject_compatible, scanProject_incompatible.
    destruct (CompatibilityResult.Compatible (analyzeProjectCompatibility system p));
      cbn [negb]; rewrite <- ?app_assoc; split; reflexivity.
Qed.

Lemma insertLess_permutation {A} (less : A -> A -> bool) x (l : list A) :
  Permutation (insertLess less x l) (x :: l).
Proof.
  induction l as [|y l IH]; simpl; [reflexivity|].
  destruct (less x y); [|reflexivity].
  rewrite IH. apply perm_swap.
Qed.

Lemma insertionSortLessFunc_permutation {A} (less : A -> A -> bool) (data : list A) :
  Permutation (insertionSortLessFunc less data) data.
Proof.
  unfold insertionSortLessFunc. rewrite <- Permutation_rev.
  assert (H : forall acc,
    Permutation (fold_left (fun rev_prefix x => insertLess less x rev_prefix) data acc)
                (data ++ acc)).
  { induction data as [|x xs IH]; intros acc; simpl; [reflexivity|].
    rewrite IH, insertLess_permutation. symmetry. apply Permutation_middle. }
  rewrite H, app_nil_r. reflexivity.
Qed.

Section WithSort.
Variable sort_Slice :
  (CompatibilityResult.t -> CompatibilityResult.t -> bool) ->
  list CompatibilityResult.t -> list CompatibilityResult.t.

(** [sort.Slice] reorders the slice it is given. *)
Hypothesis sort_Slice_permutation :
  forall less data, Permutation (sort_Slice less data) data.

(** C4: [PredictCompatibility] returns exactly the Scorer's results for
    the catalog, one per project, split by their [compatible] flag; the
    two lists together are as long as the catalog, the summary carries
    these counts, and the reported rate is the float64 value of
    [compatible_count / total_projects * 100] computed from them. *)
Theorem C4_one_result_per_project (s : CompatibilityService)
    (system : SystemSpec.t) (now : Time) :
  let r := fst (PredictCompatibility sort_Slice s system now) in
  let summary := PredictionResponse.Summary r in
  Permutation
    (PredictionResponse.CompatibleProjects r
     ++ PredictionResponse.IncompatibleProjects r)
    (map (analyzeProjectCompatibility system) (projects s))
  /\ Forall (fun x => CompatibilityResult.Compatible x = true)
       (PredictionResponse.CompatibleProjects r)
  /\ Forall (fun x => CompatibilityResult.Compatible x = false)
       (PredictionResponse.IncompatibleProjects r)
  /\ (length (PredictionResponse.CompatibleProjects r)
      + length (PredictionResponse.IncompatibleProjects r)
      = length (projects s))%nat
  /\ PredictionSummary.TotalProjects summary = length (projects s)
  /\ PredictionSummary.CompatibleCount summary
     = length (PredictionResponse.CompatibleProjects r)
  /\ PredictionSummary.IncompatibleCount summary
     = length (PredictionResponse.IncompatibleProjects r)
  /\ PredictionSummary.CompatibilityRate summary
     = (float64_of_len (PredictionSummary.CompatibleCount summary)
        / float64_of_len (PredictionSummary.TotalProjects summary) * 100)%float.
Proof using sort_Slice_permutation.
  intros r summary. unfold summary, r, PredictCompatibility.
  cbn [fst PredictionResponse.Summary PredictionResponse.CompatibleProjects
       PredictionResponse.IncompatibleProjects PredictionSummary.TotalProjects
       PredictionSummary.CompatibleCount PredictionSummary.IncompatibleCount
       PredictionSummary.CompatibilityRate].
  destruct (scan_lists system (projects s) (mkScan [] [] 0.0%float)) as [Hc Hi].
  cbn [compatible incompatible app] in Hc, Hi. rewrite Hc, Hi.
  set (results := map (analyzeProjectCompatibility system) (projects s)).
  assert (Hperm : Permutation
    (sort_Slice byScoreDesc (List.filter CompatibilityResult.Compatible results)
     ++ sort_Slice byScoreDesc
          (List.filter (fun r => negb (CompatibilityResult.Compatible r)) results))
    results).
  { rewrite !sort_Slice_permutation. apply partition_permutation. }
  split; [exact Hperm|].
  split.
  { apply Lists.List.Forall_forall. intros x Hx.
    apply (Permutation_in _ (sort_Slice_permutation _ _)) in Hx.
    apply List.filter_In in Hx. apply Hx. }
  split.
  { apply Lists.List.Forall_forall. intros x Hx.
    apply (Permutation_in _ (sort_Slice_permutation _ _)) in Hx.
    apply List.filter_In in Hx. apply negb_true_iff, Hx. }
  split.
  { rewrite <- length_app, (Permutation_length Hperm). unfold results.
    apply length_map. }
  repeat split.
Qed.

End WithSort.

Lemma C4_one_result_per_project_witness :
  let r := fst (PredictCompatibility insertionSortLessFunc
                  (mkService
                     [scenarioB_project "B" "" "" 0 0 "" false "";
                      DePINProject.mk "A" "" "" 1 1 1 50 "Any" false 0 5
                        "Windows" 0 0 "" true ""]
                     0)
                  scenarioB_system 1) in
  (length (PredictionResponse.CompatibleProjects r)
   + length (PredictionResponse.IncompatibleProjects r) = 2)%nat.
Proof.
  intros r.
  apply (proj1 (proj2 (proj2 (proj2
    (C4_one_result_per_project insertionSortLessFunc
       (fun less data => insertionSortLessFunc_permutation less data)
       (mkService
          [scenarioB_project "B" "" "" 0 0 "" false "";
           DePINProject.mk "A" "" "" 1 1 1 50 "Any" false 0 5
             "Windows" 0 0 "" true ""]
          0)
       scenarioB_system 1))))).
Defined.

End AggregatorTheorems.

(* ===================================================================== *)
(** ** Catalog loading *)
(* ===================================================================== *)

Module LoadTheorems.
Import DePINProject.
Import Go data Spec LoadSpec.

Section Tables.
Context {tables : CaseTables}.

Lemma parseProjectRecord_line record fieldMap lineNumber :
  parseProjectRecord record fieldMap lineNumber = parseProjectRecord record fieldMap 0.
Proof. reflexivity. Qed.

(** The loop: a read failure anywhere ahead is fatal; otherwise the valid
    records ahead are appended to those collected so far, and the result
    is an error only when there is none at all. *)
Lemma readRows_spec fieldMap reads : forall collected lineNumber out,
  let r := readRows fieldMap reads collected lineNumber out in
  if has_failure reads then err r <> None /\ projects r = []
  else
    match collected ++ validProjects fieldMap reads with
    | [] => err r <> None /\ projects r = []
    | all => err r = None /\ projects r = all
    end.
Proof.
  induction reads as [|rd reads IH]; intros collected lineNumber out.
  - cbn [has_failure existsb validProjects readRows]. rewrite app_nil_r.
    destruct collected; simpl; split; congruence.
  - destruct rd as [record | e].
    + cbn [has_failure existsb is_failure orb validProjects accepted readRows].
      rewrite (parseProjectRecord_line record fieldMap lineNumber).
      destruct (parseProjectRecord record fieldMap 0) as [project [e|]].
      * apply IH.
      * specialize (IH (collected ++ [project]) (lineNumber + 1) out).
        cbn zeta in IH. fold (has_failure reads).
        rewrite <- app_assoc in IH. exact IH.
    + cbn [has_failure existsb is_failure orb readRows err projects].
      split; congruence.
Qed.


(** A record that [parseProjectRecord] accepts has a name and its four
    checked minima in range. *)
Lemma parseProjectRecord_accepts record fieldMap lineNumber project :
  parseProjectRecord record fieldMap lineNumber = (project, None) ->
  Name project <> ""
  /\ 0 <= CPUCoresMin project <= 64
  /\ 0 <= RAMGBMin project <= 1024
  /\ 0 <= StorageGBMin project <= 100000
  /\ 0 <= NetworkMbpsMin project <= 100000.
Proof.
  unfold parseProjectRecord.
  destruct (String.eqb_spec (getStringField record fieldMap ["project_name"; "name"]) "")
    as [E | E]; [discriminate|].
  match goal with
  | |- context [validateProject ?p] => set (parsed := p)
  end.
  destruct (validateProject parsed) as [e|] eqn:V; [discriminate|].
  intros H. injection H as <-.
  unfold validateProject, validateProject_body in V.
  destruct (String.eqb_spec (Name parsed) ""); [discriminate V|].
  destruct (Z.ltb_spec (CPUCoresMin parsed) 0); [discriminate V|].
  rewrite Z.gtb_ltb in V.
  destruct (Z.ltb_spec 64 (CPUCoresMin parsed)); [discriminate V|].
  destruct (Z.ltb_spec (RAMGBMin parsed) 0); [discriminate V|].
  rewrite Z.gtb_ltb in V.
  destruct (Z.ltb_spec 1024 (RAMGBMin parsed)); [discriminate V|].
  destruct (Z.ltb_spec (StorageGBMin parsed) 0); [discriminate V|].
  rewrite Z.gtb_ltb in V.
  destruct (Z.ltb_spec 100000 (StorageGBMin parsed)); [discriminate V|].
  destruct (Z.ltb_spec (NetworkMbpsMin parsed) 0); [discriminate V|].
  rewrite Z.gtb_ltb in V.
  destruct (Z.ltb_spec 100000 (NetworkMbpsMin parsed)); [discriminate V|].
  repeat split; assumption.
Qed.

(** The record that [parseProjectRecord] returns carries the fields as
    read: [cost_category] and [supported_os] are what the row holds. *)
Lemma parseProjectRecord_fields_as_read record fieldMap lineNumber project :
  parseProjectRecord record fieldMap lineNumber = (project, None) ->
  CostCategory project = getStringField record fieldMap ["cost_category"]
  /\ SupportedOS project = getStringField record fieldMap ["supported_os"; "os_support"].
Proof.
  unfold parseProjectRecord.
  destruct (getStringField record fieldMap ["project_name"; "name"] =? "")%string;
    [discriminate|].
  match goal with
  | |- context [validateProject ?p] => destruct (validateProject p)
  end; [discriminate|].
  intros H. injection H as <-. split; reflexivity.
Qed.

(** C6 (the code at the failing input): a record without [cost_category]
    and [supported_os] and with a cost range up to 10 is loaded with both
    fields empty; "Low" and "Linux,Windows,macOS" are assigned only to the
    copy of the record that is local to [validateProject]. *)
Theorem C6_defaults_stay_in_validateProject :
  let r := LoadDePINSpecs (NewLoader "data/depin.csv") no_defaults_fs in
  err r = None
  /\ projects r = [Helium]
  /\ CostCategory Helium = ""
  /\ SupportedOS Helium = ""
  /\ CostCategory (fst (validateProject_body Helium)) = "Low"
  /\ SupportedOS (fst (validateProject_body Helium)) = "Linux,Windows,macOS".
Proof. vm_compute. repeat split. Qed.

End Tables.

(** The examples are ASCII text, which never reaches the case tables. *)
#[local] Existing Instance caseless.

(** A name that is white space only, here a no-break space, is no name. *)
Example white_space_is_no_name :
  snd (parseProjectRecord [nbsp; "2"] (createFieldMap ["Project Name"; "cpu_cores_min"]) 2)
  = Some "project name is required".
Proof. reflexivity. Qed.



End LoadTheorems.

(* ===================================================================== *)
(** ** Further properties of the Scorer *)
(* ===================================================================== *)

Module ScorerMore.
Import SystemSpec DePINProject.
Import Go models service Conditions Spec Extra ScorerFacts.

Ltac state_cases :=
  intros [[n c sc r cost ms us ws] x]; simpl;
  repeat match goal with
         | |- context [if ?b then _ else _] => destruct b; simpl
         end;
  rewrite ?andb_true_r, ?andb_false_r, ?app_nil_r; reflexivity.

Lemma checkCPU_state s p :
  block_state_effect (checkCPU s p) (stepCPU (c_cpu s p)) (c_cpu s p)
    (if c_cpu s p then
       ["CPU cores: need " +:+ fmt_d (CPUCoresMin p)
        +:+ ", have " +:+ fmt_d (CPUCores s)] else []) [] [].
Proof. unfold checkCPU, stepCPU. state_cases. Qed.

Lemma checkRAM_state s p :
  block_state_effect (checkRAM s p) (stepRAM (c_ram s p) (c_rec s p)) (c_ram s p)
    (if c_ram s p then
       ["RAM: need " +:+ fmt_d (RAMGBMin p)
        +:+ "GB, have " +:+ fmt_d (RAMGB s) +:+ "GB"] else [])
    (upgradeList s p) [].
Proof. unfold checkRAM, stepRAM, upgradeList. state_cases. Qed.

Lemma checkStorage_state s p :
  block_state_effect (checkStorage s p) (stepStorage (c_sto s p)) (c_sto s p)
    (if c_sto s p then
       ["Storage: need " +:+ fmt_d (StorageGBMin p)
        +:+ "GB, have " +:+ fmt_d (StorageGB s) +:+ "GB"] else []) [] [].
Proof. unfold checkStorage, stepStorage. state_cases. Qed.

Lemma checkSSD_state s p :
  block_state_effect (checkSSD s p) (stepSSD (c_ssd_no s p) (c_ssd_yes s p))
    (c_ssd_no s p)
    (if c_ssd_no s p then ["SSD storage required"] else []) [] [].
Proof. unfold checkSSD, stepSSD. state_cases. Qed.

Lemma checkGPU_state s p :
  block_state_effect (checkGPU s p) (stepGPU (c_gpu s p) (c_vram s p))
    (c_gpu s p || c_vram s p)
    (if c_gpu s p then ["Dedicated GPU required"]
     else if c_vram s p then [vramMessage (GPUVRAMGBMin p) (GPUVRAMGB s)]
     else []) [] [].
Proof. unfold checkGPU, stepGPU. state_cases. Qed.

Lemma checkNetwork_state s p :
  block_state_effect (checkNetwork s p) (stepNetwork (c_net s p)) (c_net s p)
    (if c_net s p then
       ["Network speed: need " +:+ fmt_d (NetworkMbpsMin p)
        +:+ "Mbps, have " +:+ fmt_d (NetworkMbps s) +:+ "Mbps"] else []) [] [].
Proof. unfold checkNetwork, stepNetwork. state_cases. Qed.

Lemma checkOS_state s p :
  block_state_effect (checkOS s p) (stepOS (c_os_no s p)) (c_os_no s p)
    (if c_os_no s p then
       ["OS not supported: need one of [" +:+ SupportedOS p
        +:+ "], have " +:+ OS s] else []) [] [].
Proof. unfold checkOS, stepOS. state_cases. Qed.

Lemma addBonus_state s p :
  block_state_effect (addBonus s p)
    (fun x => x + calculatePerformanceBonus s p)%float false [] [] [].
Proof. unfold addBonus. state_cases. Qed.

Lemma checkHome_state p :
  block_state_effect (checkHome p) (fun x => x) false [] [] (warningList p).
Proof. unfold checkHome, warningList. state_cases. Qed.

Ltac normal_state :=
  cbn [result score CompatibilityResult.Name CompatibilityResult.Compatible
       CompatibilityResult.CompatibilityScore CompatibilityResult.PerformanceRating
       CompatibilityResult.EstimatedCost CompatibilityResult.MissingRequirements
       CompatibilityResult.RecommendedUpgrades CompatibilityResult.Warnings app].

(** [analyzeProjectCompatibility], field by field. *)
Lemma analyze_fields s p :
  analyzeProjectCompatibility s p =
  CompatibilityResult.mk
    (Name p)
    (negb (anyFailure s p))
    (clamp01 (rawScore s p))
    (GetPerformanceRating (clamp01 (rawScore s p)))
    (costString p)
    (missingList s p)
    (upgradeList s p)
    (warningList p).
Proof.
  rewrite analyze_blocks. unfold start.
  rewrite (checkCPU_state s p); normal_state.
  rewrite (checkRAM_state s p); normal_state.
  rewrite (checkStorage_state s p); normal_state.
  rewrite (checkSSD_state s p); normal_state.
  rewrite (checkGPU_state s p); normal_state.
  rewrite (checkNetwork_state s p); normal_state.
  rewrite (checkOS_state s p); normal_state.
  rewrite (addBonus_state s p); normal_state.
  rewrite (checkHome_state p); normal_state.
  unfold finish; normal_state.
  f_equal.
  - unfold anyFailure.
    destruct (c_cpu s p), (c_ram s p), (c_sto s p), (c_ssd_no s p), (c_gpu s p),
      (c_vram s p), (c_net s p), (c_os_no s p); reflexivity.
  - unfold missingList. rewrite !app_nil_r, <- !app_assoc. reflexivity.
  - rewrite ?app_nil_r. reflexivity.
Qed.


Lemma anyFailure_false s p :
  anyFailure s p = false ->
  c_cpu s p = false /\ c_ram s p = false /\ c_sto s p = false /\ c_ssd_no s p = false
  /\ c_gpu s p = false /\ c_vram s p = false /\ c_net s p = false
  /\ c_os_no s p = false.
Proof.
  unfold anyFailure.
  destruct (c_cpu s p), (c_ram s p), (c_sto s p), (c_ssd_no s p), (c_gpu s p),
    (c_vram s p), (c_net s p), (c_os_no s p); simpl; intros H;
    try discriminate H; repeat split.
Qed.

Lemma passing_flags_score (rec ssd_yes cpu2 cpu1 ram2 ram1 net2 gpu8 : bool) :
  fle 0.9
    (clamp01 (flagScore false false rec false false ssd_yes false false false false
                (flagBonus cpu2 cpu1 ram2 ram1 net2 gpu8))) = true.
Proof. by_evaluation. Qed.

Lemma GetPerformanceRating_excellent (x : float) :
  fle 0.9 x = true -> GetPerformanceRating x = "Excellent".
Proof.
  unfold fle, GetPerformanceRating, ScoreExcellent. intros H. rewrite H. reflexivity.
Qed.

(** X1: a result with [compatible = true] has a score of at least 0.9 and
    the rating "Excellent": without a failed check the only penalty left is
    the 0.1 of the recommended RAM. *)
Theorem compatible_is_excellent (s : SystemSpec.t) (p : DePINProject.t) :
  CompatibilityResult.Compatible (analyzeProjectCompatibility s p) = true ->
  fle 0.9 (CompatibilityResult.CompatibilityScore (analyzeProjectCompatibility s p))
  = true
  /\ CompatibilityResult.PerformanceRating (analyzeProjectCompatibility s p)
     = "Excellent".
Proof.
  rewrite analyze_fields.
  cbn [CompatibilityResult.Compatible CompatibilityResult.CompatibilityScore
       CompatibilityResult.PerformanceRating].
  intros H. apply negb_true_iff, anyFailure_false in H.
  destruct H as (H1 & H2 & H3 & H4 & H5 & H6 & H7 & H8).
  assert (E : fle 0.9 (clamp01 (rawScore s p)) = true).
  { unfold rawScore. rewrite H1, H2, H3, H4, H5, H6, H7, H8.
    apply passing_flags_score. }
  split; [exact E | apply GetPerformanceRating_excellent, E].
Qed.

Lemma compatible_is_excellent_witness :
  CompatibilityResult.PerformanceRating
    (analyzeProjectCompatibility
       (SystemSpec.mk 8 16 512 true true 8 100 "Windows")
       (DePINProject.mk "A" "" "" 4 8 32 500 "SSD" false 0 20 "Linux,Windows,macOS"
          5 20 "" true ""))
  = "Excellent".
Proof.
  apply (compatible_is_excellent
           (SystemSpec.mk 8 16 512 true true 8 100 "Windows")
           (DePINProject.mk "A" "" "" 4 8 32 500 "SSD" false 0 20 "Linux,Windows,macOS"
              5 20 "" true "")).
  vm_compute. reflexivity.
Defined.

Lemma meets_all_conditions s p :
  meets_all s p ->
  anyFailure s p = false /\ c_rec s p = false /\ c_ram s p = false.
Proof.
  unfold meets_all, anyFailure, c_cpu, c_ram, c_rec, c_sto, c_ssd_no, c_gpu, c_vram,
    c_net, c_os_no.
  intros (H1 & H2 & H3 & H4 & H5 & H6 & H7 & H8 & H9).
  rewrite H9.
  rewrite (proj2 (Z.ltb_ge _ _) H1), (proj2 (Z.ltb_ge _ _) H2),
    (proj2 (Z.ltb_ge _ _) H3), (proj2 (Z.ltb_ge _ _) H4), (proj2 (Z.ltb_ge _ _) H8).
  assert (E1 : ((StorageType p =? "SSD")%string && negb (HasSSD s)) = false).
  { destruct (String.eqb_spec (StorageType p) "SSD") as [E|E]; [|reflexivity].
    rewrite (H5 E). reflexivity. }
  assert (E2 : (GPURequired p && negb (HasGPU s)) = false).
  { destruct (GPURequired p); [|reflexivity]. rewrite (H6 eq_refl). reflexivity. }
  assert (E3 : ((GPUVRAMGBMin p >? 0) && (GPUVRAMGB s <? GPUVRAMGBMin p)) = false).
  { rewrite Z.gtb_ltb. destruct (Z.ltb_spec 0 (GPUVRAMGBMin p)) as [L|L];
      [|reflexivity].
    simpl. apply Z.ltb_ge, H7. lia. }
  rewrite E1, E2, E3. repeat split.
Qed.

Lemma full_flags_score (ssd_yes cpu2 cpu1 ram2 ram1 net2 gpu8 : bool) :
  clamp01 (flagScore false false false false false ssd_yes false false false false
             (flagBonus cpu2 cpu1 ram2 ram1 net2 gpu8)) = 1.0%float.
Proof.
  destruct ssd_yes, cpu2, cpu1, ram2, ram1, net2, gpu8; vm_compute; reflexivity.
Qed.

(** X2: when the system meets every requirement of the project, the
    recommended RAM included, the result is [compatible = true] with the
    score exactly 1.0, the rating "Excellent" and no missing requirement or
    recommended upgrade: what the system has beyond the requirements cannot
    be seen in the score. *)
Theorem meets_all_scores_one (s : SystemSpec.t) (p : DePINProject.t) :
  meets_all s p ->
  let r := analyzeProjectCompatibility s p in
  CompatibilityResult.Compatible r = true
  /\ CompatibilityResult.CompatibilityScore r = 1.0%float
  /\ CompatibilityResult.PerformanceRating r = "Excellent"
  /\ CompatibilityResult.MissingRequirements r = []
  /\ CompatibilityResult.RecommendedUpgrades r = [].
Proof.
  intros H r. unfold r. rewrite analyze_fields.
  cbn [CompatibilityResult.Compatible CompatibilityResult.CompatibilityScore
       CompatibilityResult.PerformanceRating CompatibilityResult.MissingRequirements
       CompatibilityResult.RecommendedUpgrades].
  destruct (meets_all_conditions s p H) as (Hf & Hrec & Hram).
  destruct (anyFailure_false s p Hf) as (H1 & H2 & H3 & H4 & H5 & H6 & H7 & H8).
  assert (E : clamp01 (rawScore s p) = 1.0%float).
  { unfold rawScore. rewrite H1, H2, Hrec, H3, H4, H5, H6, H7, H8.
    apply full_flags_score. }
  rewrite Hf, E. unfold missingList, upgradeList.
  rewrite H1, H2, Hrec, H3, H4, H5, H6, H7, H8.
  repeat split.
Qed.

Lemma meets_all_scores_one_witness :
  CompatibilityResult.CompatibilityScore
    (analyzeProjectCompatibility
       (SystemSpec.mk 64 128 8192 true true 48 10000 "Linux")
       (DePINProject.mk "D" "" "" 4 8 8 500 "SSD" true 8 20 "Linux" 0 0 "" true ""))
  = 1.0%float.
Proof.
  apply (meets_all_scores_one
           (SystemSpec.mk 64 128 8192 true true 48 10000 "Linux")
           (DePINProject.mk "D" "" "" 4 8 8 500 "SSD" true 8 20 "Linux" 0 0 "" true "")).
  unfold meets_all. simpl. repeat split; try reflexivity; try lia.
Defined.

(** X3: the result is [compatible = true] exactly when its
    [missing_requirements] list is empty, and the list never has more than
    seven entries. *)
Theorem compatible_iff_nothing_missing (s : SystemSpec.t) (p : DePINProject.t) :
  (CompatibilityResult.Compatible (analyzeProjectCompatibility s p) = true <->
   CompatibilityResult.MissingRequirements (analyzeProjectCompatibility s p) = [])
  /\ (length (CompatibilityResult.MissingRequirements
                (analyzeProjectCompatibility s p)) <= 7)%nat.
Proof.
  rewrite analyze_fields.
  cbn [CompatibilityResult.Compatible CompatibilityResult.MissingRequirements].
  unfold anyFailure, missingList.
  destruct (c_cpu s p), (c_ram s p), (c_sto s p), (c_ssd_no s p), (c_gpu s p),
    (c_vram s p), (c_net s p), (c_os_no s p); simpl;
    (split; [split; intros H; (discriminate H || reflexivity) | lia]).
Qed.

Lemma compatible_iff_nothing_missing_witness :
  CompatibilityResult.MissingRequirements
    (analyzeProjectCompatibility
       (SystemSpec.mk 8 16 512 true true 8 100 "Windows")
       (DePINProject.mk "A" "" "" 4 8 32 500 "SSD" false 0 20 "Linux,Windows,macOS"
          5 20 "" true ""))
  = [].
Proof.
  apply (proj1 (compatible_iff_nothing_missing
                  (SystemSpec.mk 8 16 512 true true 8 100 "Windows")
                  (DePINProject.mk "A" "" "" 4 8 32 500 "SSD" false 0 20
                     "Linux,Windows,macOS" 5 20 "" true ""))).
  vm_compute. reflexivity.
Defined.

(** X4: [recommended_upgrades] holds the RAM advice exactly when the RAM is
    at least the minimum and below the recommendation, and is empty
    otherwise; the name, the cost string and the home-use warning do not
    depend on the system at all. *)
Theorem upgrades_and_labels (s : SystemSpec.t) (p : DePINProject.t) :
  let r := analyzeProjectCompatibility s p in
  (RAMGBMin p <= RAMGB s < RAMGBRecommended p ->
   CompatibilityResult.RecommendedUpgrades r =
   ["RAM upgrade to " +:+ fmt_d (RAMGBRecommended p)
    +:+ "GB recommended for optimal performance"])
  /\ (~ RAMGBMin p <= RAMGB s < RAMGBRecommended p ->
      CompatibilityResult.RecommendedUpgrades r = [])
  /\ CompatibilityResult.Name r = Name p
  /\ CompatibilityResult.EstimatedCost r =
     "$" +:+ fmt_d (EstimatedCostMin p) +:+ "-$" +:+ fmt_d (EstimatedCostMax p)
     +:+ "/month"
  /\ CompatibilityResult.Warnings r =
     (if HomeFriendly p then []
      else ["This project may not be suitable for home use"]).
Proof.
  intros r. unfold r. rewrite analyze_fields.
  cbn [CompatibilityResult.RecommendedUpgrades CompatibilityResult.Name
       CompatibilityResult.EstimatedCost CompatibilityResult.Warnings].
  unfold upgradeList, c_ram, c_rec, warningList, costString.
  destruct (Z.ltb_spec (RAMGB s) (RAMGBMin p)) as [L1|L1];
    destruct (Z.ltb_spec (RAMGB s) (RAMGBRecommended p)) as [L2|L2];
    destruct (HomeFriendly p); simpl;
    repeat split; intros; try reflexivity; try lia; exfalso; lia.
Qed.

Lemma upgrades_and_labels_witness :
  CompatibilityResult.RecommendedUpgrades
    (analyzeProjectCompatibility
       (SystemSpec.mk 8 16 512 true true 8 100 "Windows")
       (DePINProject.mk "A" "" "" 4 8 32 500 "SSD" false 0 20 "Linux,Windows,macOS"
          5 20 "" true ""))
  = ["RAM upgrade to 32GB recommended for optimal performance"].
Proof.
  apply (proj1 (upgrades_and_labels
                  (SystemSpec.mk 8 16 512 true true 8 100 "Windows")
                  (DePINProject.mk "A" "" "" 4 8 32 500 "SSD" false 0 20
                     "Linux,Windows,macOS" 5 20 "" true ""))).
  simpl. lia.
Defined.

Lemma flagBonus_bounds (cpu2 cpu1 ram2 ram1 net2 gpu8 : bool) :
  fle 0 (flagBonus cpu2 cpu1 ram2 ram1 net2 gpu8)
  && fle (flagBonus cpu2 cpu1 ram2 ram1 net2 gpu8) 0.15 = true.
Proof. by_evaluation. Qed.

(** X5: the performance bonus is a float64 between 0.0 and 0.15 for every
    system and project. *)
Theorem bonus_between_0_and_cap (s : SystemSpec.t) (p : DePINProject.t) :
  fle 0 (calculatePerformanceBonus s p) = true
  /\ fle (calculatePerformanceBonus s p) 0.15 = true.
Proof.
  rewrite calculatePerformanceBonus_flags. apply andb_prop, flagBonus_bounds.
Qed.

Lemma ram2_flags_bonus (cpu2 cpu1 ram1 net2 gpu8 : bool) :
  fle 0.05 (flagBonus cpu2 cpu1 true ram1 net2 gpu8) = true.
Proof. by_evaluation. Qed.

(** X6: [project.RAMGBRecommended*2] is a 64-bit product.  For a
    recommendation of 2^62 GB or more (a value the loader accepts, the field
    being unchecked) it wraps to a negative number, so every system with a
    non-negative RAM gets the top RAM bonus of 0.05 although its RAM is
    below the recommendation. *)
Theorem bonus_wraps_on_huge_recommendation (s : SystemSpec.t) (p : DePINProject.t) :
  2 ^ 62 <= RAMGBRecommended p <= int_max ->
  0 <= RAMGB s ->
  (RAMGB s >? int_mul (RAMGBRecommended p) 2) = true
  /\ fle 0.05 (calculatePerformanceBonus s p) = true.
Proof.
  intros Hrec Hram.
  assert (E : (RAMGB s >? int_mul (RAMGBRecommended p) 2) = true).
  { rewrite Z.gtb_ltb. apply Z.ltb_lt.
    unfold int_mul, int_wrap, int_max in *.
    assert (W : (RAMGBRecommended p * 2 + 2 ^ 63) mod 2 ^ 64
                = RAMGBRecommended p * 2 + 2 ^ 63 - 2 ^ 64).
    { symmetry. apply (Z.mod_unique _ _ 1); lia. }
    rewrite W. lia. }
  split; [exact E|].
  rewrite calculatePerformanceBonus_flags. unfold b_ram2. rewrite E.
  apply ram2_flags_bonus.
Qed.

Lemma bonus_wraps_on_huge_recommendation_witness :
  fle 0.05
    (calculatePerformanceBonus
       (SystemSpec.mk 1 1 32 false false 0 1 "Linux")
       (DePINProject.mk "huge" "" "" 64 1024 4611686018427387904 100000 "SSD" true 0
          100000 "Linux" 0 0 "" true "")) = true.
Proof.
  apply (bonus_wraps_on_huge_recommendation
           (SystemSpec.mk 1 1 32 false false 0 1 "Linux")
           (DePINProject.mk "huge" "" "" 64 1024 4611686018427387904 100000 "SSD" true
              0 100000 "Linux" 0 0 "" true "")).
  - unfold int_max. simpl. lia.
  - simpl. lia.
Defined.


Lemma gpu_missing_flags
    (cpu ram rec sto ssd_no ssd_yes vram net os_no cpu2 cpu1 ram2 ram1 net2 gpu8 : bool) :
  (let score :=
     clamp01 (flagScore cpu ram rec sto ssd_no ssd_yes true vram net os_no
                (flagBonus cpu2 cpu1 ram2 ram1 net2 gpu8)) in
   (score <? 0.9)%float
   && negb (GetPerformanceRating score =? "Excellent")%string) = true.
Proof. by_evaluation. Qed.

(** X7: when the project requires a GPU and the system has none, the score
    stays below 0.9 whatever else the system offers, so the rating is never
    "Excellent". *)
Theorem missing_gpu_never_excellent (s : SystemSpec.t) (p : DePINProject.t) :
  GPURequired p = true -> HasGPU s = false ->
  (CompatibilityResult.CompatibilityScore (analyzeProjectCompatibility s p) <? 0.9)%float
  = true
  /\ CompatibilityResult.PerformanceRating (analyzeProjectCompatibility s p)
     <> "Excellent".
Proof.
  intros Hreq Hgpu. rewrite analyze_rating, analyze_score. unfold rawScore.
  assert (E : c_gpu s p = true).
  { unfold c_gpu. rewrite Hreq, Hgpu. reflexivity. }
  rewrite E.
  pose proof (gpu_missing_flags (c_cpu s p) (c_ram s p) (c_rec s p) (c_sto s p)
                (c_ssd_no s p) (c_ssd_yes s p) (c_vram s p) (c_net s p) (c_os_no s p)
                (b_cpu2 s p) (b_cpu1 s p) (b_ram2 s p) (b_ram1 s p) (b_net2 s p)
                (b_gpu8 s)) as H.
  cbn zeta in H. apply andb_prop in H. destruct H as [H1 H2].
  split; [exact H1|].
  apply negb_true_iff in H2. intros C. rewrite C in H2. discriminate H2.
Qed.

Lemma missing_gpu_never_excellent_witness :
  CompatibilityResult.PerformanceRating
    (analyzeProjectCompatibility
       (SystemSpec.mk 64 128 8192 true false 0 10000 "Linux")
       (DePINProject.mk "render" "" "" 1 1 1 32 "SSD" true 0 1 "Linux" 0 0 "" true ""))
  <> "Excellent".
Proof.
  apply (missing_gpu_never_excellent
           (SystemSpec.mk 64 128 8192 true false 0 10000 "Linux")
           (DePINProject.mk "render" "" "" 1 1 1 32 "SSD" true 0 1 "Linux" 0 0 "" true ""));
    reflexivity.
Defined.

End ScorerMore.

(* ===================================================================== *)
(** ** OS matching and the system rating *)
(* ===================================================================== *)

Module RatingMore.
Import SystemSpec DePINProject.
Import Go models service Conditions Spec Extra OSFacts.

(** X8: for a [supported_os] string that lists entries separated by commas,
    the system's OS is accepted exactly when it equals one of the entries
    with the white space around the entry removed; the comparison is
    byte for byte, so it is case-sensitive. *)
Theorem isOSCompatible_listed (systemOS : string) (entries : list string) :
  entries <> [] ->
  forallb comma_free entries = true ->
  Join entries "," <> "" ->
  isOSCompatible systemOS (Join entries ",") = true <->
  exists entry, In entry entries /\ TrimSpace entry = systemOS.
Proof.
  intros Hne Hcf Hj. unfold isOSCompatible.
  destruct (String.eqb_spec (Join entries ",") "") as [E|_]; [contradiction|].
  rewrite (Split_Join entries Hne Hcf), existsb_exists.
  split; intros (entry & Hin & H); exists entry; (split; [exact Hin|]);
    apply String.eqb_eq; exact H.
Qed.

Lemma isOSCompatible_listed_witness :
  isOSCompatible "Windows" (Join ["Linux"; " Windows "; "macOS"] ",") = true.
Proof.
  apply (proj2 (isOSCompatible_listed "Windows" ["Linux"; " Windows "; "macOS"]
                  ltac:(discriminate) eq_refl ltac:(discriminate))).
  exists " Windows ". split; [simpl; auto | reflexivity].
Defined.

(** The updates of the local [score] of [GetSystemRating], one resource
    at a time. *)
Lemma cpuPoints_added (cores score : Z) :
  (if cores >=? 12 then score + 3
   else if cores >=? 8 then score + 2
   else if cores >=? 4 then score + 1 else score) = score + cpuPoints cores.
Proof.
  unfold cpuPoints.
  destruct (cores >=? 12), (cores >=? 8), (cores >=? 4); lia.
Qed.

Lemma ramPoints_added (gb score : Z) :
  (if gb >=? 32 then score + 3
   else if gb >=? 16 then score + 2
   else if gb >=? 8 then score + 1 else score) = score + ramPoints gb.
Proof.
  unfold ramPoints.
  destruct (gb >=? 32), (gb >=? 16), (gb >=? 8); lia.
Qed.

Lemma gpuPoints_added (has_gpu : bool) (vram score : Z) :
  (if has_gpu && (vram >=? 12) then score + 3
   else if has_gpu && (vram >=? 6) then score + 2
   else if has_gpu then score + 1 else score) = score + gpuPoints has_gpu vram.
Proof.
  unfold gpuPoints.
  destruct has_gpu, (vram >=? 12), (vram >=? 6); simpl; lia.
Qed.

Lemma storagePoints_added (has_ssd : bool) (gb score : Z) :
  (if has_ssd && (gb >=? 1000) then score + 2
   else if has_ssd || (gb >=? 500) then score + 1 else score)
  = score + storagePoints has_ssd gb.
Proof.
  unfold storagePoints.
  destruct has_ssd, (gb >=? 1000), (gb >=? 500); simpl; lia.
Qed.

Lemma networkPoints_added (mbps score : Z) :
  (if mbps >=? 500 then score + 2
   else if mbps >=? 100 then score + 1 else score) = score + networkPoints mbps.
Proof.
  unfold networkPoints.
  destruct (mbps >=? 500), (mbps >=? 100); lia.
Qed.

Lemma GetSystemRating_points (spec : SystemSpec.t) :
  GetSystemRating spec = ratingOfPoints (systemPoints spec).
Proof.
  change (GetSystemRating spec) with
    (ratingOfPoints
       (let score := 0 in
        let score :=
          if CPUCores spec >=? 12 then score + 3
          else if CPUCores spec >=? 8 then score + 2
          else if CPUCores spec >=? 4 then score + 1 else score in
        let score :=
          if RAMGB spec >=? 32 then score + 3
          else if RAMGB spec >=? 16 then score + 2
          else if RAMGB spec >=? 8 then score + 1 else score in
        let score :=
          if HasGPU spec && (GPUVRAMGB spec >=? 12) then score + 3
          else if HasGPU spec && (GPUVRAMGB spec >=? 6) then score + 2
          else if HasGPU spec then score + 1 else score in
        let score :=
          if HasSSD spec && (StorageGB spec >=? 1000) then score + 2
          else if HasSSD spec || (StorageGB spec >=? 500) then score + 1
          else score in
        if NetworkMbps spec >=? 500 then score + 2
        else if NetworkMbps spec >=? 100 then score + 1 else score)).
  f_equal. cbv zeta.
  rewrite cpuPoints_added, ramPoints_added, gpuPoints_added, storagePoints_added,
    networkPoints_added.
  unfold systemPoints. lia.
Qed.

Lemma cpuPoints_monotone a b : a <= b -> cpuPoints a <= cpuPoints b.
Proof.
  intros H. unfold cpuPoints. rewrite !Z.geb_leb.
  destruct (Z.leb_spec 12 a), (Z.leb_spec 8 a), (Z.leb_spec 4 a),
    (Z.leb_spec 12 b), (Z.leb_spec 8 b), (Z.leb_spec 4 b); lia.
Qed.

Lemma ramPoints_monotone a b : a <= b -> ramPoints a <= ramPoints b.
Proof.
  intros H. unfold ramPoints. rewrite !Z.geb_leb.
  destruct (Z.leb_spec 32 a), (Z.leb_spec 16 a), (Z.leb_spec 8 a),
    (Z.leb_spec 32 b), (Z.leb_spec 16 b), (Z.leb_spec 8 b); lia.
Qed.

Lemma networkPoints_monotone a b : a <= b -> networkPoints a <= networkPoints b.
Proof.
  intros H. unfold networkPoints. rewrite !Z.geb_leb.
  destruct (Z.leb_spec 500 a), (Z.leb_spec 100 a),
    (Z.leb_spec 500 b), (Z.leb_spec 100 b); lia.
Qed.

Lemma gpuPoints_monotone g g' a b :
  (g = true -> g' = true) -> a <= b -> gpuPoints g a <= gpuPoints g' b.
Proof.
  intros Hg H. unfold gpuPoints. rewrite !Z.geb_leb.
  destruct g; [rewrite (Hg eq_refl) | destruct g']; simpl;
    destruct (Z.leb_spec 12 a), (Z.leb_spec 6 a),
      (Z.leb_spec 12 b), (Z.leb_spec 6 b); lia.
Qed.

Lemma storagePoints_monotone d d' a b :
  (d = true -> d' = true) -> a <= b -> storagePoints d a <= storagePoints d' b.
Proof.
  intros Hd H. unfold storagePoints. rewrite !Z.geb_leb.
  destruct d; [rewrite (Hd eq_refl) | destruct d']; simpl;
    destruct (Z.leb_spec 1000 a), (Z.leb_spec 500 a),
      (Z.leb_spec 1000 b), (Z.leb_spec 500 b); lia.
Qed.

Lemma ratingOfPoints_monotone a b :
  a <= b -> (systemRank (ratingOfPoints a) <= systemRank (ratingOfPoints b))%nat.
Proof.
  intros H. unfold ratingOfPoints. rewrite !Z.geb_leb.
  destruct (Z.leb_spec 12 a), (Z.leb_spec 8 a), (Z.leb_spec 5 a),
    (Z.leb_spec 12 b), (Z.leb_spec 8 b), (Z.leb_spec 5 b);
    try lia; vm_compute; lia.
Qed.

(** X9: a system that is at least as good in every capability (cores, RAM,
    storage, SSD, GPU, VRAM, network) never gets a lower system rating, in
    the order Entry Level, Mid-Range, High-End, Extreme. *)
Theorem GetSystemRating_monotone (s s' : SystemSpec.t) :
  no_weaker s s' ->
  (systemRank (GetSystemRating s) <= systemRank (GetSystemRating s'))%nat.
Proof.
  intros (H1 & H2 & H3 & H4 & H5 & H6 & H7).
  rewrite !GetSystemRating_points. apply ratingOfPoints_monotone.
  unfold systemPoints.
  pose proof (cpuPoints_monotone _ _ H1).
  pose proof (ramPoints_monotone _ _ H2).
  pose proof (gpuPoints_monotone _ _ _ _ H5 H6).
  pose proof (storagePoints_monotone _ _ _ _ H4 H3).
  pose proof (networkPoints_monotone _ _ H7).
  lia.
Qed.

Lemma GetSystemRating_monotone_witness :
  (systemRank (GetSystemRating (SystemSpec.mk 4 8 256 false false 0 50 "Linux"))
   <= systemRank (GetSystemRating (SystemSpec.mk 12 32 1000 true true 12 500 "Linux")))%nat.
Proof.
  apply GetSystemRating_monotone. unfold no_weaker. simpl.
  repeat split; try lia; try discriminate.
Defined.

(** X10: the rating is always one of the four labels; "Extreme" needs a GPU
    (without one the system has at most 10 of the 12 points), and a system
    with fewer than 4 cores, less than 8 GB of RAM, no GPU, no SSD, less than
    500 GB of storage and less than 100 Mbps is "Entry Level". *)
Theorem GetSystemRating_labels (spec : SystemSpec.t) :
  In (GetSystemRating spec) ["Entry Level"; "Mid-Range"; "High-End"; "Extreme"]
  /\ (HasGPU spec = false -> GetSystemRating spec <> "Extreme")
  /\ (CPUCores spec < 4 -> RAMGB spec < 8 -> HasGPU spec = false ->
      HasSSD spec = false -> StorageGB spec < 500 -> NetworkMbps spec < 100 ->
      GetSystemRating spec = "Entry Level").
Proof.
  rewrite GetSystemRating_points. split; [|split].
  - unfold ratingOfPoints.
    destruct (systemPoints spec >=? 12), (systemPoints spec >=? 8),
      (systemPoints spec >=? 5); simpl; auto.
  - intros Hg.
    assert (B : systemPoints spec <= 10).
    { unfold systemPoints, cpuPoints, ramPoints, gpuPoints, storagePoints,
        networkPoints. rewrite Hg. simpl.
      destruct (CPUCores spec >=? 12), (CPUCores spec >=? 8), (CPUCores spec >=? 4),
        (RAMGB spec >=? 32), (RAMGB spec >=? 16), (RAMGB spec >=? 8),
        (HasSSD spec), (StorageGB spec >=? 1000), (StorageGB spec >=? 500),
        (NetworkMbps spec >=? 500), (NetworkMbps spec >=? 100); simpl; lia. }
    unfold ratingOfPoints. rewrite Z.geb_leb.
    destruct (Z.leb_spec 12 (systemPoints spec)); [lia|].
    destruct (systemPoints spec >=? 8), (systemPoints spec >=? 5); discriminate.
  - intros H1 H2 H3 H4 H5 H6.
    unfold systemPoints, cpuPoints, ramPoints, gpuPoints, storagePoints,
      networkPoints. rewrite H3, H4, !Z.geb_leb. simpl.
    rewrite (proj2 (Z.leb_gt _ _)), (proj2 (Z.leb_gt _ _)), (proj2 (Z.leb_gt _ _)),
      (proj2 (Z.leb_gt _ _)), (proj2 (Z.leb_gt _ _)), (proj2 (Z.leb_gt _ _)),
      (proj2 (Z.leb_gt _ _)), (proj2 (Z.leb_gt _ _)), (proj2 (Z.leb_gt _ _));
      try lia.
    reflexivity.
Qed.

Lemma GetSystemRating_labels_witness :
  GetSystemRating (SystemSpec.mk 64 128 8192 true false 0 10000 "Linux") <> "Extreme".
Proof.
  apply (proj1 (proj2 (GetSystemRating_labels
                         (SystemSpec.mk 64 128 8192 true false 0 10000 "Linux")))).
  reflexivity.
Defined.

End RatingMore.

(* ===================================================================== *)
(** ** Recommendations, the empty catalog and the project summary *)
(* ===================================================================== *)

Module AggregatorMore.
Import SystemSpec DePINProject.
Import Go models service Conditions Spec Extra UpgradeTheorems AggregatorTheorems.

Lemma getBestProjects_firstn (compatible : list CompatibilityResult.t) (n : nat) :
  getBestProjects compatible n = firstn n compatible.
Proof.
  unfold getBestProjects.
  destruct (Nat.leb_spec (length compatible) n) as [H|H]; [|reflexivity].
  symmetry. apply firstn_all2, H.
Qed.

Lemma analyzeUpgradeNeeds_length system incompatible :
  (length (analyzeUpgradeNeeds system incompatible) <= 5)%nat.
Proof.
  rewrite analyzeUpgradeNeeds_exceeding, length_map. unfold exceeding.
  apply (List.filter_length_le _ categories).
Qed.

(** X11: the recommendations are one overall assessment (one of the four
    messages), then the upgrade suggestions, then, when some project is
    compatible, one line naming the first three compatible projects (all of
    them when there are fewer); so there are between one and seven of
    them. *)
Theorem generateRecommendations_shape (s : CompatibilityService)
    (system : SystemSpec.t) (compatible incompatible : list CompatibilityResult.t) :
  let recommendations := generateRecommendations s system compatible incompatible in
  (exists assessment,
      In assessment [msgExcellent; msgGood; msgFair; msgLimited]
      /\ recommendations =
         [assessment] ++ analyzeUpgradeNeeds system incompatible
         ++ match compatible with
            | [] => []
            | _ :: _ =>
                [msgBest +:+
                 Join (map CompatibilityResult.Name (firstn 3 compatible)) ", "]
            end)
  /\ (1 <= length recommendations <= 7)%nat.
Proof.
  intros recommendations.
  assert (H : exists assessment,
      In assessment [msgExcellent; msgGood; msgFair; msgLimited]
      /\ recommendations =
         [assessment] ++ analyzeUpgradeNeeds system incompatible
         ++ match compatible with
            | [] => []
            | _ :: _ =>
                [msgBest +:+
                 Join (map CompatibilityResult.Name (firstn 3 compatible)) ", "]
            end).
  { unfold recommendations, generateRecommendations.
    rewrite getBestProjects_firstn.
    set (rate := (float64_of_len (length compatible)
                  / float64_of_len (length (projects s)))%float).
    assert (Hbest :
      (if (0 <? length compatible)%nat
       then [msgBest +:+
             Join (map CompatibilityResult.Name (firstn 3 compatible)) ", "]
       else [])
      = match compatible with
        | [] => []
        | _ :: _ =>
            [msgBest +:+
             Join (map CompatibilityResult.Name (firstn 3 compatible)) ", "]
        end).
    { destruct compatible; reflexivity. }
    destruct (0.8 <=? rate)%float;
      [exists msgExcellent |
       destruct (0.6 <=? rate)%float;
       [exists msgGood |
        destruct (0.4 <=? rate)%float; [exists msgFair | exists msgLimited]]];
      (split; [simpl; auto |]);
      rewrite <- Hbest; destruct (0 <? length compatible)%nat;
      cbn [app]; rewrite ?app_nil_r; reflexivity. }
  split; [exact H|].
  destruct H as (assessment & _ & E). rewrite E.
  cbn [app length]. rewrite length_app.
  pose proof (analyzeUpgradeNeeds_length system incompatible).
  destruct compatible; simpl; lia.
Qed.

Section EmptyCatalog.
Variable sort_Slice :
  (CompatibilityResult.t -> CompatibilityResult.t -> bool) ->
  list CompatibilityResult.t -> list CompatibilityResult.t.

Hypothesis sort_Slice_permutation :
  forall less data, Permutation (sort_Slice less data) data.

(** X12: on an empty catalog [PredictCompatibility] does not fail: it
    returns a [nil] error and a response with two empty lists, all counts
    zero, the rate and the average score NaN (0/0 in float64), and the
    "Limited compatibility" assessment as the only recommendation. *)
Theorem PredictCompatibility_empty_catalog (start : Time) (system : SystemSpec.t)
    (now : Time) :
  PredictCompatibility sort_Slice (mkService [] start) system now =
  (PredictionResponse.mk [] []
     (PredictionSummary.mk 0 0 0 nan nan (GetSystemRating system))
     [msgLimited] now,
   None).
Proof using sort_Slice_permutation.
  unfold PredictCompatibility. cbn [projects fold_left compatible incompatible totalScore].
  assert (E : sort_Slice byScoreDesc [] = []).
  { apply Permutation_nil. symmetry. apply sort_Slice_permutation. }
  rewrite E. reflexivity.
Qed.
End EmptyCatalog.

Lemma PredictCompatibility_empty_catalog_witness :
  PredictCompatibility insertionSortLessFunc (mkService [] 0) scenarioB_system 1 =
  (PredictionResponse.mk [] []
     (PredictionSummary.mk 0 0 0 nan nan (GetSystemRating scenarioB_system))
     [msgLimited] 1,
   None).
Proof.
  apply (PredictCompatibility_empty_catalog insertionSortLessFunc
           (fun less data =>
              AggregatorTheorems.insertionSortLessFunc_permutation less data)).
Defined.

Lemma filter_permutation {A} (f : A -> bool) (l l' : list A) :
  Permutation l l' -> Permutation (List.filter f l) (List.filter f l').
Proof.
  induction 1 as [|x l l' _ IH|x y l|l l' l'' _ IH1 _ IH2]; simpl.
  - constructor.
  - destruct (f x); [constructor|]; exact IH.
  - destruct (f x), (f y); try reflexivity. apply perm_swap.
  - etransitivity; eassumption.
Qed.

Lemma issue_count_permutation c (l l' : list CompatibilityResult.t) :
  Permutation l l' -> issue_count c l = issue_count c l'.
Proof.
  intros H. unfold issue_count, count_category, all_missing.
  apply Permutation_length, filter_permutation, Permutation_flat_map, H.
Qed.

(** The upgrade suggestions do not depend on the order of the results. *)
Lemma analyzeUpgradeNeeds_permutation system (l l' : list CompatibilityResult.t) :
  Permutation l l' -> analyzeUpgradeNeeds system l = analyzeUpgradeNeeds system l'.
Proof.
  intros H. rewrite !analyzeUpgradeNeeds_exceeding. unfold exceeding.
  rewrite (Permutation_length H). f_equal.
  apply List.filter_ext. intros c. rewrite (issue_count_permutation c l l' H).
  reflexivity.
Qed.

Lemma generateRecommendations_parts (s : CompatibilityService)
    (system : SystemSpec.t) (compatible incompatible : list CompatibilityResult.t) :
  generateRecommendations s system compatible incompatible
  = assessment (length compatible) (length (projects s))
    :: analyzeUpgradeNeeds system incompatible ++ bestLine compatible.
Proof.
  unfold generateRecommendations, assessment, bestLine.
  rewrite getBestProjects_firstn. cbv zeta.
  set (rate := (float64_of_len (length compatible)
                / float64_of_len (length (projects s)))%float).
  destruct (0.8 <=? rate)%float;
    [|destruct (0.6 <=? rate)%float; [|destruct (0.4 <=? rate)%float]];
    destruct compatible; cbn [app length Nat.ltb Nat.leb]; rewrite ?app_nil_r;
    reflexivity.
Qed.

Lemma scan_total system projects : forall st,
  totalScore (fold_left (scanProject system) projects st)
  = sumScores (map (analyzeProjectCompatibility system) projects) (totalScore st).
Proof.
  unfold sumScores.
  induction projects as [|p ps IH]; intros st; cbn [fold_left map]; [reflexivity|].
  rewrite IH. f_equal. unfold scanProject.
  destruct (CompatibilityResult.Compatible (analyzeProjectCompatibility system p));
    reflexivity.
Qed.

Section AnySort.
Variable sort_Slice :
  (CompatibilityResult.t -> CompatibilityResult.t -> bool) ->
  list CompatibilityResult.t -> list CompatibilityResult.t.

Hypothesis sort_Slice_permutation :
  forall less data, Permutation (sort_Slice less data) data.

(** X22: whatever order the sort gives to the results, the response of
    [PredictCompatibility] is fixed by the catalog and the system but for
    the clock, the order inside the two lists and the line that names the
    best projects: the lists hold the Scorer's results with [compatible]
    set and unset, the summary carries their numbers, the rate, the average
    of the scores added in catalog order and the system rating, and the
    recommendations are the assessment for that rate, then the upgrade
    suggestions counted over the incompatible results, then the line for
    the first three of the sorted compatible list. *)
Theorem response_but_for_tie_order (catalog : list DePINProject.t) (start : Time)
    (system : SystemSpec.t) (now : Time) :
  let results := map (analyzeProjectCompatibility system) catalog in
  let passing := List.filter CompatibilityResult.Compatible results in
  let failing :=
    List.filter (fun r => negb (CompatibilityResult.Compatible r)) results in
  let r := fst (PredictCompatibility sort_Slice (mkService catalog start) system now) in
  Permutation (PredictionResponse.CompatibleProjects r) passing
  /\ Permutation (PredictionResponse.IncompatibleProjects r) failing
  /\ PredictionResponse.Summary r
     = PredictionSummary.mk (length catalog) (length passing) (length failing)
         (float64_of_len (length passing) / float64_of_len (length catalog) * 100)%float
         (sumScores results 0.0 / float64_of_len (length catalog))%float
         (GetSystemRating system)
  /\ PredictionResponse.Recommendations r
     = assessment (length passing) (length catalog)
       :: analyzeUpgradeNeeds system failing
       ++ bestLine (PredictionResponse.CompatibleProjects r)
  /\ PredictionResponse.GeneratedAt r = now.
Proof using sort_Slice_permutation.
  intros results passing failing r.
  unfold r, PredictCompatibility.
  cbn [fst projects PredictionResponse.Summary PredictionResponse.CompatibleProjects
       PredictionResponse.IncompatibleProjects PredictionResponse.Recommendations
       PredictionResponse.GeneratedAt].
  destruct (scan_lists system catalog (mkScan [] [] 0.0%float)) as [Hc Hi].
  cbn [compatible incompatible app] in Hc, Hi. rewrite Hc, Hi.
  rewrite scan_total. cbn [totalScore].
  fold results. fold passing. fold failing.
  pose proof (sort_Slice_permutation byScoreDesc passing) as Hp.
  pose proof (sort_Slice_permutation byScoreDesc failing) as Hf.
  rewrite generateRecommendations_parts. cbn [projects].
  rewrite (Permutation_length Hp), (Permutation_length Hf).
  rewrite (analyzeUpgradeNeeds_permutation system _ _ Hf).
  repeat split; assumption.
Qed.

End AnySort.

Lemma response_but_for_tie_order_witness :
  PredictionResponse.Recommendations
    (fst (PredictCompatibility sortFromEnd (mkService twins 0) scenarioB_system 1))
  = [msgExcellent; msgBest +:+ "b, a"].
Proof.
  apply (proj1 (proj2 (proj2 (proj2
    (response_but_for_tie_order sortFromEnd
       (fun less data =>
          Permutation_trans (insertionSortLessFunc_permutation less (rev data))
            (Permutation_sym (Permutation_rev data)))
       twins 0 scenarioB_system 1))))).
Defined.

(** On [twins], whose results tie at 1.0, the order of the list and the
    line of best projects follow the sort. *)
Example tie_order_follows_the_sort :
  map CompatibilityResult.Name
    (PredictionResponse.CompatibleProjects
       (fst (PredictCompatibility insertionSortLessFunc (mkService twins 0)
               scenarioB_system 1)))
  = ["a"; "b"]
  /\ map CompatibilityResult.Name
       (PredictionResponse.CompatibleProjects
          (fst (PredictCompatibility sortFromEnd (mkService twins 0)
                  scenarioB_system 1)))
     = ["b"; "a"].
Proof. split; vm_compute; reflexivity. Qed.

Lemma increment_lookup (key k : string) (m : gmap string nat) :
  increment key m !! k =
  if (key =? k)%string then Some (S (default 0%nat (m !! k))) else m !! k.
Proof.
  unfold increment. destruct (String.eqb_spec key k) as [->|Hne].
  - apply lookup_insert_eq.
  - apply lookup_insert_ne, Hne.
Qed.

(** The map after counting a list of keys, started from [m]. *)
Lemma counted_keys (key : DePINProject.t -> string) (k : string)
    (catalog : list DePINProject.t) : forall m : gmap string nat,
  fold_left (fun m p => increment (key p) m) catalog m !! k =
  match count_key key k catalog with
  | O => m !! k
  | S n => Some (default 0%nat (m !! k) + S n)%nat
  end.
Proof.
  unfold count_key.
  induction catalog as [|p ps IH]; intros m; [reflexivity|].
  cbn [fold_left List.filter]. rewrite IH, increment_lookup.
  destruct (key p =? k)%string; cbn [length].
  - destruct (length (List.filter (fun p0 => (key p0 =? k)%string) ps)),
      (m !! k); simpl; f_equal; lia.
  - reflexivity.
Qed.

Lemma summary_fields (catalog : list DePINProject.t) : forall summary,
  let r := fold_left summarizeProject catalog summary in
  ProjectSummary.ByType r
  = fold_left (fun m p => increment (Type_ p) m) catalog (ProjectSummary.ByType summary)
  /\ ProjectSummary.ByCostCategory r
     = fold_left (fun m p => increment (CostCategory p) m) catalog
         (ProjectSummary.ByCostCategory summary)
  /\ ProjectSummary.HomeFriendly r
     = (ProjectSummary.HomeFriendly summary + count_flag HomeFriendly catalog)%nat
  /\ ProjectSummary.GPURequired r
     = (ProjectSummary.GPURequired summary + count_flag GPURequired catalog)%nat.
Proof.
  unfold count_flag.
  induction catalog as [|p ps IH]; intros summary; cbn [fold_left List.filter].
  - cbn [length]. rewrite !Nat.add_0_r. repeat split.
  - destruct (IH (summarizeProject summary p)) as (H1 & H2 & H3 & H4).
    cbn zeta. rewrite H1, H2, H3, H4. unfold summarizeProject.
    cbn [ProjectSummary.ByType ProjectSummary.ByCostCategory
         ProjectSummary.HomeFriendly ProjectSummary.GPURequired].
    destruct (HomeFriendly p), (GPURequired p); cbn [length];
      repeat split; lia.
Qed.

(** X13: in the summary of [GetProjectSummary], a type (a cost category)
    that no project has is absent from the map and any other is mapped to
    the number of projects that have it; the two counters are the numbers
    of home-friendly and of GPU-requiring projects. *)
Theorem GetProjectSummary_counts (s : CompatibilityService) (k : string) :
  let summary := GetProjectSummary s in
  ProjectSummary.ByType summary !! k
  = (match count_key Type_ k (projects s) with
     | O => None
     | n => Some n
     end)
  /\ ProjectSummary.ByCostCategory summary !! k
     = (match count_key CostCategory k (projects s) with
        | O => None
        | n => Some n
        end)
  /\ ProjectSummary.HomeFriendly summary = count_flag HomeFriendly (projects s)
  /\ ProjectSummary.GPURequired summary = count_flag GPURequired (projects s).
Proof.
  intros summary. unfold summary, GetProjectSummary.
  destruct (summary_fields (projects s) (ProjectSummary.mk ∅ ∅ 0 0))
    as (H1 & H2 & H3 & H4).
  cbn zeta in H1, H2, H3, H4. rewrite H1, H2, H3, H4, !counted_keys.
  cbn [ProjectSummary.ByType ProjectSummary.ByCostCategory
       ProjectSummary.HomeFriendly ProjectSummary.GPURequired].
  rewrite !lookup_empty. cbn [default].
  destruct (count_key Type_ k (projects s)),
    (count_key CostCategory k (projects s)); repeat split.
Qed.

End AggregatorMore.

(* ===================================================================== *)
(** ** Further properties of catalog loading *)
(* ===================================================================== *)

Module LoadMore.
Import DePINProject.
Import Go data LoadSpec Extra LoadTheorems.

Section Tables.
Context {tables : CaseTables}.

(** *** The header map *)

Lemma fieldMap_fold (header : list string) : forall st,
  fold_left
    (fun '(i, fieldMap) field =>
       let normalizedField := ToLower (ReplaceAll (TrimSpace field) " " "_") in
       (S i, <[normalizedField := i]> fieldMap))
    header st
  = fold_left fieldMapStep header st.
Proof.
  induction header as [|f fs IH]; intros [i m]; [reflexivity|].
  cbn [fold_left]. rewrite IH. reflexivity.
Qed.

Lemma fieldMapStep_index (header : list string) : forall st,
  fst (fold_left fieldMapStep header st) = (fst st + length header)%nat.
Proof.
  induction header as [|f fs IH]; intros [i m]; simpl; [lia|].
  rewrite IH. simpl. lia.
Qed.

(** A further header cell files its index under its key. *)
Lemma createFieldMap_snoc (header : list string) (field : string) :
  createFieldMap (header ++ [field])
  = <[normalizeField field := length header]> (createFieldMap header).
Proof.
  unfold createFieldMap. rewrite !fieldMap_fold, fold_left_app.
  pose proof (fieldMapStep_index header (0%nat, ∅)) as Hi.
  destruct (fold_left fieldMapStep header (0%nat, ∅)) as [i m].
  simpl in Hi. subst i. reflexivity.
Qed.

(** X14: [createFieldMap] maps a key to the index of the last header cell
    that normalises to it (trimmed, spaces to underscores, lower case): a
    later column with the same normalised name hides an earlier one, every
    index in the map is a column of the header, and a key no cell
    normalises to is absent. *)
Theorem createFieldMap_last_column (header : list string) (k : string) (i : nat) :
  createFieldMap header !! k = Some i <->
  (exists field, header !! i = Some field /\ normalizeField field = k)
  /\ (forall j field, (i < j)%nat -> header !! j = Some field ->
                      normalizeField field <> k).
Proof.
  revert i. induction header as [|x h IH] using rev_ind; intros i.
  - unfold createFieldMap. simpl. rewrite lookup_empty. split; [discriminate|].
    intros [(field & H & _) _]. discriminate H.
  - rewrite createFieldMap_snoc.
    destruct (String.eqb_spec (normalizeField x) k) as [E|E].
    + rewrite E, lookup_insert_eq. split.
      * intros H. injection H as <-. split.
        -- exists x. split; [apply list_lookup_middle; reflexivity | exact E].
        -- intros j field Hj Hl. apply lookup_lt_Some in Hl.
           rewrite length_app in Hl. simpl in Hl. lia.
      * intros [(field & Hl & _) Hlast].
        pose proof (lookup_lt_Some _ _ _ Hl) as Hlt.
        rewrite length_app in Hlt. simpl in Hlt.
        destruct (Nat.eq_dec i (length h)) as [->|Hne]; [reflexivity|].
        exfalso. apply (Hlast (length h) x); [lia | | exact E].
        apply list_lookup_middle. reflexivity.
    + rewrite lookup_insert_ne by exact E. rewrite IH. split.
      * intros [(field & Hl & Hk) Hlast].
        pose proof (lookup_lt_Some _ _ _ Hl) as Hlt. split.
        -- exists field. split; [|exact Hk]. rewrite lookup_app_l; assumption.
        -- intros j field' Hj Hl'.
           destruct (Nat.lt_ge_cases j (length h)) as [Hjl|Hjl].
           ++ rewrite lookup_app_l in Hl' by exact Hjl. apply (Hlast j); assumption.
           ++ rewrite lookup_app_r in Hl' by exact Hjl.
              destruct (j - length h)%nat; [|discriminate Hl'].
              injection Hl' as <-. exact E.
      * intros [(field & Hl & Hk) Hlast].
        destruct (Nat.lt_ge_cases i (length h)) as [Hil|Hil].
        -- rewrite lookup_app_l in Hl by exact Hil. split.
           ++ exists field. split; assumption.
           ++ intros j field' Hj Hl'. apply (Hlast j); [exact Hj|].
              rewrite lookup_app_l; [exact Hl' | exact (lookup_lt_Some _ _ _ Hl')].
        -- exfalso. rewrite lookup_app_r in Hl by exact Hil.
           destruct (i - length h)%nat; [|discriminate Hl].
           injection Hl as <-. contradiction.
Qed.

(** *** The field getters *)

(** X15: a getter reads only columns that the header names and the record
    has: when none of the field's names is a key of the map, or every index
    found lies beyond the end of the record, the result is the zero value
    (the empty string, 0, false). *)
Theorem getters_zero_without_column (record : list string)
    (fieldMap : gmap string nat) (fieldNames : list string) :
  (forall name idx, In name fieldNames -> fieldMap !! name = Some idx ->
                    (length record <= idx)%nat) ->
  getStringField record fieldMap fieldNames = ""
  /\ getIntField record fieldMap fieldNames = 0
  /\ getBoolField record fieldMap fieldNames = false.
Proof.
  induction fieldNames as [|name names IH]; intros H; [repeat split|].
  destruct IH as (H1 & H2 & H3).
  { intros n idx Hn. apply H. right. exact Hn. }
  simpl. destruct (fieldMap !! name) as [idx|] eqn:E.
  - rewrite (lookup_ge_None_2 record idx (H name idx (or_introl eq_refl) E)).
    repeat split; assumption.
  - repeat split; assumption.
Qed.

(** *** Validation and the loaded catalog *)

(** X18: [validateProject] accepts a record exactly when its name is not
    empty and its CPU, RAM, storage and network minima lie in
    [0,64], [0,1024], [0,100000] and [0,100000]; no other field is
    checked. *)
Theorem validateProject_accepts_iff (project : DePINProject.t) :
  validateProject project = None <-> in_ranges project.
Proof.
  unfold validateProject, validateProject_body, in_ranges.
  rewrite !Z.gtb_ltb.
  destruct (String.eqb_spec (Name project) "") as [E|E].
  { split; [discriminate | intros (H & _); contradiction]. }
  destruct (Z.ltb_spec (CPUCoresMin project) 0);
    [split; [discriminate | intros; exfalso; lia]|].
  destruct (Z.ltb_spec 64 (CPUCoresMin project));
    [split; [discriminate | intros; exfalso; lia]|].
  destruct (Z.ltb_spec (RAMGBMin project) 0);
    [split; [discriminate | intros; exfalso; lia]|].
  destruct (Z.ltb_spec 1024 (RAMGBMin project));
    [split; [discriminate | intros; exfalso; lia]|].
  destruct (Z.ltb_spec (StorageGBMin project) 0);
    [split; [discriminate | intros; exfalso; lia]|].
  destruct (Z.ltb_spec 100000 (StorageGBMin project));
    [split; [discriminate | intros; exfalso; lia]|].
  destruct (Z.ltb_spec (NetworkMbpsMin project) 0);
    [split; [discriminate | intros; exfalso; lia]|].
  destruct (Z.ltb_spec 100000 (NetworkMbpsMin project));
    [split; [discriminate | intros; exfalso; lia]|].
  cbn [orb snd]. split; [intros _; repeat split; assumption | reflexivity].
Qed.

Lemma validProjects_in_ranges fieldMap reads :
  Forall in_ranges (validProjects fieldMap reads).
Proof.
  induction reads as [|r reads IH]; simpl; [constructor|].
  destruct (accepted fieldMap r) as [p|] eqn:E; [|exact IH].
  constructor; [|exact IH].
  destruct r as [record|e]; [|discriminate E]. simpl in E.
  destruct (parseProjectRecord record fieldMap 0) as [q [e|]] eqn:P; [discriminate E|].
  injection E as <-. exact (parseProjectRecord_accepts _ _ _ _ P).
Qed.

Lemma loaded_is_valid (l : Loader) (fs : filesystem) :
  projects (LoadDePINSpecs l fs) = []
  \/ exists header reads,
       fs (filePath l) = inr (Row header :: reads)
       /\ has_failure reads = false
       /\ err (LoadDePINSpecs l fs) = None
       /\ projects (LoadDePINSpecs l fs) = validProjects (createFieldMap header) reads.
Proof.
  unfold LoadDePINSpecs.
  destruct (fs (filePath l)) as [e | [|[header|e] reads]]; try (left; reflexivity).
  pose proof (readRows_spec (createFieldMap header) reads [] 2 []) as H.
  cbn zeta in H. cbn [app] in H.
  destruct (has_failure reads) eqn:F; [left; apply H|].
  destruct (validProjects (createFieldMap header) reads) as [|p ps] eqn:E;
    [left; apply H|].
  right. exists header, reads. rewrite E. destruct H as [He Hp].
  repeat split; assumption.
Qed.

Lemma int_mul_small (z : Z) : 0 <= z <= 100000 -> int_mul z 2 = z * 2.
Proof.
  intros H. unfold int_mul, int_wrap. rewrite Z.mod_small; lia.
Qed.

(** X19: every project of a loaded catalog has passed the checks of
    [validateProject]; hence, in [calculatePerformanceBonus], the products
    [CPUCoresMin*2] and [NetworkMbpsMin*2] of a catalog project never
    overflow. *)
Theorem loaded_projects_in_ranges (l : Loader) (fs : filesystem)
    (project : DePINProject.t) :
  In project (projects (LoadDePINSpecs l fs)) ->
  in_ranges project
  /\ int_mul (CPUCoresMin project) 2 = CPUCoresMin project * 2
  /\ int_mul (NetworkMbpsMin project) 2 = NetworkMbpsMin project * 2.
Proof.
  intros Hin.
  assert (R : in_ranges project).
  { destruct (loaded_is_valid l fs) as [E | (header & reads & _ & _ & _ & E)];
      rewrite E in Hin; [destruct Hin|].
    pose proof (validProjects_in_ranges (createFieldMap header) reads) as F.
    rewrite Lists.List.Forall_forall in F. apply F, Hin. }
  split; [exact R|].
  destruct R as (_ & Hc & _ & _ & Hn).
  split; apply int_mul_small; lia.
Qed.

Lemma readRows_stdout fieldMap reads : forall collected lineNumber out,
  has_failure reads = false ->
  length (stdout (readRows fieldMap reads collected lineNumber out))
  = (length out + rejectedRows fieldMap reads)%nat.
Proof.
  unfold rejectedRows.
  induction reads as [|rd reads IH]; intros collected lineNumber out F.
  - cbn [readRows List.filter length]. destruct (length collected =? 0)%nat; simpl; lia.
  - destruct rd as [record|e]; [|discriminate F].
    cbn [has_failure existsb is_failure orb] in F. fold (has_failure reads) in F.
    cbn [readRows List.filter accepted].
    rewrite (parseProjectRecord_line record fieldMap lineNumber).
    destruct (parseProjectRecord record fieldMap 0) as [project [e|]].
    + rewrite IH by exact F. rewrite length_app. cbn [length]. lia.
    + rewrite IH by exact F. reflexivity.
Qed.

Lemma valid_plus_rejected fieldMap reads :
  (length (validProjects fieldMap reads) + rejectedRows fieldMap reads
   = length reads)%nat.
Proof.
  unfold rejectedRows.
  induction reads as [|rd reads IH]; [reflexivity|].
  cbn [validProjects List.filter].
  destruct (accepted fieldMap rd); cbn [length]; lia.
Qed.

(** X20: when loading succeeds, every data row of the file is either in
    the catalog or reported by one warning line on standard output: the
    number of projects plus the number of warnings is the number of data
    rows. *)
Theorem loaded_plus_warned (l : Loader) (fs : filesystem)
    (header : list string) (reads : list read) :
  fs (filePath l) = inr (Row header :: reads) ->
  err (LoadDePINSpecs l fs) = None ->
  (length (projects (LoadDePINSpecs l fs)) + length (stdout (LoadDePINSpecs l fs))
   = length reads)%nat.
Proof.
  intros Hfs Herr.
  destruct (loaded_is_valid l fs) as [E | (header' & reads' & Hfs' & F & _ & E)].
  - exfalso. revert Herr E. unfold LoadDePINSpecs. rewrite Hfs.
    pose proof (readRows_spec (createFieldMap header) reads [] 2 []) as H.
    cbn zeta in H. cbn [app] in H.
    destruct (has_failure reads); [intros He _; apply H, He|].
    destruct (validProjects (createFieldMap header) reads);
      [intros He _; apply H, He|].
    intros _ E. destruct H as [_ Hp]. rewrite Hp in E. discriminate E.
  - rewrite Hfs in Hfs'. injection Hfs' as <- <-.
    rewrite E. unfold LoadDePINSpecs. rewrite Hfs.
    rewrite (readRows_stdout _ _ _ _ _ F). cbn [length].
    apply valid_plus_rejected.
Qed.

Lemma readRows_failure fieldMap (before : list read) (e : error) (after : list read) :
  forall collected lineNumber out,
    has_failure before = false ->
    let r := readRows fieldMap (before ++ ReadFailure e :: after) collected lineNumber
               out in
    projects r = []
    /\ err r = Some ("failed to read CSV line "
                     +:+ fmt_d (lineNumber + Z.of_nat (length before))
                     +:+ ": " +:+ e).
Proof.
  induction before as [|rd before IH]; intros collected lineNumber out F.
  - cbn [app readRows length Z.of_nat projects err]. rewrite Z.add_0_r.
    split; reflexivity.
  - destruct rd as [record|e']; [|discriminate F].
    cbn [has_failure existsb is_failure orb] in F. fold (has_failure before) in F.
    cbn [app readRows]. cbn zeta.
    replace (lineNumber + Z.of_nat (length (Row record :: before)))
      with (lineNumber + 1 + Z.of_nat (length before))
      by (cbn [length]; lia).
    destruct (parseProjectRecord record fieldMap lineNumber) as [project [e'|]];
      apply IH, F.
Qed.

(** X21: when the CSV reader fails on a data row, [LoadDePINSpecs] returns
    no project at all (the rows accepted before are dropped) and the error
    "failed to read CSV line N: ..." where N counts the header as line 1
    and every record before the failing one as one line. *)
Theorem read_failure_reports_line (l : Loader) (fs : filesystem)
    (header : list string) (before : list read) (e : error) (after : list read) :
  fs (filePath l) = inr (Row header :: before ++ ReadFailure e :: after) ->
  has_failure before = false ->
  projects (LoadDePINSpecs l fs) = []
  /\ err (LoadDePINSpecs l fs)
     = Some ("failed to read CSV line " +:+ fmt_d (2 + Z.of_nat (length before))
             +:+ ": " +:+ e).
Proof.
  intros Hfs F. unfold LoadDePINSpecs. rewrite Hfs.
  apply (readRows_failure (createFieldMap header) before e after [] 2 [] F).
Qed.

End Tables.

(** The examples are ASCII text, which never reaches the case tables. *)
#[local] Existing Instance caseless.

Lemma createFieldMap_last_column_witness :
  createFieldMap ["Name"; "CPU Cores Min"; " name "] !! "name" = Some 2%nat.
Proof.
  apply (proj2 (createFieldMap_last_column ["Name"; "CPU Cores Min"; " name "]
                  "name" 2)).
  split.
  - exists " name ". split; reflexivity.
  - intros j field Hj Hl. apply lookup_lt_Some in Hl. simpl in Hl. lia.
Defined.

Lemma getters_zero_without_column_witness :
  getIntField ["Helium"] (createFieldMap ["name"; "cpu_cores_min"]) ["cpu_cores_min"]
  = 0.
Proof.
  apply (getters_zero_without_column ["Helium"]
           (createFieldMap ["name"; "cpu_cores_min"]) ["cpu_cores_min"]).
  intros name idx [<-|[]] H. vm_compute in H. injection H as <-. simpl. lia.
Defined.

Lemma validateProject_accepts_iff_witness : validateProject Helium = None.
Proof.
  apply (proj2 (validateProject_accepts_iff Helium)).
  unfold in_ranges. simpl. repeat split; try lia. discriminate.
Defined.

Lemma loaded_projects_in_ranges_witness : in_ranges Helium.
Proof.
  apply (loaded_projects_in_ranges (NewLoader "data/depin.csv") no_defaults_fs Helium).
  vm_compute. left. reflexivity.
Defined.

Lemma loaded_plus_warned_witness :
  (length (projects (LoadDePINSpecs (NewLoader "data/depin.csv") no_defaults_fs))
   + length (stdout (LoadDePINSpecs (NewLoader "data/depin.csv") no_defaults_fs))
   = 1)%nat.
Proof.
  apply (loaded_plus_warned (NewLoader "data/depin.csv") no_defaults_fs
           ["project_name"; "cpu_cores_min"; "cost_max"]
           [Row ["Helium"; "2"; "10"]]).
  - reflexivity.
  - vm_compute. reflexivity.
Defined.

Lemma read_failure_reports_line_witness :
  err (LoadDePINSpecs (NewLoader "data/depin.csv") broken_row_fs)
  = Some ("failed to read CSV line " +:+ fmt_d (2 + Z.of_nat (length [Row ["Helium"; "2"]]))
          +:+ ": "
          +:+ "parse error on line 3, column 7: bare quote in non-quoted-field").
Proof.
  apply (read_failure_reports_line (NewLoader "data/depin.csv") broken_row_fs
           ["project_name"; "cpu_cores_min"] [Row ["Helium"; "2"]]
           "parse error on line 3, column 7: bare quote in non-quoted-field"
           [Row ["Akash"; "4"]]);
    reflexivity.
Defined.

End LoadMore.
